(** * The output history of libfizmo: [src/interpreter/history.c]

    A shallow embedding of the wrap-around output history (the store
    [OUTPUTHISTORY]) and of its read-side iterator ([history_output]),
    followed by the properties of the specification, each one settled
    against the embedded code.

    Conventions of the embedding.
    - A [z_ucs*] into the history buffer is the offset of the cell from
      [z_history_buffer_start]; the block that [z_history_buffer_start]
      points to is the list of its cells ([size + 1] of them, the last one
      being the guard cell), and the empty list stands for [NULL].  Before
      the first allocation every pointer of the store is [NULL], and
      [NULL - NULL] is [0], so the offsets start at [0].
    - Machine integers are [Z] with the wrap-around written out
      ([to_size_t], [to_unsigned_int], [to_int16], ...).  The data model is
      LP64 with the least significant byte first.  Counters of type [int]
      and [long] count cells of one buffer and are kept as plain [Z].
    - Two pointers into the buffer are compared by their offsets: a block
      that is reallocated is taken to stay where it is.
    - A function returns an [outcome]: a value, the process exit of
      [i18n_translate_and_exit], an access outside of an object, or a loop
      that does not end within the [loop_budget] of the environment. *)

From Stdlib Require Import ZArith List Bool Lia String Ascii.
From stdpp Require Import base list relations.

Local Open Scope Z_scope.

(** ** Machine integers *)

Definition to_size_t (z : Z) : Z := z mod 2 ^ 64.
Definition to_unsigned_int (z : Z) : Z := z mod 2 ^ 32.
Definition to_signed (bits : Z) (z : Z) : Z :=
  let m := z mod 2 ^ bits in
  if m <? 2 ^ (bits - 1) then m else m - 2 ^ bits.
Definition to_long (z : Z) : Z := to_signed 64 z.
Definition to_int (z : Z) : Z := to_signed 32 z.
Definition to_int16 (z : Z) : Z := to_signed 16 z.

(** [z_ucs] is an unsigned 32 bit code unit; [z_font], [z_style] and
    [z_colour] hold what [store_metadata_in_history] reads as [int16_t]
    ("All ... values must be int16_t"). *)
Definition to_z_ucs (z : Z) : Z := to_unsigned_int z.
Definition sizeof_z_ucs : Z := 4.
Definition to_z_font (z : Z) : Z := to_int16 z.
Definition to_z_style (z : Z) : Z := to_int16 z.
Definition to_z_colour (z : Z) : Z := to_int16 z.

(** ** Outcomes *)

Inductive outcome (A : Type) : Type :=
| Returns (a : A)
| Exits        (* i18n_translate_and_exit was called *)
| Undefined    (* a cell outside of its object was read or written *)
| Diverges.    (* the loop budget was used up *)

Arguments Returns {A} a.
Arguments Exits {A}.
Arguments Undefined {A}.
Arguments Diverges {A}.

#[export] Instance outcome_ret : MRet outcome := fun A a => Returns a.
#[export] Instance outcome_bind : MBind outcome := fun A B f m =>
  match m with
  | Returns a => f a
  | Exits => Exits
  | Undefined => Undefined
  | Diverges => Diverges
  end.

Definition i18n_translate_and_exit {A : Type} : outcome A := Exits.

(** ** Constants of [history.h], and what the embedding leaves open

    [history.h] is not part of the sources at hand.  The escape code unit,
    the data offset, the newline and [Z_COLOUR_UNDEFINED] are fixed by the
    comments of [history.c]; the other constants are fields of the
    environment, together with the choices the C code leaves to its run
    time system. *)

(** "metadata is prefixed with a HISTORY_METADATA_ESCAPE character which
    is 0" *)
Definition HISTORY_METADATA_ESCAPE : Z := 0.
(** "All parameter values are offset by +13." *)
Definition HISTORY_METADATA_DATA_OFFSET : Z := 13.
(** ['\n'] *)
Definition Z_UCS_NEWLINE : Z := 10.
(** "-2 is the lowest allowed value for Z_COLOUR_UNDEFINED" *)
Definition Z_COLOUR_UNDEFINED : Z := -2.
Definition REPEAT_PARAGRAPH_BUF_SIZE : Z := 1280.

Record environment : Type := {
  HISTORY_METADATA_TYPE_FONT : Z;
  HISTORY_METADATA_TYPE_STYLE : Z;
  HISTORY_METADATA_TYPE_COLOUR : Z;
  HISTORY_METADATA_TYPE_PARAGRAPHATTRIBUTE : Z;
  Z_HISTORY_METADATA_STATE_BLOCK_SIZE : Z;
  Z_HISTORY_OUTPUT_FROM_BUFFERBACK : Z;
  Z_HISTORY_OUTPUT_WITHOUT_VALIDATION : Z;
  (* is the global [paragraph_removal_function] set? *)
  paragraph_removal_function : bool;
  (* does [realloc] to that many bytes succeed? *)
  realloc_succeeds : Z -> bool;
  (* the content of a cell that was allocated and never written *)
  indeterminate : Z -> Z;
  (* the number of iterations granted to a loop that may not end *)
  loop_budget : nat
}.

(** The environment of the scenarios: the record types numbered from 1
    to 4, state blocks of 256 units, no paragraph removal function, a heap
    that never runs out and hands out zeroed cells, and 4096 iterations
    for a loop. *)
Definition fizmo_environment : environment :=
  {| HISTORY_METADATA_TYPE_FONT := 1;
     HISTORY_METADATA_TYPE_STYLE := 2;
     HISTORY_METADATA_TYPE_COLOUR := 3;
     HISTORY_METADATA_TYPE_PARAGRAPHATTRIBUTE := 4;
     Z_HISTORY_METADATA_STATE_BLOCK_SIZE := 256;
     Z_HISTORY_OUTPUT_FROM_BUFFERBACK := 1;
     Z_HISTORY_OUTPUT_WITHOUT_VALIDATION := 2;
     paragraph_removal_function := false;
     realloc_succeeds := fun _ => true;
     indeterminate := fun _ => 0;
     loop_budget := 4096 |}.

(** ** The store *)

(** The calls a [history_output_target] receives. *)
Inductive target_call : Type :=
| set_font (font : Z)
| set_text_style (style : Z)
| set_colour (foreground background window : Z)
| z_ucs_output (text : list Z).

(** [OUTPUTHISTORY].  [z_history_buffer_start] is the block itself, and
    the other pointers are offsets into it.  [paragraphs_removed] is not
    a field of the C structure: it records the calls of the global
    [paragraph_removal_function], in their order. *)
Record OUTPUTHISTORY : Type := {
  window_number : Z;
  z_history_buffer_size : Z;
  z_history_maximum_buffer_size : Z;
  z_history_buffer_increment_size : Z;
  z_history_buffer_start : list Z;
  z_history_buffer_end : Z;
  z_history_buffer_front_index : Z;
  z_history_buffer_back_index : Z;
  nof_wraparounds : Z;
  last_metadata_block_index : Z;
  next_newline_after_buffer_back : option Z;
  history_buffer_back_index_font : Z;
  history_buffer_back_index_style : Z;
  history_buffer_back_index_foreground : Z;
  history_buffer_back_index_background : Z;
  history_buffer_front_index_font : Z;
  history_buffer_front_index_style : Z;
  history_buffer_front_index_foreground : Z;
  history_buffer_front_index_background : Z;
  paragraphs_removed : list (Z * Z)
}.

(** Assignments to the fields that the code assigns. *)

Definition set_z_history_buffer_size (v : Z) (h : OUTPUTHISTORY) : OUTPUTHISTORY :=
  {| window_number := window_number h; z_history_buffer_size := v;
     z_history_maximum_buffer_size := z_history_maximum_buffer_size h;
     z_history_buffer_increment_size := z_history_buffer_increment_size h;
     z_history_buffer_start := z_history_buffer_start h;
     z_history_buffer_end := z_history_buffer_end h;
     z_history_buffer_front_index := z_history_buffer_front_index h;
     z_history_buffer_back_index := z_history_buffer_back_index h;
     nof_wraparounds := nof_wraparounds h;
     last_metadata_block_index := last_metadata_block_index h;
     next_newline_after_buffer_back := next_newline_after_buffer_back h;
     history_buffer_back_index_font := history_buffer_back_index_font h;
     history_buffer_back_index_style := history_buffer_back_index_style h;
     history_buffer_back_index_foreground := history_buffer_back_index_foreground h;
     history_buffer_back_index_background := history_buffer_back_index_background h;
     history_buffer_front_index_font := history_buffer_front_index_font h;
     history_buffer_front_index_style := history_buffer_front_index_style h;
     history_buffer_front_index_foreground := history_buffer_front_index_foreground h;
     history_buffer_front_index_background := history_buffer_front_index_background h;
     paragraphs_removed := paragraphs_removed h |}.

Definition set_z_history_buffer_start (v : list Z) (h : OUTPUTHISTORY) : OUTPUTHISTORY :=
  {| window_number := window_number h;
     z_history_buffer_size := z_history_buffer_size h;
     z_history_maximum_buffer_size := z_history_maximum_buffer_size h;
     z_history_buffer_increment_size := z_history_buffer_increment_size h;
     z_history_buffer_start := v;
     z_history_buffer_end := z_history_buffer_end h;
     z_history_buffer_front_index := z_history_buffer_front_index h;
     z_history_buffer_back_index := z_history_buffer_back_index h;
     nof_wraparounds := nof_wraparounds h;
     last_metadata_block_index := last_metadata_block_index h;
     next_newline_after_buffer_back := next_newline_after_buffer_back h;
     history_buffer_back_index_font := history_buffer_back_index_font h;
     history_buffer_back_index_style := history_buffer_back_index_style h;
     history_buffer_back_index_foreground := history_buffer_back_index_foreground h;
     history_buffer_back_index_background := history_buffer_back_index_background h;
     history_buffer_front_index_font := history_buffer_front_index_font h;
     history_buffer_front_index_style := history_buffer_front_index_style h;
     history_buffer_front_index_foreground := history_buffer_front_index_foreground h;
     history_buffer_front_index_background := history_buffer_front_index_background h;
     paragraphs_removed := paragraphs_removed h |}.

Definition set_z_history_buffer_end (v : Z) (h : OUTPUTHISTORY) : OUTPUTHISTORY :=
  {| window_number := window_number h;
     z_history_buffer_size := z_history_buffer_size h;
     z_history_maximum_buffer_size := z_history_maximum_buffer_size h;
     z_history_buffer_increment_size := z_history_buffer_increment_size h;
     z_history_buffer_start := z_history_buffer_start h;
     z_history_buffer_end := v;
     z_history_buffer_front_index := z_history_buffer_front_index h;
     z_history_buffer_back_index := z_history_buffer_back_index h;
     nof_wraparounds := nof_wraparounds h;
     last_metadata_block_index := last_metadata_block_index h;
     next_newline_after_buffer_back := next_newline_after_buffer_back h;
     history_buffer_back_index_font := history_buffer_back_index_font h;
     history_buffer_back_index_style := history_buffer_back_index_style h;
     history_buffer_back_index_foreground := history_buffer_back_index_foreground h;
     history_buffer_back_index_background := history_buffer_back_index_background h;
     history_buffer_front_index_font := history_buffer_front_index_font h;
     history_buffer_front_index_style := history_buffer_front_index_style h;
     history_buffer_front_index_foreground := history_buffer_front_index_foreground h;
     history_buffer_front_index_background := history_buffer_front_index_background h;
     paragraphs_removed := paragraphs_removed h |}.

Definition set_z_history_buffer_front_index (v : Z) (h : OUTPUTHISTORY) : OUTPUTHISTORY :=
  {| window_number := window_number h;
     z_history_buffer_size := z_history_buffer_size h;
     z_history_maximum_buffer_size := z_history_maximum_buffer_size h;
     z_history_buffer_increment_size := z_history_buffer_increment_size h;
     z_history_buffer_start := z_history_buffer_start h;
     z_history_buffer_end := z_history_buffer_end h;
     z_history_buffer_front_index := v;
     z_history_buffer_back_index := z_history_buffer_back_index h;
     nof_wraparounds := nof_wraparounds h;
     last_metadata_block_index := last_metadata_block_index h;
     next_newline_after_buffer_back := next_newline_after_buffer_back h;
     history_buffer_back_index_font := history_buffer_back_index_font h;
     history_buffer_back_index_style := history_buffer_back_index_style h;
     history_buffer_back_index_foreground := history_buffer_back_index_foreground h;
     history_buffer_back_index_background := history_buffer_back_index_background h;
     history_buffer_front_index_font := history_buffer_front_index_font h;
     history_buffer_front_index_style := history_buffer_front_index_style h;
     history_buffer_front_index_foreground := history_buffer_front_index_foreground h;
     history_buffer_front_index_background := history_buffer_front_index_background h;
     paragraphs_removed := paragraphs_removed h |}.

Definition set_z_history_buffer_back_index (v : Z) (h : OUTPUTHISTORY) : OUTPUTHISTORY :=
  {| window_number := window_number h;
     z_history_buffer_size := z_history_buffer_size h;
     z_history_maximum_buffer_size := z_history_maximum_buffer_size h;
     z_history_buffer_increment_size := z_history_buffer_increment_size h;
     z_history_buffer_start := z_history_buffer_start h;
     z_history_buffer_end := z_history_buffer_end h;
     z_history_buffer_front_index := z_history_buffer_front_index h;
     z_history_buffer_back_index := v; nof_wraparounds := nof_wraparounds h;
     last_metadata_block_index := last_metadata_block_index h;
     next_newline_after_buffer_back := next_newline_after_buffer_back h;
     history_buffer_back_index_font := history_buffer_back_index_font h;
     history_buffer_back_index_style := history_buffer_back_index_style h;
     history_buffer_back_index_foreground := history_buffer_back_index_foreground h;
     history_buffer_back_index_background := history_buffer_back_index_background h;
     history_buffer_front_index_font := history_buffer_front_index_font h;
     history_buffer_front_index_style := history_buffer_front_index_style h;
     history_buffer_front_index_foreground := history_buffer_front_index_foreground h;
     history_buffer_front_index_background := history_buffer_front_index_background h;
     paragraphs_removed := paragraphs_removed h |}.

Definition set_nof_wraparounds (v : Z) (h : OUTPUTHISTORY) : OUTPUTHISTORY :=
  {| window_number := window_number h;
     z_history_buffer_size := z_history_buffer_size h;
     z_history_maximum_buffer_size := z_history_maximum_buffer_size h;
     z_history_buffer_increment_size := z_history_buffer_increment_size h;
     z_history_buffer_start := z_history_buffer_start h;
     z_history_buffer_end := z_history_buffer_end h;
     z_history_buffer_front_index := z_history_buffer_front_index h;
     z_history_buffer_back_index := z_history_buffer_back_index h;
     nof_wraparounds := v;
     last_metadata_block_index := last_metadata_block_index h;
     next_newline_after_buffer_back := next_newline_after_buffer_back h;
     history_buffer_back_index_font := history_buffer_back_index_font h;
     history_buffer_back_index_style := history_buffer_back_index_style h;
     history_buffer_back_index_foreground := history_buffer_back_index_foreground h;
     history_buffer_back_index_background := history_buffer_back_index_background h;
     history_buffer_front_index_font := history_buffer_front_index_font h;
     history_buffer_front_index_style := history_buffer_front_index_style h;
     history_buffer_front_index_foreground := history_buffer_front_index_foreground h;
     history_buffer_front_index_background := history_buffer_front_index_background h;
     paragraphs_removed := paragraphs_removed h |}.

Definition set_last_metadata_block_index (v : Z) (h : OUTPUTHISTORY) : OUTPUTHISTORY :=
  {| window_number := window_number h;
     z_history_buffer_size := z_history_buffer_size h;
     z_history_maximum_buffer_size := z_history_maximum_buffer_size h;
     z_history_buffer_increment_size := z_history_buffer_increment_size h;
     z_history_buffer_start := z_history_buffer_start h;
     z_history_buffer_end := z_history_buffer_end h;
     z_history_buffer_front_index := z_history_buffer_front_index h;
     z_history_buffer_back_index := z_history_buffer_back_index h;
     nof_wraparounds := nof_wraparounds h; last_metadata_block_index := v;
     next_newline_after_buffer_back := next_newline_after_buffer_back h;
     history_buffer_back_index_font := history_buffer_back_index_font h;
     history_buffer_back_index_style := history_buffer_back_index_style h;
     history_buffer_back_index_foreground := history_buffer_back_index_foreground h;
     history_buffer_back_index_background := history_buffer_back_index_background h;
     history_buffer_front_index_font := history_buffer_front_index_font h;
     history_buffer_front_index_style := history_buffer_front_index_style h;
     history_buffer_front_index_foreground := history_buffer_front_index_foreground h;
     history_buffer_front_index_background := history_buffer_front_index_background h;
     paragraphs_removed := paragraphs_removed h |}.

Definition set_next_newline_after_buffer_back (v : option Z) (h : OUTPUTHISTORY) : OUTPUTHISTORY :=
  {| window_number := window_number h;
     z_history_buffer_size := z_history_buffer_size h;
     z_history_maximum_buffer_size := z_history_maximum_buffer_size h;
     z_history_buffer_increment_size := z_history_buffer_increment_size h;
     z_history_buffer_start := z_history_buffer_start h;
     z_history_buffer_end := z_history_buffer_end h;
     z_history_buffer_front_index := z_history_buffer_front_index h;
     z_history_buffer_back_index := z_history_buffer_back_index h;
     nof_wraparounds := nof_wraparounds h;
     last_metadata_block_index := last_metadata_block_index h;
     next_newline_after_buffer_back := v;
     history_buffer_back_index_font := history_buffer_back_index_font h;
     history_buffer_back_index_style := history_buffer_back_index_style h;
     history_buffer_back_index_foreground := history_buffer_back_index_foreground h;
     history_buffer_back_index_background := history_buffer_back_index_background h;
     history_buffer_front_index_font := history_buffer_front_index_font h;
     history_buffer_front_index_style := history_buffer_front_index_style h;
     history_buffer_front_index_foreground := history_buffer_front_index_foreground h;
     history_buffer_front_index_background := history_buffer_front_index_background h;
     paragraphs_removed := paragraphs_removed h |}.

Definition set_history_buffer_back_index_font (v : Z) (h : OUTPUTHISTORY) : OUTPUTHISTORY :=
  {| window_number := window_number h;
     z_history_buffer_size := z_history_buffer_size h;
     z_history_maximum_buffer_size := z_history_maximum_buffer_size h;
     z_history_buffer_increment_size := z_history_buffer_increment_size h;
     z_history_buffer_start := z_history_buffer_start h;
     z_history_buffer_end := z_history_buffer_end h;
     z_history_buffer_front_index := z_history_buffer_front_index h;
     z_history_buffer_back_index := z_history_buffer_back_index h;
     nof_wraparounds := nof_wraparounds h;
     last_metadata_block_index := last_metadata_block_index h;
     next_newline_after_buffer_back := next_newline_after_buffer_back h;
     history_buffer_back_index_font := v;
     history_buffer_back_index_style := history_buffer_back_index_style h;
     history_buffer_back_index_foreground := history_buffer_back_index_foreground h;
     history_buffer_back_index_background := history_buffer_back_index_background h;
     history_buffer_front_index_font := history_buffer_front_index_font h;
     history_buffer_front_index_style := history_buffer_front_index_style h;
     history_buffer_front_index_foreground := history_buffer_front_index_foreground h;
     history_buffer_front_index_background := history_buffer_front_index_background h;
     paragraphs_removed := paragraphs_removed h |}.

Definition set_history_buffer_back_index_style (v : Z) (h : OUTPUTHISTORY) : OUTPUTHISTORY :=
  {| window_number := window_number h;
     z_history_buffer_size := z_history_buffer_size h;
     z_history_maximum_buffer_size := z_history_maximum_buffer_size h;
     z_history_buffer_increment_size := z_history_buffer_increment_size h;
     z_history_buffer_start := z_history_buffer_start h;
     z_history_buffer_end := z_history_buffer_end h;
     z_history_buffer_front_index := z_history_buffer_front_index h;
     z_history_buffer_back_index := z_history_buffer_back_index h;
     nof_wraparounds := nof_wraparounds h;
     last_metadata_block_index := last_metadata_block_index h;
     next_newline_after_buffer_back := next_newline_after_buffer_back h;
     history_buffer_back_index_font := history_buffer_back_index_font h;
     history_buffer_back_index_style := v;
     history_buffer_back_index_foreground := history_buffer_back_index_foreground h;
     history_buffer_back_index_background := history_buffer_back_index_background h;
     history_buffer_front_index_font := history_buffer_front_index_font h;
     history_buffer_front_index_style := history_buffer_front_index_style h;
     history_buffer_front_index_foreground := history_buffer_front_index_foreground h;
     history_buffer_front_index_background := history_buffer_front_index_background h;
     paragraphs_removed := paragraphs_removed h |}.

Definition set_history_buffer_back_index_foreground (v : Z) (h : OUTPUTHISTORY) : OUTPUTHISTORY :=
  {| window_number := window_number h;
     z_history_buffer_size := z_history_buffer_size h;
     z_history_maximum_buffer_size := z_history_maximum_buffer_size h;
     z_history_buffer_increment_size := z_history_buffer_increment_size h;
     z_history_buffer_start := z_history_buffer_start h;
     z_history_buffer_end := z_history_buffer_end h;
     z_history_buffer_front_index := z_history_buffer_front_index h;
     z_history_buffer_back_index := z_history_buffer_back_index h;
     nof_wraparounds := nof_wraparounds h;
     last_metadata_block_index := last_metadata_block_index h;
     next_newline_after_buffer_back := next_newline_after_buffer_back h;
     history_buffer_back_index_font := history_buffer_back_index_font h;
     history_buffer_back_index_style := history_buffer_back_index_style h;
     history_buffer_back_index_foreground := v;
     history_buffer_back_index_background := history_buffer_back_index_background h;
     history_buffer_front_index_font := history_buffer_front_index_font h;
     history_buffer_front_index_style := history_buffer_front_index_style h;
     history_buffer_front_index_foreground := history_buffer_front_index_foreground h;
     history_buffer_front_index_background := history_buffer_front_index_background h;
     paragraphs_removed := paragraphs_removed h |}.

Definition set_history_buffer_back_index_background (v : Z) (h : OUTPUTHISTORY) : OUTPUTHISTORY :=
  {| window_number := window_number h;
     z_history_buffer_size := z_history_buffer_size h;
     z_history_maximum_buffer_size := z_history_maximum_buffer_size h;
     z_history_buffer_increment_size := z_history_buffer_increment_size h;
     z_history_buffer_start := z_history_buffer_start h;
     z_history_buffer_end := z_history_buffer_end h;
     z_history_buffer_front_index := z_history_buffer_front_index h;
     z_history_buffer_back_index := z_history_buffer_back_index h;
     nof_wraparounds := nof_wraparounds h;
     last_metadata_block_index := last_metadata_block_index h;
     next_newline_after_buffer_back := next_newline_after_buffer_back h;
     history_buffer_back_index_font := history_buffer_back_index_font h;
     history_buffer_back_index_style := history_buffer_back_index_style h;
     history_buffer_back_index_foreground := history_buffer_back_index_foreground h;
     history_buffer_back_index_background := v;
     history_buffer_front_index_font := history_buffer_front_index_font h;
     history_buffer_front_index_style := history_buffer_front_index_style h;
     history_buffer_front_index_foreground := history_buffer_front_index_foreground h;
     history_buffer_front_index_background := history_buffer_front_index_background h;
     paragraphs_removed := paragraphs_removed h |}.

Definition set_history_buffer_front_index_font (v : Z) (h : OUTPUTHISTORY) : OUTPUTHISTORY :=
  {| window_number := window_number h;
     z_history_buffer_size := z_history_buffer_size h;
     z_history_maximum_buffer_size := z_history_maximum_buffer_size h;
     z_history_buffer_increment_size := z_history_buffer_increment_size h;
     z_history_buffer_start := z_history_buffer_start h;
     z_history_buffer_end := z_history_buffer_end h;
     z_history_buffer_front_index := z_history_buffer_front_index h;
     z_history_buffer_back_index := z_history_buffer_back_index h;
     nof_wraparounds := nof_wraparounds h;
     last_metadata_block_index := last_metadata_block_index h;
     next_newline_after_buffer_back := next_newline_after_buffer_back h;
     history_buffer_back_index_font := history_buffer_back_index_font h;
     history_buffer_back_index_style := history_buffer_back_index_style h;
     history_buffer_back_index_foreground := history_buffer_back_index_foreground h;
     history_buffer_back_index_background := history_buffer_back_index_background h;
     history_buffer_front_index_font := v;
     history_buffer_front_index_style := history_buffer_front_index_style h;
     history_buffer_front_index_foreground := history_buffer_front_index_foreground h;
     history_buffer_front_index_background := history_buffer_front_index_background h;
     paragraphs_removed := paragraphs_removed h |}.

Definition set_history_buffer_front_index_style (v : Z) (h : OUTPUTHISTORY) : OUTPUTHISTORY :=
  {| window_number := window_number h;
     z_history_buffer_size := z_history_buffer_size h;
     z_history_maximum_buffer_size := z_history_maximum_buffer_size h;
     z_history_buffer_increment_size := z_history_buffer_increment_size h;
     z_history_buffer_start := z_history_buffer_start h;
     z_history_buffer_end := z_history_buffer_end h;
     z_history_buffer_front_index := z_history_buffer_front_index h;
     z_history_buffer_back_index := z_history_buffer_back_index h;
     nof_wraparounds := nof_wraparounds h;
     last_metadata_block_index := last_metadata_block_index h;
     next_newline_after_buffer_back := next_newline_after_buffer_back h;
     history_buffer_back_index_font := history_buffer_back_index_font h;
     history_buffer_back_index_style := history_buffer_back_index_style h;
     history_buffer_back_index_foreground := history_buffer_back_index_foreground h;
     history_buffer_back_index_background := history_buffer_back_index_background h;
     history_buffer_front_index_font := history_buffer_front_index_font h;
     history_buffer_front_index_style := v;
     history_buffer_front_index_foreground := history_buffer_front_index_foreground h;
     history_buffer_front_index_background := history_buffer_front_index_background h;
     paragraphs_removed := paragraphs_removed h |}.

Definition set_history_buffer_front_index_foreground (v : Z) (h : OUTPUTHISTORY) : OUTPUTHISTORY :=
  {| window_number := window_number h;
     z_history_buffer_size := z_history_buffer_size h;
     z_history_maximum_buffer_size := z_history_maximum_buffer_size h;
     z_history_buffer_increment_size := z_history_buffer_increment_size h;
     z_history_buffer_start := z_history_buffer_start h;
     z_history_buffer_end := z_history_buffer_end h;
     z_history_buffer_front_index := z_history_buffer_front_index h;
     z_history_buffer_back_index := z_history_buffer_back_index h;
     nof_wraparounds := nof_wraparounds h;
     last_metadata_block_index := last_metadata_block_index h;
     next_newline_after_buffer_back := next_newline_after_buffer_back h;
     history_buffer_back_index_font := history_buffer_back_index_font h;
     history_buffer_back_index_style := history_buffer_back_index_style h;
     history_buffer_back_index_foreground := history_buffer_back_index_foreground h;
     history_buffer_back_index_background := history_buffer_back_index_background h;
     history_buffer_front_index_font := history_buffer_front_index_font h;
     history_buffer_front_index_style := history_buffer_front_index_style h;
     history_buffer_front_index_foreground := v;
     history_buffer_front_index_background := history_buffer_front_index_background h;
     paragraphs_removed := paragraphs_removed h |}.

Definition set_paragraphs_removed (v : list (Z * Z)) (h : OUTPUTHISTORY) : OUTPUTHISTORY :=
  {| window_number := window_number h;
     z_history_buffer_size := z_history_buffer_size h;
     z_history_maximum_buffer_size := z_history_maximum_buffer_size h;
     z_history_buffer_increment_size := z_history_buffer_increment_size h;
     z_history_buffer_start := z_history_buffer_start h;
     z_history_buffer_end := z_history_buffer_end h;
     z_history_buffer_front_index := z_history_buffer_front_index h;
     z_history_buffer_back_index := z_history_buffer_back_index h;
     nof_wraparounds := nof_wraparounds h;
     last_metadata_block_index := last_metadata_block_index h;
     next_newline_after_buffer_back := next_newline_after_buffer_back h;
     history_buffer_back_index_font := history_buffer_back_index_font h;
     history_buffer_back_index_style := history_buffer_back_index_style h;
     history_buffer_back_index_foreground := history_buffer_back_index_foreground h;
     history_buffer_back_index_background := history_buffer_back_index_background h;
     history_buffer_front_index_font := history_buffer_front_index_font h;
     history_buffer_front_index_style := history_buffer_front_index_style h;
     history_buffer_front_index_foreground := history_buffer_front_index_foreground h;
     history_buffer_front_index_background := history_buffer_front_index_background h;
     paragraphs_removed := v |}.

(** ** The iterator's record *)

(** [history_output].  The store [history] that the C structure points
    to is passed along with the iterator; the field [nof_wraparounds] of
    the C structure is [output_nof_wraparounds] here, as the store has a
    field of that name; [target] records the calls that the target has
    received, in their order. *)
Record history_output : Type := {
  validity_wraparounds : Z;
  validity_frontindex : Z;
  target : list target_call;
  validation_disabled : bool;
  dont_skip_newline : bool;
  last_paragraph_attribute_index : option Z;
  current_paragraph_index : Z;
  output_nof_wraparounds : Z;
  found_end_of_buffer : bool;
  first_iteration_done : bool;
  rewound_paragraph_was_newline_terminated : bool;
  metadata_at_index_evaluated : bool;
  font_at_index : Z;
  style_at_index : Z;
  foreground_at_index : Z;
  background_at_index : Z;
  last_rewinded_paragraphs_block_index : Z;
  last_used_metadata_state_font : Z;
  last_used_metadata_state_style : Z;
  last_used_metadata_state_foreground : Z;
  last_used_metadata_state_background : Z;
  saved_current_paragraph_index : Z;
  saved_nof_wraparounds : Z;
  saved_found_end_of_buffer : bool;
  saved_first_iteration_done : bool;
  saved_rewound_paragraph_was_newline_terminated : bool;
  saved_metadata_at_index_evaluated : bool;
  saved_font_at_index : Z;
  saved_style_at_index : Z;
  saved_foreground_at_index : Z;
  saved_background_at_index : Z;
  saved_last_rewinded_paragraphs_block_index : Z;
  saved_last_used_metadata_state_font : Z;
  saved_last_used_metadata_state_style : Z;
  saved_last_used_metadata_state_foreground : Z;
  saved_last_used_metadata_state_background : Z
}.

(** Assignments to the fields that the code assigns one by one. *)

Definition set_target (v : list target_call) (output : history_output) : history_output :=
  {| validity_wraparounds := validity_wraparounds output;
     validity_frontindex := validity_frontindex output; target := v;
     validation_disabled := validation_disabled output;
     dont_skip_newline := dont_skip_newline output;
     last_paragraph_attribute_index := last_paragraph_attribute_index output;
     current_paragraph_index := current_paragraph_index output;
     output_nof_wraparounds := output_nof_wraparounds output;
     found_end_of_buffer := found_end_of_buffer output;
     first_iteration_done := first_iteration_done output;
     rewound_paragraph_was_newline_terminated := rewound_paragraph_was_newline_terminated output;
     metadata_at_index_evaluated := metadata_at_index_evaluated output;
     font_at_index := font_at_index output;
     style_at_index := style_at_index output;
     foreground_at_index := foreground_at_index output;
     background_at_index := background_at_index output;
     last_rewinded_paragraphs_block_index := last_rewinded_paragraphs_block_index output;
     last_used_metadata_state_font := last_used_metadata_state_font output;
     last_used_metadata_state_style := last_used_metadata_state_style output;
     last_used_metadata_state_foreground := last_used_metadata_state_foreground output;
     last_used_metadata_state_background := last_used_metadata_state_background output;
     saved_current_paragraph_index := saved_current_paragraph_index output;
     saved_nof_wraparounds := saved_nof_wraparounds output;
     saved_found_end_of_buffer := saved_found_end_of_buffer output;
     saved_first_iteration_done := saved_first_iteration_done output;
     saved_rewound_paragraph_was_newline_terminated := saved_rewound_paragraph_was_newline_terminated output;
     saved_metadata_at_index_evaluated := saved_metadata_at_index_evaluated output;
     saved_font_at_index := saved_font_at_index output;
     saved_style_at_index := saved_style_at_index output;
     saved_foreground_at_index := saved_foreground_at_index output;
     saved_background_at_index := saved_background_at_index output;
     saved_last_rewinded_paragraphs_block_index := saved_last_rewinded_paragraphs_block_index output;
     saved_last_used_metadata_state_font := saved_last_used_metadata_state_font output;
     saved_last_used_metadata_state_style := saved_last_used_metadata_state_style output;
     saved_last_used_metadata_state_foreground := saved_last_used_metadata_state_foreground output;
     saved_last_used_metadata_state_background := saved_last_used_metadata_state_background output |}.

Definition set_dont_skip_newline (v : bool) (output : history_output) : history_output :=
  {| validity_wraparounds := validity_wraparounds output;
     validity_frontindex := validity_frontindex output;
     target := target output;
     validation_disabled := validation_disabled output;
     dont_skip_newline := v;
     last_paragraph_attribute_index := last_paragraph_attribute_index output;
     current_paragraph_index := current_paragraph_index output;
     output_nof_wraparounds := output_nof_wraparounds output;
     found_end_of_buffer := found_end_of_buffer output;
     first_iteration_done := first_iteration_done output;
     rewound_paragraph_was_newline_terminated := rewound_paragraph_was_newline_terminated output;
     metadata_at_index_evaluated := metadata_at_index_evaluated output;
     font_at_index := font_at_index output;
     style_at_index := style_at_index output;
     foreground_at_index := foreground_at_index output;
     background_at_index := background_at_index output;
     last_rewinded_paragraphs_block_index := last_rewinded_paragraphs_block_index output;
     last_used_metadata_state_font := last_used_metadata_state_font output;
     last_used_metadata_state_style := last_used_metadata_state_style output;
     last_used_metadata_state_foreground := last_used_metadata_state_foreground output;
     last_used_metadata_state_background := last_used_metadata_state_background output;
     saved_current_paragraph_index := saved_current_paragraph_index output;
     saved_nof_wraparounds := saved_nof_wraparounds output;
     saved_found_end_of_buffer := saved_found_end_of_buffer output;
     saved_first_iteration_done := saved_first_iteration_done output;
     saved_rewound_paragraph_was_newline_terminated := saved_rewound_paragraph_was_newline_terminated output;
     saved_metadata_at_index_evaluated := saved_metadata_at_index_evaluated output;
     saved_font_at_index := saved_font_at_index output;
     saved_style_at_index := saved_style_at_index output;
     saved_foreground_at_index := saved_foreground_at_index output;
     saved_background_at_index := saved_background_at_index output;
     saved_last_rewinded_paragraphs_block_index := saved_last_rewinded_paragraphs_block_index output;
     saved_last_used_metadata_state_font := saved_last_used_metadata_state_font output;
     saved_last_used_metadata_state_style := saved_last_used_metadata_state_style output;
     saved_last_used_metadata_state_foreground := saved_last_used_metadata_state_foreground output;
     saved_last_used_metadata_state_background := saved_last_used_metadata_state_background output |}.

Definition set_last_paragraph_attribute_index (v : option Z) (output : history_output) : history_output :=
  {| validity_wraparounds := validity_wraparounds output;
     validity_frontindex := validity_frontindex output;
     target := target output;
     validation_disabled := validation_disabled output;
     dont_skip_newline := dont_skip_newline output;
     last_paragraph_attribute_index := v;
     current_paragraph_index := current_paragraph_index output;
     output_nof_wraparounds := output_nof_wraparounds output;
     found_end_of_buffer := found_end_of_buffer output;
     first_iteration_done := first_iteration_done output;
     rewound_paragraph_was_newline_terminated := rewound_paragraph_was_newline_terminated output;
     metadata_at_index_evaluated := metadata_at_index_evaluated output;
     font_at_index := font_at_index output;
     style_at_index := style_at_index output;
     foreground_at_index := foreground_at_index output;
     background_at_index := background_at_index output;
     last_rewinded_paragraphs_block_index := last_rewinded_paragraphs_block_index output;
     last_used_metadata_state_font := last_used_metadata_state_font output;
     last_used_metadata_state_style := last_used_metadata_state_style output;
     last_used_metadata_state_foreground := last_used_metadata_state_foreground output;
     last_used_metadata_state_background := last_used_metadata_state_background output;
     saved_current_paragraph_index := saved_current_paragraph_index output;
     saved_nof_wraparounds := saved_nof_wraparounds output;
     saved_found_end_of_buffer := saved_found_end_of_buffer output;
     saved_first_iteration_done := saved_first_iteration_done output;
     saved_rewound_paragraph_was_newline_terminated := saved_rewound_paragraph_was_newline_terminated output;
     saved_metadata_at_index_evaluated := saved_metadata_at_index_evaluated output;
     saved_font_at_index := saved_font_at_index output;
     saved_style_at_index := saved_style_at_index output;
     saved_foreground_at_index := saved_foreground_at_index output;
     saved_background_at_index := saved_background_at_index output;
     saved_last_rewinded_paragraphs_block_index := saved_last_rewinded_paragraphs_block_index output;
     saved_last_used_metadata_state_font := saved_last_used_metadata_state_font output;
     saved_last_used_metadata_state_style := saved_last_used_metadata_state_style output;
     saved_last_used_metadata_state_foreground := saved_last_used_metadata_state_foreground output;
     saved_last_used_metadata_state_background := saved_last_used_metadata_state_background output |}.

Definition set_current_paragraph_index (v : Z) (output : history_output) : history_output :=
  {| validity_wraparounds := validity_wraparounds output;
     validity_frontindex := validity_frontindex output;
     target := target output;
     validation_disabled := validation_disabled output;
     dont_skip_newline := dont_skip_newline output;
     last_paragraph_attribute_index := last_paragraph_attribute_index output;
     current_paragraph_index := v;
     output_nof_wraparounds := output_nof_wraparounds output;
     found_end_of_buffer := found_end_of_buffer output;
     first_iteration_done := first_iteration_done output;
     rewound_paragraph_was_newline_terminated := rewound_paragraph_was_newline_terminated output;
     metadata_at_index_evaluated := metadata_at_index_evaluated output;
     font_at_index := font_at_index output;
     style_at_index := style_at_index output;
     foreground_at_index := foreground_at_index output;
     background_at_index := background_at_index output;
     last_rewinded_paragraphs_block_index := last_rewinded_paragraphs_block_index output;
     last_used_metadata_state_font := last_used_metadata_state_font output;
     last_used_metadata_state_style := last_used_metadata_state_style output;
     last_used_metadata_state_foreground := last_used_metadata_state_foreground output;
     last_used_metadata_state_background := last_used_metadata_state_background output;
     saved_current_paragraph_index := saved_current_paragraph_index output;
     saved_nof_wraparounds := saved_nof_wraparounds output;
     saved_found_end_of_buffer := saved_found_end_of_buffer output;
     saved_first_iteration_done := saved_first_iteration_done output;
     saved_rewound_paragraph_was_newline_terminated := saved_rewound_paragraph_was_newline_terminated output;
     saved_metadata_at_index_evaluated := saved_metadata_at_index_evaluated output;
     saved_font_at_index := saved_font_at_index output;
     saved_style_at_index := saved_style_at_index output;
     saved_foreground_at_index := saved_foreground_at_index output;
     saved_background_at_index := saved_background_at_index output;
     saved_last_rewinded_paragraphs_block_index := saved_last_rewinded_paragraphs_block_index output;
     saved_last_used_metadata_state_font := saved_last_used_metadata_state_font output;
     saved_last_used_metadata_state_style := saved_last_used_metadata_state_style output;
     saved_last_used_metadata_state_foreground := saved_last_used_metadata_state_foreground output;
     saved_last_used_metadata_state_background := saved_last_used_metadata_state_background output |}.

Definition set_output_nof_wraparounds (v : Z) (output : history_output) : history_output :=
  {| validity_wraparounds := validity_wraparounds output;
     validity_frontindex := validity_frontindex output;
     target := target output;
     validation_disabled := validation_disabled output;
     dont_skip_newline := dont_skip_newline output;
     last_paragraph_attribute_index := last_paragraph_attribute_index output;
     current_paragraph_index := current_paragraph_index output;
     output_nof_wraparounds := v;
     found_end_of_buffer := found_end_of_buffer output;
     first_iteration_done := first_iteration_done output;
     rewound_paragraph_was_newline_terminated := rewound_paragraph_was_newline_terminated output;
     metadata_at_index_evaluated := metadata_at_index_evaluated output;
     font_at_index := font_at_index output;
     style_at_index := style_at_index output;
     foreground_at_index := foreground_at_index output;
     background_at_index := background_at_index output;
     last_rewinded_paragraphs_block_index := last_rewinded_paragraphs_block_index output;
     last_used_metadata_state_font := last_used_metadata_state_font output;
     last_used_metadata_state_style := last_used_metadata_state_style output;
     last_used_metadata_state_foreground := last_used_metadata_state_foreground output;
     last_used_metadata_state_background := last_used_metadata_state_background output;
     saved_current_paragraph_index := saved_current_paragraph_index output;
     saved_nof_wraparounds := saved_nof_wraparounds output;
     saved_found_end_of_buffer := saved_found_end_of_buffer output;
     saved_first_iteration_done := saved_first_iteration_done output;
     saved_rewound_paragraph_was_newline_terminated := saved_rewound_paragraph_was_newline_terminated output;
     saved_metadata_at_index_evaluated := saved_metadata_at_index_evaluated output;
     saved_font_at_index := saved_font_at_index output;
     saved_style_at_index := saved_style_at_index output;
     saved_foreground_at_index := saved_foreground_at_index output;
     saved_background_at_index := saved_background_at_index output;
     saved_last_rewinded_paragraphs_block_index := saved_last_rewinded_paragraphs_block_index output;
     saved_last_used_metadata_state_font := saved_last_used_metadata_state_font output;
     saved_last_used_metadata_state_style := saved_last_used_metadata_state_style output;
     saved_last_used_metadata_state_foreground := saved_last_used_metadata_state_foreground output;
     saved_last_used_metadata_state_background := saved_last_used_metadata_state_background output |}.

Definition set_found_end_of_buffer (v : bool) (output : history_output) : history_output :=
  {| validity_wraparounds := validity_wraparounds output;
     validity_frontindex := validity_frontindex output;
     target := target output;
     validation_disabled := validation_disabled output;
     dont_skip_newline := dont_skip_newline output;
     last_paragraph_attribute_index := last_paragraph_attribute_index output;
     current_paragraph_index := current_paragraph_index output;
     output_nof_wraparounds := output_nof_wraparounds output;
     found_end_of_buffer := v;
     first_iteration_done := first_iteration_done output;
     rewound_paragraph_was_newline_terminated := rewound_paragraph_was_newline_terminated output;
     metadata_at_index_evaluated := metadata_at_index_evaluated output;
     font_at_index := font_at_index output;
     style_at_index := style_at_index output;
     foreground_at_index := foreground_at_index output;
     background_at_index := background_at_index output;
     last_rewinded_paragraphs_block_index := last_rewinded_paragraphs_block_index output;
     last_used_metadata_state_font := last_used_metadata_state_font output;
     last_used_metadata_state_style := last_used_metadata_state_style output;
     last_used_metadata_state_foreground := last_used_metadata_state_foreground output;
     last_used_metadata_state_background := last_used_metadata_state_background output;
     saved_current_paragraph_index := saved_current_paragraph_index output;
     saved_nof_wraparounds := saved_nof_wraparounds output;
     saved_found_end_of_buffer := saved_found_end_of_buffer output;
     saved_first_iteration_done := saved_first_iteration_done output;
     saved_rewound_paragraph_was_newline_terminated := saved_rewound_paragraph_was_newline_terminated output;
     saved_metadata_at_index_evaluated := saved_metadata_at_index_evaluated output;
     saved_font_at_index := saved_font_at_index output;
     saved_style_at_index := saved_style_at_index output;
     saved_foreground_at_index := saved_foreground_at_index output;
     saved_background_at_index := saved_background_at_index output;
     saved_last_rewinded_paragraphs_block_index := saved_last_rewinded_paragraphs_block_index output;
     saved_last_used_metadata_state_font := saved_last_used_metadata_state_font output;
     saved_last_used_metadata_state_style := saved_last_used_metadata_state_style output;
     saved_last_used_metadata_state_foreground := saved_last_used_metadata_state_foreground output;
     saved_last_used_metadata_state_background := saved_last_used_metadata_state_background output |}.

Definition set_first_iteration_done (v : bool) (output : history_output) : history_output :=
  {| validity_wraparounds := validity_wraparounds output;
     validity_frontindex := validity_frontindex output;
     target := target output;
     validation_disabled := validation_disabled output;
     dont_skip_newline := dont_skip_newline output;
     last_paragraph_attribute_index := last_paragraph_attribute_index output;
     current_paragraph_index := current_paragraph_index output;
     output_nof_wraparounds := output_nof_wraparounds output;
     found_end_of_buffer := found_end_of_buffer output;
     first_iteration_done := v;
     rewound_paragraph_was_newline_terminated := rewound_paragraph_was_newline_terminated output;
     metadata_at_index_evaluated := metadata_at_index_evaluated output;
     font_at_index := font_at_index output;
     style_at_index := style_at_index output;
     foreground_at_index := foreground_at_index output;
     background_at_index := background_at_index output;
     last_rewinded_paragraphs_block_index := last_rewinded_paragraphs_block_index output;
     last_used_metadata_state_font := last_used_metadata_state_font output;
     last_used_metadata_state_style := last_used_metadata_state_style output;
     last_used_metadata_state_foreground := last_used_metadata_state_foreground output;
     last_used_metadata_state_background := last_used_metadata_state_background output;
     saved_current_paragraph_index := saved_current_paragraph_index output;
     saved_nof_wraparounds := saved_nof_wraparounds output;
     saved_found_end_of_buffer := saved_found_end_of_buffer output;
     saved_first_iteration_done := saved_first_iteration_done output;
     saved_rewound_paragraph_was_newline_terminated := saved_rewound_paragraph_was_newline_terminated output;
     saved_metadata_at_index_evaluated := saved_metadata_at_index_evaluated output;
     saved_font_at_index := saved_font_at_index output;
     saved_style_at_index := saved_style_at_index output;
     saved_foreground_at_index := saved_foreground_at_index output;
     saved_background_at_index := saved_background_at_index output;
     saved_last_rewinded_paragraphs_block_index := saved_last_rewinded_paragraphs_block_index output;
     saved_last_used_metadata_state_font := saved_last_used_metadata_state_font output;
     saved_last_used_metadata_state_style := saved_last_used_metadata_state_style output;
     saved_last_used_metadata_state_foreground := saved_last_used_metadata_state_foreground output;
     saved_last_used_metadata_state_background := saved_last_used_metadata_state_background output |}.

Definition set_rewound_paragraph_was_newline_terminated (v : bool) (output : history_output) : history_output :=
  {| validity_wraparounds := validity_wraparounds output;
     validity_frontindex := validity_frontindex output;
     target := target output;
     validation_disabled := validation_disabled output;
     dont_skip_newline := dont_skip_newline output;
     last_paragraph_attribute_index := last_paragraph_attribute_index output;
     current_paragraph_index := current_paragraph_index output;
     output_nof_wraparounds := output_nof_wraparounds output;
     found_end_of_buffer := found_end_of_buffer output;
     first_iteration_done := first_iteration_done output;
     rewound_paragraph_was_newline_terminated := v;
     metadata_at_index_evaluated := metadata_at_index_evaluated output;
     font_at_index := font_at_index output;
     style_at_index := style_at_index output;
     foreground_at_index := foreground_at_index output;
     background_at_index := background_at_index output;
     last_rewinded_paragraphs_block_index := last_rewinded_paragraphs_block_index output;
     last_used_metadata_state_font := last_used_metadata_state_font output;
     last_used_metadata_state_style := last_used_metadata_state_style output;
     last_used_metadata_state_foreground := last_used_metadata_state_foreground output;
     last_used_metadata_state_background := last_used_metadata_state_background output;
     saved_current_paragraph_index := saved_current_paragraph_index output;
     saved_nof_wraparounds := saved_nof_wraparounds output;
     saved_found_end_of_buffer := saved_found_end_of_buffer output;
     saved_first_iteration_done := saved_first_iteration_done output;
     saved_rewound_paragraph_was_newline_terminated := saved_rewound_paragraph_was_newline_terminated output;
     saved_metadata_at_index_evaluated := saved_metadata_at_index_evaluated output;
     saved_font_at_index := saved_font_at_index output;
     saved_style_at_index := saved_style_at_index output;
     saved_foreground_at_index := saved_foreground_at_index output;
     saved_background_at_index := saved_background_at_index output;
     saved_last_rewinded_paragraphs_block_index := saved_last_rewinded_paragraphs_block_index output;
     saved_last_used_metadata_state_font := saved_last_used_metadata_state_font output;
     saved_last_used_metadata_state_style := saved_last_used_metadata_state_style output;
     saved_last_used_metadata_state_foreground := saved_last_used_metadata_state_foreground output;
     saved_last_used_metadata_state_background := saved_last_used_metadata_state_background output |}.

Definition set_metadata_at_index_evaluated (v : bool) (output : history_output) : history_output :=
  {| validity_wraparounds := validity_wraparounds output;
     validity_frontindex := validity_frontindex output;
     target := target output;
     validation_disabled := validation_disabled output;
     dont_skip_newline := dont_skip_newline output;
     last_paragraph_attribute_index := last_paragraph_attribute_index output;
     current_paragraph_index := current_paragraph_index output;
     output_nof_wraparounds := output_nof_wraparounds output;
     found_end_of_buffer := found_end_of_buffer output;
     first_iteration_done := first_iteration_done output;
     rewound_paragraph_was_newline_terminated := rewound_paragraph_was_newline_terminated output;
     metadata_at_index_evaluated := v; font_at_index := font_at_index output;
     style_at_index := style_at_index output;
     foreground_at_index := foreground_at_index output;
     background_at_index := background_at_index output;
     last_rewinded_paragraphs_block_index := last_rewinded_paragraphs_block_index output;
     last_used_metadata_state_font := last_used_metadata_state_font output;
     last_used_metadata_state_style := last_used_metadata_state_style output;
     last_used_metadata_state_foreground := last_used_metadata_state_foreground output;
     last_used_metadata_state_background := last_used_metadata_state_background output;
     saved_current_paragraph_index := saved_current_paragraph_index output;
     saved_nof_wraparounds := saved_nof_wraparounds output;
     saved_found_end_of_buffer := saved_found_end_of_buffer output;
     saved_first_iteration_done := saved_first_iteration_done output;
     saved_rewound_paragraph_was_newline_terminated := saved_rewound_paragraph_was_newline_terminated output;
     saved_metadata_at_index_evaluated := saved_metadata_at_index_evaluated output;
     saved_font_at_index := saved_font_at_index output;
     saved_style_at_index := saved_style_at_index output;
     saved_foreground_at_index := saved_foreground_at_index output;
     saved_background_at_index := saved_background_at_index output;
     saved_last_rewinded_paragraphs_block_index := saved_last_rewinded_paragraphs_block_index output;
     saved_last_used_metadata_state_font := saved_last_used_metadata_state_font output;
     saved_last_used_metadata_state_style := saved_last_used_metadata_state_style output;
     saved_last_used_metadata_state_foreground := saved_last_used_metadata_state_foreground output;
     saved_last_used_metadata_state_background := saved_last_used_metadata_state_background output |}.

Definition set_font_at_index (v : Z) (output : history_output) : history_output :=
  {| validity_wraparounds := validity_wraparounds output;
     validity_frontindex := validity_frontindex output;
     target := target output;
     validation_disabled := validation_disabled output;
     dont_skip_newline := dont_skip_newline output;
     last_paragraph_attribute_index := last_paragraph_attribute_index output;
     current_paragraph_index := current_paragraph_index output;
     output_nof_wraparounds := output_nof_wraparounds output;
     found_end_of_buffer := found_end_of_buffer output;
     first_iteration_done := first_iteration_done output;
     rewound_paragraph_was_newline_terminated := rewound_paragraph_was_newline_terminated output;
     metadata_at_index_evaluated := metadata_at_index_evaluated output;
     font_at_index := v; style_at_index := style_at_index output;
     foreground_at_index := foreground_at_index output;
     background_at_index := background_at_index output;
     last_rewinded_paragraphs_block_index := last_rewinded_paragraphs_block_index output;
     last_used_metadata_state_font := last_used_metadata_state_font output;
     last_used_metadata_state_style := last_used_metadata_state_style output;
     last_used_metadata_state_foreground := last_used_metadata_state_foreground output;
     last_used_metadata_state_background := last_used_metadata_state_background output;
     saved_current_paragraph_index := saved_current_paragraph_index output;
     saved_nof_wraparounds := saved_nof_wraparounds output;
     saved_found_end_of_buffer := saved_found_end_of_buffer output;
     saved_first_iteration_done := saved_first_iteration_done output;
     saved_rewound_paragraph_was_newline_terminated := saved_rewound_paragraph_was_newline_terminated output;
     saved_metadata_at_index_evaluated := saved_metadata_at_index_evaluated output;
     saved_font_at_index := saved_font_at_index output;
     saved_style_at_index := saved_style_at_index output;
     saved_foreground_at_index := saved_foreground_at_index output;
     saved_background_at_index := saved_background_at_index output;
     saved_last_rewinded_paragraphs_block_index := saved_last_rewinded_paragraphs_block_index output;
     saved_last_used_metadata_state_font := saved_last_used_metadata_state_font output;
     saved_last_used_metadata_state_style := saved_last_used_metadata_state_style output;
     saved_last_used_metadata_state_foreground := saved_last_used_metadata_state_foreground output;
     saved_last_used_metadata_state_background := saved_last_used_metadata_state_background output |}.

Definition set_style_at_index (v : Z) (output : history_output) : history_output :=
  {| validity_wraparounds := validity_wraparounds output;
     validity_frontindex := validity_frontindex output;
     target := target output;
     validation_disabled := validation_disabled output;
     dont_skip_newline := dont_skip_newline output;
     last_paragraph_attribute_index := last_paragraph_attribute_index output;
     current_paragraph_index := current_paragraph_index output;
     output_nof_wraparounds := output_nof_wraparounds output;
     found_end_of_buffer := found_end_of_buffer output;
     first_iteration_done := first_iteration_done output;
     rewound_paragraph_was_newline_terminated := rewound_paragraph_was_newline_terminated output;
     metadata_at_index_evaluated := metadata_at_index_evaluated output;
     font_at_index := font_at_index output; style_at_index := v;
     foreground_at_index := foreground_at_index output;
     background_at_index := background_at_index output;
     last_rewinded_paragraphs_block_index := last_rewinded_paragraphs_block_index output;
     last_used_metadata_state_font := last_used_metadata_state_font output;
     last_used_metadata_state_style := last_used_metadata_state_style output;
     last_used_metadata_state_foreground := last_used_metadata_state_foreground output;
     last_used_metadata_state_background := last_used_metadata_state_background output;
     saved_current_paragraph_index := saved_current_paragraph_index output;
     saved_nof_wraparounds := saved_nof_wraparounds output;
     saved_found_end_of_buffer := saved_found_end_of_buffer output;
     saved_first_iteration_done := saved_first_iteration_done output;
     saved_rewound_paragraph_was_newline_terminated := saved_rewound_paragraph_was_newline_terminated output;
     saved_metadata_at_index_evaluated := saved_metadata_at_index_evaluated output;
     saved_font_at_index := saved_font_at_index output;
     saved_style_at_index := saved_style_at_index output;
     saved_foreground_at_index := saved_foreground_at_index output;
     saved_background_at_index := saved_background_at_index output;
     saved_last_rewinded_paragraphs_block_index := saved_last_rewinded_paragraphs_block_index output;
     saved_last_used_metadata_state_font := saved_last_used_metadata_state_font output;
     saved_last_used_metadata_state_style := saved_last_used_metadata_state_style output;
     saved_last_used_metadata_state_foreground := saved_last_used_metadata_state_foreground output;
     saved_last_used_metadata_state_background := saved_last_used_metadata_state_background output |}.

Definition set_foreground_at_index (v : Z) (output : history_output) : history_output :=
  {| validity_wraparounds := validity_wraparounds output;
     validity_frontindex := validity_frontindex output;
     target := target output;
     validation_disabled := validation_disabled output;
     dont_skip_newline := dont_skip_newline output;
     last_paragraph_attribute_index := last_paragraph_attribute_index output;
     current_paragraph_index := current_paragraph_index output;
     output_nof_wraparounds := output_nof_wraparounds output;
     found_end_of_buffer := found_end_of_buffer output;
     first_iteration_done := first_iteration_done output;
     rewound_paragraph_was_newline_terminated := rewound_paragraph_was_newline_terminated output;
     metadata_at_index_evaluated := metadata_at_index_evaluated output;
     font_at_index := font_at_index output;
     style_at_index := style_at_index output; foreground_at_index := v;
     background_at_index := background_at_index output;
     last_rewinded_paragraphs_block_index := last_rewinded_paragraphs_block_index output;
     last_used_metadata_state_font := last_used_metadata_state_font output;
     last_used_metadata_state_style := last_used_metadata_state_style output;
     last_used_metadata_state_foreground := last_used_metadata_state_foreground output;
     last_used_metadata_state_background := last_used_metadata_state_background output;
     saved_current_paragraph_index := saved_current_paragraph_index output;
     saved_nof_wraparounds := saved_nof_wraparounds output;
     saved_found_end_of_buffer := saved_found_end_of_buffer output;
     saved_first_iteration_done := saved_first_iteration_done output;
     saved_rewound_paragraph_was_newline_terminated := saved_rewound_paragraph_was_newline_terminated output;
     saved_metadata_at_index_evaluated := saved_metadata_at_index_evaluated output;
     saved_font_at_index := saved_font_at_index output;
     saved_style_at_index := saved_style_at_index output;
     saved_foreground_at_index := saved_foreground_at_index output;
     saved_background_at_index := saved_background_at_index output;
     saved_last_rewinded_paragraphs_block_index := saved_last_rewinded_paragraphs_block_index output;
     saved_last_used_metadata_state_font := saved_last_used_metadata_state_font output;
     saved_last_used_metadata_state_style := saved_last_used_metadata_state_style output;
     saved_last_used_metadata_state_foreground := saved_last_used_metadata_state_foreground output;
     saved_last_used_metadata_state_background := saved_last_used_metadata_state_background output |}.

Definition set_background_at_index (v : Z) (output : history_output) : history_output :=
  {| validity_wraparounds := validity_wraparounds output;
     validity_frontindex := validity_frontindex output;
     target := target output;
     validation_disabled := validation_disabled output;
     dont_skip_newline := dont_skip_newline output;
     last_paragraph_attribute_index := last_paragraph_attribute_index output;
     current_paragraph_index := current_paragraph_index output;
     output_nof_wraparounds := output_nof_wraparounds output;
     found_end_of_buffer := found_end_of_buffer output;
     first_iteration_done := first_iteration_done output;
     rewound_paragraph_was_newline_terminated := rewound_paragraph_was_newline_terminated output;
     metadata_at_index_evaluated := metadata_at_index_evaluated output;
     font_at_index := font_at_index output;
     style_at_index := style_at_index output;
     foreground_at_index := foreground_at_index output;
     background_at_index := v;
     last_rewinded_paragraphs_block_index := last_rewinded_paragraphs_block_index output;
     last_used_metadata_state_font := last_used_metadata_state_font output;
     last_used_metadata_state_style := last_used_metadata_state_style output;
     last_used_metadata_state_foreground := last_used_metadata_state_foreground output;
     last_used_metadata_state_background := last_used_metadata_state_background output;
     saved_current_paragraph_index := saved_current_paragraph_index output;
     saved_nof_wraparounds := saved_nof_wraparounds output;
     saved_found_end_of_buffer := saved_found_end_of_buffer output;
     saved_first_iteration_done := saved_first_iteration_done output;
     saved_rewound_paragraph_was_newline_terminated := saved_rewound_paragraph_was_newline_terminated output;
     saved_metadata_at_index_evaluated := saved_metadata_at_index_evaluated output;
     saved_font_at_index := saved_font_at_index output;
     saved_style_at_index := saved_style_at_index output;
     saved_foreground_at_index := saved_foreground_at_index output;
     saved_background_at_index := saved_background_at_index output;
     saved_last_rewinded_paragraphs_block_index := saved_last_rewinded_paragraphs_block_index output;
     saved_last_used_metadata_state_font := saved_last_used_metadata_state_font output;
     saved_last_used_metadata_state_style := saved_last_used_metadata_state_style output;
     saved_last_used_metadata_state_foreground := saved_last_used_metadata_state_foreground output;
     saved_last_used_metadata_state_background := saved_last_used_metadata_state_background output |}.

Section History.

Variable E : environment.

(** ** Lifecycle and occupancy *)

(** [create_outputhistory], for a [malloc] that succeeds. *)
Definition create_outputhistory (window_number : Z)
    (maximum_buffer_size buffer_increment_size : Z)
    (foreground_colour background_color font style : Z) : OUTPUTHISTORY :=
  {| window_number := window_number;
     z_history_buffer_size := 0;
     z_history_maximum_buffer_size := maximum_buffer_size;
     z_history_buffer_increment_size := buffer_increment_size;
     z_history_buffer_start := [];
     z_history_buffer_end := 0;
     z_history_buffer_front_index := 0;
     z_history_buffer_back_index := 0;
     nof_wraparounds := 0;
     last_metadata_block_index := 0;
     next_newline_after_buffer_back := None;
     history_buffer_back_index_font := font;
     history_buffer_back_index_style := style;
     history_buffer_back_index_foreground := foreground_colour;
     history_buffer_back_index_background := background_color;
     history_buffer_front_index_font := font;
     history_buffer_front_index_style := style;
     history_buffer_front_index_foreground := foreground_colour;
     history_buffer_front_index_background := background_color;
     paragraphs_removed := [] |}.

Definition get_buffer_space_used (h : OUTPUTHISTORY) : Z :=
  if z_history_buffer_size h =? 0 then 0
  else if nof_wraparounds h =? 0 then
    to_size_t (z_history_buffer_front_index h
               - z_history_buffer_back_index h + 1)
  else
    to_size_t (z_history_buffer_size h
               - (z_history_buffer_back_index h
                  - z_history_buffer_front_index h)).

Definition get_buffer_space_available (h : OUTPUTHISTORY) : Z :=
  if z_history_buffer_size h =? 0 then 0
  else if nof_wraparounds h =? 0 then
    to_size_t (z_history_buffer_end h - z_history_buffer_front_index h + 1)
  else
    to_size_t (z_history_buffer_back_index h
               - z_history_buffer_front_index h).

Definition get_allocated_text_history_size (h : OUTPUTHISTORY) : Z :=
  z_history_buffer_size h.

(** ** Cells of the buffer *)

(** Reading the cell at [p]. *)
Definition load (h : OUTPUTHISTORY) (p : Z) : outcome Z :=
  if 0 <=? p then
    match z_history_buffer_start h !! Z.to_nat p with
    | Some c => Returns c
    | None => Undefined
    end
  else Undefined.

(** Writing [c] to the cell at [p]. *)
Definition store (h : OUTPUTHISTORY) (p c : Z) : outcome OUTPUTHISTORY :=
  if (0 <=? p) && (p <? Z.of_nat (length (z_history_buffer_start h))) then
    Returns (set_z_history_buffer_start
               (<[Z.to_nat p := c]> (z_history_buffer_start h)) h)
  else Undefined.

(** [p == h->z_history_buffer_end ? h->z_history_buffer_start : p + 1] *)
Definition next_index (h : OUTPUTHISTORY) (p : Z) : Z :=
  if p =? z_history_buffer_end h then 0 else p + 1.

(** A cell of the caller's data. *)
Definition load_data (data : list Z) (i : Z) : outcome Z :=
  if 0 <=? i then
    match data !! Z.to_nat i with
    | Some c => Returns c
    | None => Undefined
    end
  else Undefined.

(** Modelled from the spec: [z_ucs_ncpy] of [tools/z_ucs.c], which is
    not among the sources.  A write stores the given number of units, and
    a metadata record, whose first unit is the escape 0, is "a normal
    store_chars of 3 or 4 units": the copy moves [n] cells, whatever they
    hold. *)
Fixpoint z_ucs_ncpy (n : nat) (h : OUTPUTHISTORY) (dst : Z)
    (data : list Z) (src : Z) : outcome OUTPUTHISTORY :=
  match n with
  | O => Returns h
  | S n =>
      c ← load_data data src;
      h ← store h dst c;
      z_ucs_ncpy n h (dst + 1) data (src + 1)
  end.

(** [memcpy(dst, data, n)] counts bytes.  A [z_ucs] has [sizeof_z_ucs]
    bytes, the least significant one first: [n / 4] cells are copied
    whole, and of the next cell the [n mod 4] low bytes. *)
Definition memcpy (h : OUTPUTHISTORY) (dst : Z) (data : list Z) (n : Z)
    : outcome OUTPUTHISTORY :=
  let cells := n / sizeof_z_ucs in
  let bytes := n mod sizeof_z_ucs in
  h ← z_ucs_ncpy (Z.to_nat cells) h dst data 0;
  if bytes =? 0 then Returns h
  else
    old ← load h (dst + cells);
    new ← load_data data cells;
    let low := 2 ^ (8 * bytes) in
    store h (dst + cells) (old - old mod low + new mod low).

(** Modelled from the spec: [z_ucs_len] of [tools/z_ucs.c]; [store_text]
    "computes len", the number of units before the terminating 0. *)
Fixpoint z_ucs_len (s : list Z) : outcome Z :=
  match s with
  | [] => Undefined
  | c :: s => if c =? 0 then Returns 0 else n ← z_ucs_len s; Returns (n + 1)
  end.

(** ** The back of the buffer *)

Definition call_paragraph_removal_function (a1 a2 : Z) (h : OUTPUTHISTORY)
    : OUTPUTHISTORY :=
  set_paragraphs_removed (paragraphs_removed h ++ [(a1, a2)]) h.

(** The [do ... while (nof_zucs_chars > 0)] of [process_buffer_back]. *)
Fixpoint process_buffer_back_chars (fuel : nat) (h : OUTPUTHISTORY)
    (current_index nof_zucs_chars : Z) : outcome (OUTPUTHISTORY * Z) :=
  match fuel with
  | O => Diverges
  | S fuel =>
      let h :=
        if decide (next_newline_after_buffer_back h = Some current_index)
        then set_next_newline_after_buffer_back None h else h in
      c ← load h current_index;
      '(h, current_index, nof_zucs_chars) ←
        (if c =? HISTORY_METADATA_ESCAPE then
           let current_index := next_index h current_index in
           let nof_zucs_chars := nof_zucs_chars - 1 in
           t ← load h current_index;
           if t =? HISTORY_METADATA_ESCAPE then
             Returns (h, current_index, nof_zucs_chars)
           else if t =? HISTORY_METADATA_TYPE_FONT E then
             let current_index := next_index h current_index in
             let nof_zucs_chars := nof_zucs_chars - 1 in
             v ← load h current_index;
             Returns (set_history_buffer_back_index_font (to_z_font v) h,
                      current_index, nof_zucs_chars)
           else if t =? HISTORY_METADATA_TYPE_STYLE E then
             let current_index := next_index h current_index in
             let nof_zucs_chars := nof_zucs_chars - 1 in
             v ← load h current_index;
             Returns (set_history_buffer_back_index_style (to_z_style v) h,
                      current_index, nof_zucs_chars)
           else if t =? HISTORY_METADATA_TYPE_COLOUR E then
             let current_index := next_index h current_index in
             let nof_zucs_chars := nof_zucs_chars - 1 in
             v ← load h current_index;
             let h :=
               set_history_buffer_back_index_foreground (to_z_colour v) h in
             let current_index := next_index h current_index in
             let nof_zucs_chars := nof_zucs_chars - 1 in
             v ← load h current_index;
             Returns
               (set_history_buffer_back_index_background (to_z_colour v) h,
                current_index, nof_zucs_chars)
           else if t =? HISTORY_METADATA_TYPE_PARAGRAPHATTRIBUTE E then
             let current_index := next_index h current_index in
             let nof_zucs_chars := nof_zucs_chars - 1 in
             buf1 ← load h current_index;
             let current_index := next_index h current_index in
             let nof_zucs_chars := nof_zucs_chars - 1 in
             if paragraph_removal_function E
                && bool_decide (next_newline_after_buffer_back h = None)
             then
               v ← load h current_index;
               Returns
                 (call_paragraph_removal_function
                    (to_int (buf1 - HISTORY_METADATA_DATA_OFFSET))
                    (to_int (v - HISTORY_METADATA_DATA_OFFSET)) h,
                  current_index, nof_zucs_chars)
             else Returns (h, current_index, nof_zucs_chars)
           else i18n_translate_and_exit
         else Returns (h, current_index, nof_zucs_chars));
      let current_index := next_index h current_index in
      let nof_zucs_chars := nof_zucs_chars - 1 in
      if 0 <? nof_zucs_chars then
        process_buffer_back_chars fuel h current_index nof_zucs_chars
      else Returns (h, current_index)
  end.

(** The search for the next newline that ends [process_buffer_back]. *)
Fixpoint process_buffer_back_newline (fuel : nat) (h : OUTPUTHISTORY)
    (current_index : Z) : outcome (OUTPUTHISTORY * Z) :=
  match fuel with
  | O => Diverges
  | S fuel =>
      c ← load h current_index;
      if c =? Z_UCS_NEWLINE then Returns (h, current_index)
      else if current_index =? z_history_buffer_front_index h then
        Returns (h, current_index)
      else
        let current_index := next_index h current_index in
        c ← load h current_index;
        if c =? HISTORY_METADATA_ESCAPE then
          let current_index := next_index h current_index in
          buf1 ← load h current_index;
          let current_index := next_index h current_index in
          buf2 ← load h current_index;
          if (buf1 =? HISTORY_METADATA_TYPE_PARAGRAPHATTRIBUTE E)
             || (buf1 =? HISTORY_METADATA_TYPE_COLOUR E)
          then
            let current_index := next_index h current_index in
            if buf1 =? HISTORY_METADATA_TYPE_PARAGRAPHATTRIBUTE E then
              v ← load h current_index;
              process_buffer_back_newline fuel
                (call_paragraph_removal_function
                   (to_int (buf2 - HISTORY_METADATA_DATA_OFFSET))
                   (to_int (v - HISTORY_METADATA_DATA_OFFSET)) h)
                current_index
            else process_buffer_back_newline fuel h current_index
          else process_buffer_back_newline fuel h current_index
        else process_buffer_back_newline fuel h current_index
  end.

Definition process_buffer_back (h : OUTPUTHISTORY) (nof_zucs_chars : Z)
    : outcome OUTPUTHISTORY :=
  let current_index := z_history_buffer_front_index h in
  '(h, current_index) ←
    process_buffer_back_chars (S (Z.to_nat nof_zucs_chars)) h
      current_index nof_zucs_chars;
  if paragraph_removal_function E
     && bool_decide (next_newline_after_buffer_back h = None)
  then
    let h := set_next_newline_after_buffer_back (Some current_index) h in
    '(h, current_index) ←
      process_buffer_back_newline (loop_budget E) h current_index;
    Returns (set_next_newline_after_buffer_back (Some current_index) h)
  else Returns h.

(** ** Growing the buffer *)

(** The block after [realloc] to [n] cells: the old cells as far as they
    fit, then cells that were never written. *)
Definition realloc (block : list Z) (n : nat) : list Z :=
  take n block
  ++ map (fun i => indeterminate E (Z.of_nat i))
         (seq (length block) (n - length block)).

(** [try_to_enlarge_buffer(h, desired_z_ucs_size)].  The number of bytes
    asked of [realloc], [sizeof(z_ucs) * (desired_z_ucs_size + 1)], is a
    [size_t] and wraps; the block has as many cells as these bytes hold.
    The guard cell behind [z_history_buffer_end] is written to that
    block: behind a block that is too short the write is undefined. *)
Definition try_to_enlarge_buffer (h : OUTPUTHISTORY) (desired_z_ucs_size : Z)
    : outcome OUTPUTHISTORY :=
  let bytes := to_size_t (sizeof_z_ucs * to_size_t (desired_z_ucs_size + 1)) in
  if realloc_succeeds E bytes then
    let ptr :=
      realloc (z_history_buffer_start h) (Z.to_nat (bytes / sizeof_z_ucs)) in
    let h := set_z_history_buffer_size desired_z_ucs_size h in
    let h := set_z_history_buffer_end (z_history_buffer_size h - 1) h in
    (* the guard cell behind z_history_buffer_end is set to 0; front and
       back keep their offsets *)
    store (set_z_history_buffer_start ptr h) (z_history_buffer_end h + 1) 0
  else Returns h.

(** ** Writing *)

(** The [while (len > 0)] of [store_data_in_history]. *)
Fixpoint store_data_wrapped (fuel : nat) (h : OUTPUTHISTORY)
    (data : list Z) (data_offset len : Z) : outcome OUTPUTHISTORY :=
  if 0 <? len then
    match fuel with
    | O => Diverges
    | S fuel =>
        let len_to_write :=
          if z_history_buffer_end h <? z_history_buffer_front_index h + len - 1
          then
            to_size_t
              (z_history_buffer_end h - z_history_buffer_front_index h + 1)
          else len in
        h ← process_buffer_back h (to_long len_to_write);
        h ← z_ucs_ncpy (Z.to_nat len_to_write) h
              (z_history_buffer_front_index h) data data_offset;
        let h :=
          set_z_history_buffer_front_index
            (z_history_buffer_front_index h + len_to_write) h in
        let h :=
          if z_history_buffer_front_index h =? z_history_buffer_end h + 1
          then set_z_history_buffer_front_index 0 h else h in
        let len := to_size_t (len - len_to_write) in
        let data_offset := data_offset + len_to_write in
        let h :=
          set_z_history_buffer_back_index (z_history_buffer_front_index h) h
        in
        store_data_wrapped fuel h data data_offset len
    end
  else Returns h.

(** [store_data_in_history] up to, and without, the two places where it
    asks for [write_metadata_state_block_if_necessary]. *)
Definition store_data (h : OUTPUTHISTORY) (data : list Z) (len : Z)
    : outcome OUTPUTHISTORY :=
  if z_history_maximum_buffer_size h <=? len then
    h ← process_buffer_back h (to_long (get_buffer_space_used h));
    h ← (if z_history_buffer_size h <? z_history_maximum_buffer_size h
         then try_to_enlarge_buffer h (z_history_maximum_buffer_size h)
         else Returns h);
    h ← memcpy h 0 data (len - z_history_maximum_buffer_size h);
    let h := set_z_history_buffer_front_index 0 h in
    let h := set_z_history_buffer_back_index (z_history_buffer_end h) h in
    Returns h
  else
    let space_available := get_buffer_space_available h in
    h ← (if space_available <? len then
           let missing_space := len - space_available in
           if z_history_buffer_increment_size h =? 0 then Undefined
           else
             let nof_increments :=
               missing_space / z_history_buffer_increment_size h + 1 in
             let new_size :=
               to_size_t
                 (z_history_buffer_size h
                  + nof_increments * z_history_buffer_increment_size h) in
             let desired_size :=
               if z_history_maximum_buffer_size h <? new_size
               then z_history_maximum_buffer_size h else new_size in
             if z_history_buffer_size h <? desired_size
             then try_to_enlarge_buffer h desired_size
             else Returns h
         else Returns h);
    let '(data_offset, len) :=
      if z_history_buffer_size h <? len
      then (len - z_history_buffer_size h, z_history_buffer_size h)
      else (0, len) in
    if nof_wraparounds h =? 0 then
      let space_available :=
        to_size_t
          (z_history_buffer_end h - z_history_buffer_front_index h + 1) in
      let len_to_write :=
        if len <? space_available then len else space_available in
      h ← (if 0 <? len_to_write then
             h ← z_ucs_ncpy (Z.to_nat len_to_write) h
                   (z_history_buffer_front_index h) data data_offset;
             Returns
               (set_z_history_buffer_front_index
                  (z_history_buffer_front_index h + len_to_write) h)
           else Returns h);
      let data_offset := data_offset + len_to_write in
      if len_to_write =? len then Returns h
      else
        let wraps := to_unsigned_int (nof_wraparounds h + 1) in
        let h := set_nof_wraparounds (if wraps =? 0 then 1 else wraps) h in
        let h := set_z_history_buffer_front_index 0 h in
        store_data_wrapped (S (Z.to_nat len)) h data data_offset len
    else store_data_wrapped (S (Z.to_nat len)) h data data_offset len.

(** [va_arg(ap, int)] *)
Definition va_arg (ap : list Z) : outcome (Z * list Z) :=
  match ap with
  | [] => Undefined
  | a :: ap => Returns (a, ap)
  end.

Definition colour_out_of_range (parameter : Z) : bool :=
  (parameter <? -2) || (15 <? parameter).

(** [store_metadata_in_history(h, metadata_type, ...)]; its last
    statement, [store_data_in_history(h, output_buffer, len, false)], is
    [store_data]. *)
Definition store_metadata_in_history (h : OUTPUTHISTORY) (metadata_type : Z)
    (ap : list Z) : outcome (Z * OUTPUTHISTORY) :=
  if negb (metadata_type =? HISTORY_METADATA_TYPE_FONT E)
     && negb (metadata_type =? HISTORY_METADATA_TYPE_STYLE E)
     && negb (metadata_type =? HISTORY_METADATA_TYPE_COLOUR E)
     && negb (metadata_type =? HISTORY_METADATA_TYPE_PARAGRAPHATTRIBUTE E)
  then Returns (-1, h)
  else
    '(a, ap) ← va_arg ap;
    let parameter := to_int16 a in
    if (metadata_type =? HISTORY_METADATA_TYPE_COLOUR E)
       && colour_out_of_range parameter
    then i18n_translate_and_exit
    else
      let h :=
        if metadata_type =? HISTORY_METADATA_TYPE_FONT E then
          set_history_buffer_front_index_font (to_z_font parameter) h
        else if metadata_type =? HISTORY_METADATA_TYPE_STYLE E then
          set_history_buffer_front_index_style (to_z_style parameter) h
        else if metadata_type =? HISTORY_METADATA_TYPE_COLOUR E then
          set_history_buffer_front_index_foreground (to_z_colour parameter) h
        else h in
      let output_buffer_2 :=
        to_z_ucs (parameter + HISTORY_METADATA_DATA_OFFSET) in
      if (metadata_type =? HISTORY_METADATA_TYPE_COLOUR E)
         || (metadata_type =? HISTORY_METADATA_TYPE_PARAGRAPHATTRIBUTE E)
      then
        '(a, ap) ← va_arg ap;
        let parameter := to_int16 a in
        if (metadata_type =? HISTORY_METADATA_TYPE_COLOUR E)
           && colour_out_of_range parameter
        then
          (* the exit; the assignment to
             history_buffer_front_index_background that follows it in
             this block is never reached *)
          i18n_translate_and_exit
        else
          let output_buffer :=
            [HISTORY_METADATA_ESCAPE; to_z_ucs metadata_type;
             output_buffer_2;
             to_z_ucs (parameter + HISTORY_METADATA_DATA_OFFSET)] in
          h ← store_data h output_buffer 4;
          Returns (0, h)
      else
        let output_buffer :=
          [HISTORY_METADATA_ESCAPE; to_z_ucs metadata_type;
           output_buffer_2; indeterminate E 3] in
        h ← store_data h output_buffer 3;
        Returns (0, h).

Definition write_metadata_state_block_if_necessary (h : OUTPUTHISTORY)
    : outcome OUTPUTHISTORY :=
  let buffer_index := z_history_buffer_front_index h in
  if Z_HISTORY_METADATA_STATE_BLOCK_SIZE E =? 0 then Undefined
  else
    let metadata_block_index :=
      buffer_index
      - Z.rem buffer_index (Z_HISTORY_METADATA_STATE_BLOCK_SIZE E) in
    h ← (if negb (metadata_block_index =? last_metadata_block_index h) then
           '(_, h) ← store_metadata_in_history h
                       (HISTORY_METADATA_TYPE_FONT E)
                       [history_buffer_back_index_font h];
           '(_, h) ← store_metadata_in_history h
                       (HISTORY_METADATA_TYPE_STYLE E)
                       [history_buffer_back_index_style h];
           '(_, h) ← store_metadata_in_history h
                       (HISTORY_METADATA_TYPE_COLOUR E)
                       [history_buffer_back_index_foreground h;
                        history_buffer_back_index_background h];
           Returns h
         else Returns h);
    Returns (set_last_metadata_block_index metadata_block_index h).

(** [data] is [None] for a [NULL] pointer. *)
Definition store_data_in_history (h : OUTPUTHISTORY) (data : option (list Z))
    (len : Z) (evaluate_state_block : bool) : outcome OUTPUTHISTORY :=
  match data with
  | None => Returns h
  | Some data =>
      h ← store_data h data len;
      if evaluate_state_block
      then write_metadata_state_block_if_necessary h
      else Returns h
  end.

Definition store_z_ucs_output_in_history (h : OUTPUTHISTORY)
    (z_ucs_output : option (list Z)) : outcome OUTPUTHISTORY :=
  match z_ucs_output with
  | None => Returns h
  | Some s =>
      len ← z_ucs_len s;
      if len =? 0 then Returns h
      else store_data_in_history h z_ucs_output len true
  end.

(** ** Stepping backwards *)

(** [decrement_buffer_pointer(h, ptr, &nof_wraparounds)]: [None] is the
    [NULL] result; otherwise the new pointer and the new value of the
    counter behind [nof_wraparounds]. *)
Definition decrement_buffer_pointer (h : OUTPUTHISTORY) (ptr : Z)
    (nof_wraparounds_ref : Z) : option (Z * Z) :=
  if (ptr =? z_history_buffer_back_index h)
     && (ptr =? z_history_buffer_front_index h)
     && (0 <? nof_wraparounds_ref)
  then None
  else
    let ptr := ptr - 1 in
    if ptr <? 0 then
      if nof_wraparounds h =? 0 then None
      else Some (z_history_buffer_end h,
                 to_unsigned_int (nof_wraparounds_ref - 1))
    else Some (ptr, nof_wraparounds_ref).

(** The [while (nof_chars > 0)] of [remove_chars_from_history]; [None]
    is its [return -1]. *)
Fixpoint remove_chars_walk (fuel : nat) (history : OUTPUTHISTORY)
    (ptr nof_wraparounds_local last_data nof_chars : Z)
    : outcome (option (Z * Z)) :=
  if 0 <? nof_chars then
    match fuel with
    | O => Diverges
    | S fuel =>
        match decrement_buffer_pointer history ptr nof_wraparounds_local with
        | None => Returns None
        | Some (ptr, nof_wraparounds_local) =>
            c ← load history ptr;
            if (c =? HISTORY_METADATA_ESCAPE) && negb (last_data =? 0) then
              remove_chars_walk fuel history ptr nof_wraparounds_local
                last_data
                (nof_chars
                 + (if (last_data =? HISTORY_METADATA_TYPE_COLOUR E)
                       || (last_data
                           =? HISTORY_METADATA_TYPE_PARAGRAPHATTRIBUTE E)
                    then 4 else 3))
            else
              remove_chars_walk fuel history ptr nof_wraparounds_local
                c (nof_chars - 1)
        end
    end
  else Returns (Some (ptr, nof_wraparounds_local)).

Definition remove_chars_from_history (history : OUTPUTHISTORY)
    (nof_chars : Z) : outcome (Z * OUTPUTHISTORY) :=
  r ← remove_chars_walk (loop_budget E) history
        (z_history_buffer_front_index history) (nof_wraparounds history)
        0 nof_chars;
  match r with
  | None => Returns (-1, history)
  | Some (ptr, nof_wraparounds_local) =>
      let history := set_z_history_buffer_front_index ptr history in
      let history := set_nof_wraparounds nof_wraparounds_local history in
      Returns (0, history)
  end.

(** ** The iterator *)

(** [init_history_output(h, t, output_init_flags)].  [fizmo_malloc] hands
    out a block whose content is not set: [uninitialised] is that content,
    and the fields that the function does not assign keep it. *)
Definition init_history_output (uninitialised : history_output)
    (h : OUTPUTHISTORY) (output_init_flags : Z) : option history_output :=
  if z_history_buffer_size h =? 0 then None
  else
    let from_front :=
      Z.land output_init_flags (Z_HISTORY_OUTPUT_FROM_BUFFERBACK E) =? 0 in
    let result (index wraps : Z) : history_output :=
      {| validity_wraparounds := nof_wraparounds h;
         validity_frontindex := z_history_buffer_front_index h;
         target := [];
         validation_disabled :=
           negb (Z.land output_init_flags
                   (Z_HISTORY_OUTPUT_WITHOUT_VALIDATION E) =? 0);
         dont_skip_newline := false;
         last_paragraph_attribute_index := None;
         current_paragraph_index := index;
         output_nof_wraparounds := wraps;
         found_end_of_buffer := negb from_front;
         first_iteration_done := negb from_front;
         rewound_paragraph_was_newline_terminated := false;
         metadata_at_index_evaluated :=
           metadata_at_index_evaluated uninitialised;
         font_at_index :=
           if from_front then history_buffer_front_index_font h
           else history_buffer_back_index_font h;
         style_at_index :=
           if from_front then history_buffer_front_index_style h
           else history_buffer_back_index_style h;
         foreground_at_index :=
           if from_front then history_buffer_front_index_foreground h
           else history_buffer_back_index_foreground h;
         background_at_index :=
           if from_front then history_buffer_front_index_background h
           else history_buffer_back_index_background h;
         last_rewinded_paragraphs_block_index := -1;
         last_used_metadata_state_font := -1;
         last_used_metadata_state_style := -1;
         last_used_metadata_state_foreground := Z_COLOUR_UNDEFINED;
         last_used_metadata_state_background := Z_COLOUR_UNDEFINED;
         saved_current_paragraph_index :=
           saved_current_paragraph_index uninitialised;
         saved_nof_wraparounds := saved_nof_wraparounds uninitialised;
         saved_found_end_of_buffer :=
           saved_found_end_of_buffer uninitialised;
         saved_first_iteration_done :=
           saved_first_iteration_done uninitialised;
         saved_rewound_paragraph_was_newline_terminated :=
           saved_rewound_paragraph_was_newline_terminated uninitialised;
         saved_metadata_at_index_evaluated :=
           saved_metadata_at_index_evaluated uninitialised;
         saved_font_at_index := saved_font_at_index uninitialised;
         saved_style_at_index := saved_style_at_index uninitialised;
         saved_foreground_at_index :=
           saved_foreground_at_index uninitialised;
         saved_background_at_index :=
           saved_background_at_index uninitialised;
         saved_last_rewinded_paragraphs_block_index :=
           saved_last_rewinded_paragraphs_block_index uninitialised;
         saved_last_used_metadata_state_font :=
           saved_last_used_metadata_state_font uninitialised;
         saved_last_used_metadata_state_style :=
           saved_last_used_metadata_state_style uninitialised;
         saved_last_used_metadata_state_foreground :=
           saved_last_used_metadata_state_foreground uninitialised;
         saved_last_used_metadata_state_background :=
           saved_last_used_metadata_state_background uninitialised |} in
    if from_front then
      (* one step back from the place of the next unit, or NULL *)
      match decrement_buffer_pointer h (z_history_buffer_front_index h) 0 with
      | None => None
      | Some (index, wraps) => Some (result index wraps)
      end
    else
      Some (result (z_history_buffer_back_index h)
              (if 0 <? nof_wraparounds h then nof_wraparounds h - 1 else 0)).

Definition validate_outputhistory (h : OUTPUTHISTORY)
    (output : history_output) : outcome unit :=
  if (nof_wraparounds h =? validity_wraparounds output)
     && (validity_frontindex output =? z_history_buffer_front_index h)
  then Returns tt
  else i18n_translate_and_exit.

(** [if (output->validation_disabled == false) validate_outputhistory(output);] *)
Definition validate_unless_disabled (h : OUTPUTHISTORY)
    (output : history_output) : outcome unit :=
  if negb (validation_disabled output) then validate_outputhistory h output
  else Returns tt.

(** Reading through a pointer that may be [NULL]. *)
Definition load_at (h : OUTPUTHISTORY) (p : option Z) : outcome Z :=
  match p with
  | None => Undefined
  | Some p => load h p
  end.

Definition metadata_unresolved (output : history_output) : bool :=
  (font_at_index output =? -1)
  || (style_at_index output =? -1)
  || (foreground_at_index output =? Z_COLOUR_UNDEFINED)
  || (background_at_index output =? Z_COLOUR_UNDEFINED).

(** The branch "Hit end of buffer" of [evaluate_metadata_for_paragraph]. *)
Definition fill_in_at_end_of_buffer (h : OUTPUTHISTORY)
    (output : history_output) : history_output :=
  let output :=
    if font_at_index output =? -1
    then set_font_at_index (history_buffer_back_index_font h) output
    else output in
  let output :=
    if style_at_index output =? -1
    then set_style_at_index (history_buffer_back_index_style h) output
    else output in
  let output :=
    if foreground_at_index output =? Z_COLOUR_UNDEFINED
    then set_foreground_at_index
           (history_buffer_front_index_foreground h) output
    else output in
  if background_at_index output =? Z_COLOUR_UNDEFINED
  then set_background_at_index
         (history_buffer_front_index_background h) output
  else output.

(** The search loop of [evaluate_metadata_for_paragraph]. *)
Fixpoint evaluate_metadata_search (fuel : nat) (h : OUTPUTHISTORY)
    (output : history_output) (index nof_wraparounds_local : Z)
    (i2 i3 : option Z) : outcome history_output :=
  if metadata_unresolved output then
    match fuel with
    | O => Diverges
    | S fuel =>
        let i4 := i3 in
        let i3 := i2 in
        let i2 := Some index in
        match decrement_buffer_pointer h index nof_wraparounds_local with
        | None => Returns (fill_in_at_end_of_buffer h output)
        | Some (index, nof_wraparounds_local) =>
            c ← load h index;
            if c =? HISTORY_METADATA_ESCAPE then
              t ← load_at h i2;
              let metadata_type := to_int t in
              v ← load_at h i3;
              let parameter := to_int v - HISTORY_METADATA_DATA_OFFSET in
              if (metadata_type =? HISTORY_METADATA_TYPE_FONT E)
                 && (font_at_index output =? -1)
              then
                evaluate_metadata_search fuel h
                  (set_font_at_index (to_z_font parameter) output)
                  index nof_wraparounds_local i2 i3
              else if (metadata_type =? HISTORY_METADATA_TYPE_STYLE E)
                      && (style_at_index output =? -1)
              then
                evaluate_metadata_search fuel h
                  (set_style_at_index (to_z_style parameter) output)
                  index nof_wraparounds_local i2 i3
              else if (metadata_type =? HISTORY_METADATA_TYPE_COLOUR E)
                      && ((foreground_at_index output =? Z_COLOUR_UNDEFINED)
                          || (background_at_index output
                              =? Z_COLOUR_UNDEFINED))
              then
                let output :=
                  set_foreground_at_index (to_z_colour parameter) output in
                v ← load_at h i4;
                let parameter := to_int v - HISTORY_METADATA_DATA_OFFSET in
                evaluate_metadata_search fuel h
                  (set_background_at_index (to_z_colour parameter) output)
                  index nof_wraparounds_local i2 i3
              else
                evaluate_metadata_search fuel h output
                  index nof_wraparounds_local i2 i3
            else
              evaluate_metadata_search fuel h output
                index nof_wraparounds_local i2 i3
        end
    end
  else Returns output.

Definition evaluate_metadata_for_paragraph (h : OUTPUTHISTORY)
    (output : history_output) : outcome history_output :=
  let buffer_index := current_paragraph_index output in
  let index := current_paragraph_index output in
  _ ← validate_unless_disabled h output;
  if metadata_at_index_evaluated output then Returns output
  else if Z_HISTORY_METADATA_STATE_BLOCK_SIZE E =? 0 then Undefined
  else
    let metadata_block_index :=
      buffer_index
      - Z.rem buffer_index (Z_HISTORY_METADATA_STATE_BLOCK_SIZE E) in
    output ←
      (if (last_rewinded_paragraphs_block_index output
           =? metadata_block_index)
          && negb (last_used_metadata_state_font output =? -1)
          && negb (last_used_metadata_state_style output =? -1)
          && negb (last_used_metadata_state_foreground output
                   =? Z_COLOUR_UNDEFINED)
          && negb (last_used_metadata_state_background output
                   =? - Z_COLOUR_UNDEFINED)
       then
         let output :=
           set_font_at_index (last_used_metadata_state_font output) output in
         let output :=
           set_style_at_index (last_used_metadata_state_style output)
             output in
         let output :=
           set_foreground_at_index
             (last_used_metadata_state_foreground output) output in
         Returns
           (set_background_at_index
              (last_used_metadata_state_background output) output)
       else
         let output := set_font_at_index (-1) output in
         let output := set_style_at_index (-1) output in
         let output := set_foreground_at_index Z_COLOUR_UNDEFINED output in
         let output := set_background_at_index Z_COLOUR_UNDEFINED output in
         evaluate_metadata_search (loop_budget E) h output index
           (output_nof_wraparounds output) None None);
    Returns (set_metadata_at_index_evaluated true output).

(** ** Rewinding by a paragraph *)

(** The out-parameters [char_count], [paragraph_attr1] and
    [paragraph_attr2] of [output_rewind_paragraph]: [None] for a [NULL]
    pointer, otherwise the value behind the pointer. *)
Record rewind_references : Type := {
  char_count : option Z;
  paragraph_attr1 : option Z;
  paragraph_attr2 : option Z
}.

(** [if (p != NULL) *p = v;] *)
Definition assign (p : option Z) (v : Z) : option Z :=
  match p with
  | None => None
  | Some _ => Some v
  end.

(** The [do ... while] of [output_rewind_paragraph].  The first
    component is [None] when the buffer start was hit, and otherwise holds
    [last_index], [last_nof_wraparounds] and [nof_chars]. *)
Fixpoint rewind_to_newline (fuel : nat) (h : OUTPUTHISTORY)
    (index nof_wraparounds_local : Z) (last_index last_index2 : option Z)
    (nof_chars : Z) (refs : rewind_references)
    : outcome (option (Z * Z * Z) * rewind_references) :=
  match fuel with
  | O => Diverges
  | S fuel =>
      let last_index3 := last_index2 in
      let last_index2 := last_index in
      let last_index := index in
      let last_nof_wraparounds := nof_wraparounds_local in
      match decrement_buffer_pointer h index nof_wraparounds_local with
      | None => Returns (None, refs)
      | Some (index, nof_wraparounds_local) =>
          let nof_chars := nof_chars + 1 in
          c ← load h index;
          '(nof_chars, refs) ←
            (if c =? HISTORY_METADATA_ESCAPE then
               l ← load h last_index;
               if l =? HISTORY_METADATA_TYPE_COLOUR E then
                 Returns (nof_chars - 4, refs)
               else if l =? HISTORY_METADATA_TYPE_PARAGRAPHATTRIBUTE E then
                 a1 ←
                   match paragraph_attr1 refs with
                   | None => Returns None
                   | Some _ =>
                       v ← load_at h last_index2;
                       Returns
                         (Some (to_int (v - HISTORY_METADATA_DATA_OFFSET)))
                   end;
                 a2 ←
                   match paragraph_attr2 refs with
                   | None => Returns None
                   | Some _ =>
                       v ← load_at h last_index3;
                       Returns
                         (Some (to_int (v - HISTORY_METADATA_DATA_OFFSET)))
                   end;
                 Returns
                   (nof_chars - 4,
                    {| char_count := char_count refs;
                       paragraph_attr1 := a1;
                       paragraph_attr2 := a2 |})
               else Returns (nof_chars - 3, refs)
             else Returns (nof_chars, refs));
          if negb (c =? Z_UCS_NEWLINE) then
            rewind_to_newline fuel h index nof_wraparounds_local
              (Some last_index) last_index2 nof_chars refs
          else
            Returns
              (Some (last_index, last_nof_wraparounds, nof_chars), refs)
      end
  end.

(** What the first part of [output_rewind_paragraph] leaves: a [return],
    or the index from which the [do ... while] starts. *)
Inductive rewind_start : Type :=
| rewind_return (result : Z) (output : history_output)
    (refs : rewind_references)
| rewind_from (output : history_output) (index nof_wraparounds_local : Z).

Definition set_char_count (v : Z) (refs : rewind_references)
    : rewind_references :=
  {| char_count := assign (char_count refs) v;
     paragraph_attr1 := paragraph_attr1 refs;
     paragraph_attr2 := paragraph_attr2 refs |}.

Definition rewind_first_part (h : OUTPUTHISTORY) (output : history_output)
    (refs : rewind_references) : outcome rewind_start :=
  let index := current_paragraph_index output in
  let nof_wraparounds_local := output_nof_wraparounds output in
  if first_iteration_done output then
    let output := set_rewound_paragraph_was_newline_terminated true output in
    let skipped :=
      if negb (dont_skip_newline output) then
        match decrement_buffer_pointer h index nof_wraparounds_local with
        | None => None
        | Some (index, nof_wraparounds_local) =>
            Some (output, index, nof_wraparounds_local)
        end
      else
        Some (set_dont_skip_newline false output,
              index, nof_wraparounds_local) in
    match skipped with
    | None => Returns (rewind_return (-3) output refs)
    | Some (output, index, nof_wraparounds_local) =>
        c ← load h index;
        if negb (c =? Z_UCS_NEWLINE) then
          Returns (rewind_return (-4) output refs)
        else
          let last_index := index in
          let last_nof_wraparounds := nof_wraparounds_local in
          match decrement_buffer_pointer h index nof_wraparounds_local with
          | None =>
              let output := set_found_end_of_buffer true output in
              let output := set_current_paragraph_index last_index output in
              let output :=
                set_output_nof_wraparounds last_nof_wraparounds output in
              Returns (rewind_return 0 output refs)
          | Some (index, nof_wraparounds_local) =>
              c ← load h index;
              if c =? Z_UCS_NEWLINE then
                let output :=
                  set_current_paragraph_index last_index output in
                let output :=
                  set_output_nof_wraparounds last_nof_wraparounds output in
                Returns (rewind_return 0 output refs)
              else Returns (rewind_from output index nof_wraparounds_local)
          end
    end
  else
    c ← load h index;
    if c =? Z_UCS_NEWLINE then
      let output := set_dont_skip_newline true output in
      let output := set_first_iteration_done true output in
      let output := set_metadata_at_index_evaluated false output in
      let refs := set_char_count 0 refs in
      let output :=
        set_rewound_paragraph_was_newline_terminated true output in
      Returns (rewind_return 0 output refs)
    else
      let output := set_dont_skip_newline false output in
      let output :=
        set_rewound_paragraph_was_newline_terminated false output in
      Returns (rewind_from output index nof_wraparounds_local).

Definition output_rewind_paragraph (h : OUTPUTHISTORY)
    (output : history_output) (refs : rewind_references)
    : outcome (Z * history_output * rewind_references) :=
  _ ← validate_unless_disabled h output;
  if z_history_buffer_size h =? 0 then Returns (-1, output, refs)
  else if found_end_of_buffer output then Returns (1, output, refs)
  else
    start ← rewind_first_part h output refs;
    match start with
    | rewind_return result output refs => Returns (result, output, refs)
    | rewind_from output index nof_wraparounds_local =>
        let output := set_first_iteration_done true output in
        '(found, refs) ←
          rewind_to_newline (loop_budget E) h index nof_wraparounds_local
            None None 0 refs;
        match found with
        | None => Returns (1, set_found_end_of_buffer true output, refs)
        | Some (last_index, last_nof_wraparounds, nof_chars) =>
            let output := set_current_paragraph_index last_index output in
            let output :=
              set_output_nof_wraparounds last_nof_wraparounds output in
            let output := set_metadata_at_index_evaluated false output in
            output ← evaluate_metadata_for_paragraph h output;
            Returns (0, output, set_char_count nof_chars refs)
        end
    end.

(** ** Changing the attributes of the last paragraph *)

Definition alter_last_paragraph_attributes (h : OUTPUTHISTORY)
    (output : history_output) (paragraph_attr1 paragraph_attr2 : Z)
    : outcome (Z * OUTPUTHISTORY) :=
  _ ← validate_outputhistory h output;
  match last_paragraph_attribute_index output with
  | None => Returns (-1, h)
  | Some index =>
      h ← store h index
            (to_z_ucs (paragraph_attr1 + HISTORY_METADATA_DATA_OFFSET));
      let index :=
        if z_history_buffer_end h <? index + 1 then 0 else index + 1 in
      h ← store h index
            (to_z_ucs (paragraph_attr2 + HISTORY_METADATA_DATA_OFFSET));
      Returns (0, h)
  end.

Definition is_output_at_frontindex (h : OUTPUTHISTORY)
    (output : history_output) : outcome bool :=
  _ ← validate_unless_disabled h output;
  Returns (current_paragraph_index output =? z_history_buffer_front_index h).

(** ** Repeating paragraphs *)

Definition call_target (c : target_call) (output : history_output)
    : history_output :=
  set_target (target output ++ [c]) output.

(** [if (++output_ptr > end) output_ptr = start;] *)
Definition increment (h : OUTPUTHISTORY) (output_ptr : Z) : Z :=
  if z_history_buffer_end h <? output_ptr + 1 then 0 else output_ptr + 1.

(** The metadata record at [output_ptr], which points at its escape:
    the new state of the iterator, the type of the record and the pointer
    to the last unit of the record. *)
Definition repeat_metadata (h : OUTPUTHISTORY) (output : history_output)
    (output_ptr : Z) (include_metadata : bool)
    : outcome (history_output * Z * Z) :=
  let output_ptr := increment h output_ptr in
  t ← load h output_ptr;
  let metadata_type := to_int t in
  let output_ptr := increment h output_ptr in
  v ← load h output_ptr;
  let parameter := to_int v - HISTORY_METADATA_DATA_OFFSET in
  if metadata_type =? HISTORY_METADATA_TYPE_FONT E then
    let output := set_font_at_index (to_z_font parameter) output in
    let output :=
      if include_metadata then call_target (set_font parameter) output
      else output in
    Returns (output, metadata_type, output_ptr)
  else if metadata_type =? HISTORY_METADATA_TYPE_STYLE E then
    let output := set_style_at_index (to_z_style parameter) output in
    let output :=
      if include_metadata then call_target (set_text_style parameter) output
      else output in
    Returns (output, metadata_type, output_ptr)
  else if metadata_type =? HISTORY_METADATA_TYPE_COLOUR E then
    let output_ptr := increment h output_ptr in
    v ← load h output_ptr;
    let parameter2 := to_int v - HISTORY_METADATA_DATA_OFFSET in
    let output := set_foreground_at_index (to_z_colour parameter) output in
    let output := set_background_at_index (to_z_colour parameter2) output in
    let output :=
      if include_metadata
      then call_target (set_colour parameter parameter2 (-1)) output
      else output in
    Returns (output, metadata_type, output_ptr)
  else if metadata_type =? HISTORY_METADATA_TYPE_PARAGRAPHATTRIBUTE E then
    let output :=
      set_last_paragraph_attribute_index (Some output_ptr) output in
    let output_ptr := increment h output_ptr in
    Returns (output, metadata_type, output_ptr)
  else i18n_translate_and_exit.

(** The [while (n > 0)] of [output_repeat_paragraphs]; [output_buf] holds
    the [buf_index] units staged so far. *)
Fixpoint repeat_paragraphs_loop (fuel : nat) (h : OUTPUTHISTORY)
    (output : history_output) (n output_ptr : Z) (output_buf : list Z)
    (metadata_type : Z) (include_metadata : bool)
    : outcome (history_output * Z * Z) :=
  if 0 <? n then
    match fuel with
    | O => Diverges
    | S fuel =>
        c ← load h output_ptr;
        let n := if c =? Z_UCS_NEWLINE then n - 1 else n in
        let buf_index := Z.of_nat (length output_buf) in
        (* [if (metadata_type == -1) output_buf[buf_index++] = *output_ptr;
           else metadata_type = -1;], with [unit] for [*output_ptr] *)
        let continue (unit : Z) (output : history_output) (output_ptr : Z)
            (output_buf : list Z) (metadata_type : Z) :=
          let output_buf :=
            if metadata_type =? -1 then output_buf ++ [unit]
            else output_buf in
          repeat_paragraphs_loop fuel h output n (increment h output_ptr)
            output_buf (-1) include_metadata in
        if (buf_index =? REPEAT_PARAGRAPH_BUF_SIZE - 1)
           || (n <? 1)
           || (c =? HISTORY_METADATA_ESCAPE)
           || (output_ptr =? z_history_buffer_front_index h)
        then
          let output := call_target (z_ucs_output output_buf) output in
          if output_ptr =? z_history_buffer_front_index h then
            Returns (output, n, output_ptr)
          else if n <? 1 then Returns (output, n, output_ptr)
          else if c =? HISTORY_METADATA_ESCAPE then
            '(output, metadata_type, output_ptr) ←
              repeat_metadata h output output_ptr include_metadata;
            (* a record whose type is -1 is staged as text: the unit the
               pointer is on then, the last one of the record *)
            unit ←
              (if metadata_type =? -1 then load h output_ptr else Returns c);
            continue unit output output_ptr [] metadata_type
          else continue c output output_ptr [] metadata_type
        else continue c output output_ptr output_buf metadata_type
    end
  else Returns (output, n, output_ptr).

Definition output_repeat_paragraphs (h : OUTPUTHISTORY)
    (output : history_output) (n : Z)
    (include_metadata advance_history_pointer : bool)
    : outcome (Z * history_output) :=
  let output_ptr := current_paragraph_index output in
  _ ← validate_unless_disabled h output;
  output ←
    (if include_metadata then evaluate_metadata_for_paragraph h output
     else Returns output);
  let output := call_target (set_font (font_at_index output)) output in
  let output :=
    call_target (set_text_style (style_at_index output)) output in
  let output :=
    call_target
      (set_colour (foreground_at_index output) (background_at_index output)
         (-1)) output in
  let output :=
    if advance_history_pointer then set_found_end_of_buffer false output
    else output in
  '(output, n, output_ptr) ←
    (if output_ptr =? z_history_buffer_front_index h then
       (* "Already at buffer front." *)
       Returns (output, -1, output_ptr)
     else
       repeat_paragraphs_loop (loop_budget E) h output n output_ptr []
         (-1) include_metadata);
  output ←
    (if advance_history_pointer then
       let output := set_current_paragraph_index output_ptr output in
       output ←
         (if negb (current_paragraph_index output
                   =? z_history_buffer_front_index h)
          then
            Returns
              (set_current_paragraph_index
                 (current_paragraph_index output + 1) output)
          else
            let output := set_first_iteration_done false output in
            c ← load h (current_paragraph_index output);
            let output :=
              set_rewound_paragraph_was_newline_terminated
                (c =? Z_UCS_NEWLINE) output in
            Returns (set_first_iteration_done false output));
       (* the test of the unit at output_ptr that only feeds the trace *)
       _ ← load h output_ptr;
       Returns output
     else Returns output);
  Returns (n, output).

(** ** The saved position *)

Definition remember_history_output_position (h : OUTPUTHISTORY)
    (output : history_output) : outcome history_output :=
  _ ← validate_unless_disabled h output;
  Returns
  {| validity_wraparounds := validity_wraparounds output;
       validity_frontindex := validity_frontindex output;
       target := target output;
       validation_disabled := validation_disabled output;
       dont_skip_newline := dont_skip_newline output;
       last_paragraph_attribute_index := last_paragraph_attribute_index output;
       current_paragraph_index := current_paragraph_index output;
       output_nof_wraparounds := output_nof_wraparounds output;
       found_end_of_buffer := found_end_of_buffer output;
       first_iteration_done := first_iteration_done output;
       rewound_paragraph_was_newline_terminated :=
         rewound_paragraph_was_newline_terminated output;
       metadata_at_index_evaluated := metadata_at_index_evaluated output;
       font_at_index := font_at_index output;
       style_at_index := style_at_index output;
       foreground_at_index := foreground_at_index output;
       background_at_index := background_at_index output;
       last_rewinded_paragraphs_block_index :=
         last_rewinded_paragraphs_block_index output;
       last_used_metadata_state_font := last_used_metadata_state_font output;
       last_used_metadata_state_style := last_used_metadata_state_style output;
       last_used_metadata_state_foreground :=
         last_used_metadata_state_foreground output;
       last_used_metadata_state_background :=
         last_used_metadata_state_background output;
       saved_current_paragraph_index := current_paragraph_index output;
       saved_nof_wraparounds := output_nof_wraparounds output;
       saved_found_end_of_buffer := found_end_of_buffer output;
       saved_first_iteration_done := first_iteration_done output;
       saved_rewound_paragraph_was_newline_terminated :=
         rewound_paragraph_was_newline_terminated output;
       saved_metadata_at_index_evaluated := metadata_at_index_evaluated output;
       saved_font_at_index := font_at_index output;
       saved_style_at_index := style_at_index output;
       saved_foreground_at_index := foreground_at_index output;
       saved_background_at_index := background_at_index output;
       saved_last_rewinded_paragraphs_block_index :=
         last_rewinded_paragraphs_block_index output;
       saved_last_used_metadata_state_font :=
         last_used_metadata_state_font output;
       saved_last_used_metadata_state_style :=
         last_used_metadata_state_style output;
       saved_last_used_metadata_state_foreground :=
         last_used_metadata_state_foreground output;
       saved_last_used_metadata_state_background :=
         last_used_metadata_state_background output |}.

(** Each field is assigned from its saved copy, but for the counter of
    wrap-arounds, which the function assigns to itself:
    [output->nof_wraparounds = output->nof_wraparounds]. *)
Definition restore_history_output_position (h : OUTPUTHISTORY)
    (output : history_output) : outcome history_output :=
  _ ← validate_unless_disabled h output;
  Returns
  {| validity_wraparounds := validity_wraparounds output;
       validity_frontindex := validity_frontindex output;
       target := target output;
       validation_disabled := validation_disabled output;
       dont_skip_newline := dont_skip_newline output;
       last_paragraph_attribute_index := last_paragraph_attribute_index output;
       current_paragraph_index := saved_current_paragraph_index output;
       output_nof_wraparounds := output_nof_wraparounds output;
       found_end_of_buffer := saved_found_end_of_buffer output;
       first_iteration_done := saved_first_iteration_done output;
       rewound_paragraph_was_newline_terminated :=
         saved_rewound_paragraph_was_newline_terminated output;
       metadata_at_index_evaluated := saved_metadata_at_index_evaluated output;
       font_at_index := saved_font_at_index output;
       style_at_index := saved_style_at_index output;
       foreground_at_index := saved_foreground_at_index output;
       background_at_index := saved_background_at_index output;
       last_rewinded_paragraphs_block_index :=
         saved_last_rewinded_paragraphs_block_index output;
       last_used_metadata_state_font :=
         saved_last_used_metadata_state_font output;
       last_used_metadata_state_style :=
         saved_last_used_metadata_state_style output;
       last_used_metadata_state_foreground :=
         saved_last_used_metadata_state_foreground output;
       last_used_metadata_state_background :=
         saved_last_used_metadata_state_background output;
       saved_current_paragraph_index := saved_current_paragraph_index output;
       saved_nof_wraparounds := saved_nof_wraparounds output;
       saved_found_end_of_buffer := saved_found_end_of_buffer output;
       saved_first_iteration_done := saved_first_iteration_done output;
       saved_rewound_paragraph_was_newline_terminated :=
         saved_rewound_paragraph_was_newline_terminated output;
       saved_metadata_at_index_evaluated :=
         saved_metadata_at_index_evaluated output;
       saved_font_at_index := saved_font_at_index output;
       saved_style_at_index := saved_style_at_index output;
       saved_foreground_at_index := saved_foreground_at_index output;
       saved_background_at_index := saved_background_at_index output;
       saved_last_rewinded_paragraphs_block_index :=
         saved_last_rewinded_paragraphs_block_index output;
       saved_last_used_metadata_state_font :=
         saved_last_used_metadata_state_font output;
       saved_last_used_metadata_state_style :=
         saved_last_used_metadata_state_style output;
       saved_last_used_metadata_state_foreground :=
         saved_last_used_metadata_state_foreground output;
       saved_last_used_metadata_state_background :=
         saved_last_used_metadata_state_background output |}.

(** ** The paragraph before an index *)

(** The loop of [find_older_paragraph], which steps back until the unit
    at the index is a newline; [None] is its [return NULL]. *)
Fixpoint find_older_paragraph_walk (fuel : nat) (h : OUTPUTHISTORY)
    (index nof_wraparounds_local : Z) : outcome (option Z) :=
  match fuel with
  | O => Diverges
  | S fuel =>
      c ← load h index;
      if negb (c =? Z_UCS_NEWLINE) then
        match decrement_buffer_pointer h index nof_wraparounds_local with
        | None => Returns None
        | Some (index, nof_wraparounds_local) =>
            find_older_paragraph_walk fuel h index nof_wraparounds_local
        end
      else Returns (Some index)
  end.

Definition find_older_paragraph (h : OUTPUTHISTORY) (index : Z)
    : outcome (option Z) :=
  let nof_wraparounds_local := nof_wraparounds h in
  if z_history_buffer_size h =? 0 then Returns None
  else
    find_older_paragraph_walk (loop_budget E) h index nof_wraparounds_local.

End History.

(** * Scenarios and predicates *)

(** ** Texts and stores of the scenarios *)

(** The code units of an ASCII text, and the text as the zero-terminated
    array that [store_z_ucs_output_in_history] expects. *)
Definition text (s : string) : list Z :=
  map (fun a => Z.of_N (N_of_ascii a)) (list_ascii_of_string s).

Definition z_ucs_string (units : list Z) : option (list Z) :=
  Some (units ++ [0]).

Definition hello_newline : option (list Z) :=
  z_ucs_string (text "Hello" ++ [Z_UCS_NEWLINE]).

(** Scenario 1 of the specification: a store of at most 64 units that
    grows by 16, after [store_text("Hello\n")]. *)
Definition hello_store (window fg bg font style : Z) : outcome OUTPUTHISTORY :=
  store_z_ucs_output_in_history fizmo_environment
    (create_outputhistory window 64 16 fg bg font style) hello_newline.

(** A store of at most 8 units whose buffer is full and has wrapped once:
    the units [c, \n, e, f, g, h, \n, i] from back to front. *)
Definition wrapped_store : OUTPUTHISTORY :=
  {| window_number := 0;
     z_history_buffer_size := 8;
     z_history_maximum_buffer_size := 8;
     z_history_buffer_increment_size := 8;
     z_history_buffer_start :=
       text "h" ++ [Z_UCS_NEWLINE] ++ text "ic" ++ [Z_UCS_NEWLINE]
       ++ text "efg" ++ [0];
     z_history_buffer_end := 7;
     z_history_buffer_front_index := 3;
     z_history_buffer_back_index := 3;
     nof_wraparounds := 1;
     last_metadata_block_index := 0;
     next_newline_after_buffer_back := None;
     history_buffer_back_index_font := 1;
     history_buffer_back_index_style := 0;
     history_buffer_back_index_foreground := 9;
     history_buffer_back_index_background := 2;
     history_buffer_front_index_font := 1;
     history_buffer_front_index_style := 0;
     history_buffer_front_index_foreground := 9;
     history_buffer_front_index_background := 2;
     paragraphs_removed := [] |}.

(** The references a caller of [output_rewind_paragraph] passes: three
    variables, none of them [NULL]. *)
Definition references (count attr1 attr2 : Z) : rewind_references :=
  {| char_count := Some count;
     paragraph_attr1 := Some attr1;
     paragraph_attr2 := Some attr2 |}.

(** The rendering state of an iterator: font, style, foreground and
    background at its index. *)
Definition state_at_index (output : history_output) : Z * Z * Z * Z :=
  (font_at_index output, style_at_index output,
   foreground_at_index output, background_at_index output).

(** The units of the buffer that a reader meets from [from] up to, and
    without, [to]. *)
Definition units_between (h : OUTPUTHISTORY) (from to : Z) : list Z :=
  take (Z.to_nat (to - from)) (drop (Z.to_nat from) (z_history_buffer_start h)).

(** A block from [fizmo_malloc] that happens to be all zero. *)
Definition zeroed_output : history_output :=
  {| validity_wraparounds := 0;
     validity_frontindex := 0;
     target := [];
     validation_disabled := false;
     dont_skip_newline := false;
     last_paragraph_attribute_index := None;
     current_paragraph_index := 0;
     output_nof_wraparounds := 0;
     found_end_of_buffer := false;
     first_iteration_done := false;
     rewound_paragraph_was_newline_terminated := false;
     metadata_at_index_evaluated := false;
     font_at_index := 0;
     style_at_index := 0;
     foreground_at_index := 0;
     background_at_index := 0;
     last_rewinded_paragraphs_block_index := 0;
     last_used_metadata_state_font := 0;
     last_used_metadata_state_style := 0;
     last_used_metadata_state_foreground := 0;
     last_used_metadata_state_background := 0;
     saved_current_paragraph_index := 0;
     saved_nof_wraparounds := 0;
     saved_found_end_of_buffer := false;
     saved_first_iteration_done := false;
     saved_rewound_paragraph_was_newline_terminated := false;
     saved_metadata_at_index_evaluated := false;
     saved_font_at_index := 0;
     saved_style_at_index := 0;
     saved_foreground_at_index := 0;
     saved_background_at_index := 0;
     saved_last_rewinded_paragraphs_block_index := 0;
     saved_last_used_metadata_state_font := 0;
     saved_last_used_metadata_state_style := 0;
     saved_last_used_metadata_state_foreground := 0;
     saved_last_used_metadata_state_background := 0 |}.

(** The value of a run that returns. *)
Definition returned {A : Type} (default : A) (r : outcome A) : A :=
  match r with
  | Returns a => a
  | _ => default
  end.

(** Scenario 5 of the specification: the store of scenario 1, an
    iterator made for it with validation (A) and one without (B), and the
    store after [store_text("x")]. *)
Definition hello_written : OUTPUTHISTORY :=
  Eval vm_compute in
    returned (create_outputhistory 0 64 16 9 2 1 0) (hello_store 0 9 2 1 0).

Definition hello_x_written : OUTPUTHISTORY :=
  Eval vm_compute in
    returned hello_written
      (store_z_ucs_output_in_history fizmo_environment hello_written
         (z_ucs_string (text "x"))).

Definition iterator_A : history_output :=
  Eval vm_compute in
    default zeroed_output
      (init_history_output fizmo_environment zeroed_output hello_written 0).

Definition iterator_B : history_output :=
  Eval vm_compute in
    default zeroed_output
      (init_history_output fizmo_environment zeroed_output hello_written
         (Z_HISTORY_OUTPUT_WITHOUT_VALIDATION fizmo_environment)).

Local Abbreviation front_background := history_buffer_front_index_background.

(** The four types of record that the buffer may hold. *)
Definition known_metadata_type (E : environment) (metadata_type : Z) : bool :=
  (metadata_type =? HISTORY_METADATA_TYPE_FONT E)
  || (metadata_type =? HISTORY_METADATA_TYPE_STYLE E)
  || (metadata_type =? HISTORY_METADATA_TYPE_COLOUR E)
  || (metadata_type =? HISTORY_METADATA_TYPE_PARAGRAPHATTRIBUTE E).

(** The iterator at the front of the wrapped store, its position
    remembered, then rewound twice (the second rewind passes the start
    of the buffer), then restored. *)
Definition remember_rewind_restore (uninitialised : history_output)
    : outcome (history_output * history_output) :=
  match init_history_output fizmo_environment uninitialised wrapped_store 0
  with
  | None => Undefined
  | Some output =>
      remembered ← remember_history_output_position wrapped_store output;
      r ← output_rewind_paragraph fizmo_environment wrapped_store remembered
            (references 0 0 0);
      r ← output_rewind_paragraph fizmo_environment wrapped_store r.1.2
            (references 0 0 0);
      restored ← restore_history_output_position wrapped_store r.1.2;
      Returns (remembered, restored)
  end.

(** Two paragraphs, then a colour record: the front state has the
    foreground 4, the back state still has 9. *)
Definition colour_after_paragraphs : outcome OUTPUTHISTORY :=
  h ← store_z_ucs_output_in_history fizmo_environment
        (create_outputhistory 0 64 16 9 2 1 0)
        (z_ucs_string (text "A" ++ [Z_UCS_NEWLINE] ++ text "B"
                       ++ [Z_UCS_NEWLINE]));
  r ← store_metadata_in_history fizmo_environment h
        (HISTORY_METADATA_TYPE_COLOUR fizmo_environment) [4; 5];
  Returns r.2.

(** Scenario 1 of the specification, up to the first rewind of an
    iterator from the front. *)
Definition first_rewind_after_hello (window fg bg font style : Z)
    (uninitialised : history_output)
    : outcome (Z * history_output * rewind_references) :=
  h ← hello_store window fg bg font style;
  match init_history_output fizmo_environment uninitialised h 0 with
  | None => Undefined
  | Some output =>
      output_rewind_paragraph fizmo_environment h output (references 99 0 0)
  end.

(** [process_buffer_back] changes the back state and the record of the
    removed paragraphs, and a copy changes cells of the block: the
    geometry of the buffer and the background of the front state stay. *)
Definition same_frame (h h' : OUTPUTHISTORY) : Prop :=
  z_history_buffer_size h' = z_history_buffer_size h
  /\ z_history_maximum_buffer_size h' = z_history_maximum_buffer_size h
  /\ z_history_buffer_end h' = z_history_buffer_end h
  /\ z_history_buffer_front_index h' = z_history_buffer_front_index h
  /\ z_history_buffer_back_index h' = z_history_buffer_back_index h
  /\ nof_wraparounds h' = nof_wraparounds h
  /\ front_background h' = front_background h.

(** What an iterator captured of the store [h0] it was made for. *)
Definition captured (h0 : OUTPUTHISTORY) (output : history_output) : Prop :=
  validity_wraparounds output = nof_wraparounds h0
  /\ validity_frontindex output = z_history_buffer_front_index h0.

(** The store no longer is where the iterator captured it. *)
Definition moved_since_capture (h : OUTPUTHISTORY) (output : history_output)
    : Prop :=
  nof_wraparounds h <> validity_wraparounds output
  \/ z_history_buffer_front_index h <> validity_frontindex output.


(** "xxxxxab", a font record, "cd": twelve units, the record at the
    offsets 7 to 9. *)
Definition font_between_texts : outcome OUTPUTHISTORY :=
  h ← store_z_ucs_output_in_history fizmo_environment
        (create_outputhistory 0 64 16 9 2 1 0)
        (z_ucs_string (text "xxxxxab"));
  r ← store_metadata_in_history fizmo_environment h
        (HISTORY_METADATA_TYPE_FONT fizmo_environment) [1];
  store_z_ucs_output_in_history fizmo_environment r.2
    (z_ucs_string (text "cd")).

(** The [n] units before the front are units of text: none of them is
    the escape. *)
Definition plain_text_before_front (h : OUTPUTHISTORY) (n : Z) : Prop :=
  forall i : Z,
    z_history_buffer_front_index h - n <= i < z_history_buffer_front_index h ->
    exists c : Z, load h i = Returns c /\ c <> HISTORY_METADATA_ESCAPE.

(** The width of the record whose type unit is [t], as
    [remove_chars_from_history] takes it. *)
Definition record_width (E : environment) (t : Z) : Z :=
  if (t =? HISTORY_METADATA_TYPE_COLOUR E)
     || (t =? HISTORY_METADATA_TYPE_PARAGRAPHATTRIBUTE E)
  then 4 else 3.

(** The cells from [p] on hold the record [ESC, t, parameters], no unit
    of it but the escape being 0. *)
Definition record_at (E : environment) (h : OUTPUTHISTORY) (p t : Z) : Prop :=
  0 <= p
  /\ load h p = Returns HISTORY_METADATA_ESCAPE
  /\ load h (p + 1) = Returns t
  /\ t <> 0
  /\ forall i : Z,
       p + 2 <= i < p + record_width E t ->
       exists c : Z, load h i = Returns c /\ c <> 0.

(** A store that has not wrapped, with its buffer allocated: the block
    has one cell more than the size, the end is the last cell before that
    guard cell, and the front lies within the block. *)
Definition linear_store (h : OUTPUTHISTORY) : Prop :=
  0 < z_history_buffer_size h <= z_history_maximum_buffer_size h
  /\ z_history_maximum_buffer_size h < 2 ^ 64
  /\ z_history_buffer_end h = z_history_buffer_size h - 1
  /\ Z.of_nat (length (z_history_buffer_start h))
     = z_history_buffer_size h + 1
  /\ nof_wraparounds h = 0
  /\ 0 <= z_history_buffer_front_index h <= z_history_buffer_size h.

(** The front of [h] is in the block of [B] cells for which the last
    state block was written. *)
Definition front_in_last_state_block (E : environment) (h : OUTPUTHISTORY)
    : Prop :=
  Z_HISTORY_METADATA_STATE_BLOCK_SIZE E <> 0
  /\ z_history_buffer_front_index h
     - Z.rem (z_history_buffer_front_index h)
         (Z_HISTORY_METADATA_STATE_BLOCK_SIZE E)
     = last_metadata_block_index h.



(** The number of newlines among units. *)
Fixpoint newlines (units : list Z) : Z :=
  match units with
  | [] => 0
  | c :: units => (if c =? Z_UCS_NEWLINE then 1 else 0) + newlines units
  end.



(** The store with "xxxxxab", a font record and "cd". *)
Definition font_between_texts_store : OUTPUTHISTORY :=
  Eval vm_compute in
    returned (create_outputhistory 0 64 16 9 2 1 0) font_between_texts.

(** ** Predicates of the further properties *)

(** The buffer is as [create_outputhistory] or [try_to_enlarge_buffer]
    leave it: not allocated, or a block of one cell more than the size,
    whose end is the cell before the guard cell. *)
Definition buffer_shape (h : OUTPUTHISTORY) : Prop :=
  (z_history_buffer_size h = 0
   /\ z_history_buffer_start h = []
   /\ z_history_buffer_end h = 0)
  \/ (0 < z_history_buffer_size h
      /\ Z.of_nat (length (z_history_buffer_start h))
         = z_history_buffer_size h + 1
      /\ z_history_buffer_end h = z_history_buffer_size h - 1).

(** The shape of the buffer, a size within the maximum, and a front
    within the buffer or on its guard cell. *)
Definition well_formed (h : OUTPUTHISTORY) : Prop :=
  buffer_shape h
  /\ z_history_buffer_size h <= z_history_maximum_buffer_size h
  /\ z_history_maximum_buffer_size h < 2 ^ 64
  /\ 0 <= z_history_buffer_front_index h <= z_history_buffer_size h.

(** Only cells of the block differ, and there are as many as before. *)
Definition same_geometry (h h' : OUTPUTHISTORY) : Prop :=
  same_frame h h'
  /\ length (z_history_buffer_start h')
     = length (z_history_buffer_start h)
  /\ z_history_buffer_increment_size h'
     = z_history_buffer_increment_size h.

(** The fields of the iterator that no operation on it assigns. *)
Definition validity (output : history_output) : Z * Z * bool :=
  (validity_wraparounds output, validity_frontindex output,
   validation_disabled output).

(** The position of the iterator that remember saves, without the
    counter of wrap-arounds. *)
Definition position (output : history_output)
    : Z * bool * bool * bool * bool * (Z * Z * Z * Z) * (Z * Z * Z * Z * Z) :=
  (current_paragraph_index output,
   found_end_of_buffer output,
   first_iteration_done output,
   rewound_paragraph_was_newline_terminated output,
   metadata_at_index_evaluated output,
   state_at_index output,
   (last_rewinded_paragraphs_block_index output,
    last_used_metadata_state_font output,
    last_used_metadata_state_style output,
    last_used_metadata_state_foreground output,
    last_used_metadata_state_background output)).

(** The saved slot of the iterator, in the same order, and with the
    saved counter of wrap-arounds. *)
Definition saved_position (output : history_output)
    : Z * bool * bool * bool * bool * (Z * Z * Z * Z) * (Z * Z * Z * Z * Z) :=
  (saved_current_paragraph_index output,
   saved_found_end_of_buffer output,
   saved_first_iteration_done output,
   saved_rewound_paragraph_was_newline_terminated output,
   saved_metadata_at_index_evaluated output,
   (saved_font_at_index output, saved_style_at_index output,
    saved_foreground_at_index output, saved_background_at_index output),
   (saved_last_rewinded_paragraphs_block_index output,
    saved_last_used_metadata_state_font output,
    saved_last_used_metadata_state_style output,
    saved_last_used_metadata_state_foreground output,
    saved_last_used_metadata_state_background output)).

(** One operation on the iterator that reads the store [h] and is
    neither remember nor restore. *)
Inductive reads (E : environment) (h : OUTPUTHISTORY)
    : history_output -> history_output -> Prop :=
| reads_rewind (output output' : history_output)
    (refs refs' : rewind_references) (result : Z) :
    output_rewind_paragraph E h output refs
    = Returns (result, output', refs') ->
    reads E h output output'
| reads_repeat (output output' : history_output) (n result : Z)
    (include_metadata advance : bool) :
    output_repeat_paragraphs E h output n include_metadata advance
    = Returns (result, output') ->
    reads E h output output'
| reads_evaluate (output output' : history_output) :
    evaluate_metadata_for_paragraph E h output = Returns output' ->
    reads E h output output'.

(** [h'] is well formed, its buffer is at least as large as the one of
    [h], and its maximum size is the same. *)
Definition grown (h h' : OUTPUTHISTORY) : Prop :=
  well_formed h'
  /\ z_history_buffer_size h <= z_history_buffer_size h'
  /\ z_history_maximum_buffer_size h' = z_history_maximum_buffer_size h.

(** One call that writes to the store, or takes characters off it, or
    alters paragraph attributes in it. *)
Inductive writes (E : environment) : OUTPUTHISTORY -> OUTPUTHISTORY -> Prop :=
| writes_data (h h' : OUTPUTHISTORY) (data : option (list Z)) (len : Z)
    (evaluate_state_block : bool) :
    store_data_in_history E h data len evaluate_state_block = Returns h' ->
    writes E h h'
| writes_text (h h' : OUTPUTHISTORY) (z_ucs_output : option (list Z)) :
    store_z_ucs_output_in_history E h z_ucs_output = Returns h' ->
    writes E h h'
| writes_metadata (h h' : OUTPUTHISTORY) (metadata_type result : Z)
    (ap : list Z) :
    store_metadata_in_history E h metadata_type ap = Returns (result, h') ->
    writes E h h'
| writes_remove (h h' : OUTPUTHISTORY) (nof_chars result : Z) :
    remove_chars_from_history E h nof_chars = Returns (result, h') ->
    writes E h h'
| writes_alter (h h' : OUTPUTHISTORY) (output : history_output)
    (a1 a2 result : Z) :
    alter_last_paragraph_attributes h output a1 a2 = Returns (result, h') ->
    writes E h h'.

(** The cache of the last metadata state that
    [evaluate_metadata_for_paragraph] consults. *)
Definition cache (output : history_output) : Z * Z * Z * Z * Z :=
  (last_rewinded_paragraphs_block_index output,
   last_used_metadata_state_font output,
   last_used_metadata_state_style output,
   last_used_metadata_state_foreground output,
   last_used_metadata_state_background output).

(** Where the iterator is: its index with the counter of wrap-arounds,
    and the flags of the rewinding. *)
Definition place (output : history_output)
    : Z * Z * bool * bool * bool * bool :=
  (current_paragraph_index output,
   output_nof_wraparounds output,
   found_end_of_buffer output,
   first_iteration_done output,
   rewound_paragraph_was_newline_terminated output,
   dont_skip_newline output).

(** What no operation on the iterator but remember and restore assigns:
    the fields that validation compares, the saved slot with its
    counter, and the cache of the last metadata state. *)
Definition untouched (output output' : history_output) : Prop :=
  validity output' = validity output
  /\ saved_position output' = saved_position output
  /\ saved_nof_wraparounds output' = saved_nof_wraparounds output
  /\ cache output' = cache output.

(** One operation on the iterator: one that reads the store, or
    remember, or restore. *)
Inductive moves (E : environment) (h : OUTPUTHISTORY)
    : history_output -> history_output -> Prop :=
| moves_reads (output output' : history_output) :
    reads E h output output' -> moves E h output output'
| moves_remember (output output' : history_output) :
    remember_history_output_position h output = Returns output' ->
    moves E h output output'
| moves_restore (output output' : history_output) :
    restore_history_output_position h output = Returns output' ->
    moves E h output output'.

(** A call of the target that hands it text. *)
Definition is_text (c : target_call) : bool :=
  match c with
  | z_ucs_output _ => true
  | _ => false
  end.

(** The state at the front of the store, which
    [store_metadata_in_history] keeps, and the block for which the last
    state block was written. *)
Definition front_state (h : OUTPUTHISTORY) : Z * Z * Z * Z * Z :=
  (history_buffer_front_index_font h,
   history_buffer_front_index_style h,
   history_buffer_front_index_foreground h,
   history_buffer_front_index_background h,
   last_metadata_block_index h).

(** ** Scenarios of the further properties *)

(** The iterator of scenario 5 after its first rewind. *)
Definition rewound_A : Z * history_output * rewind_references :=
  Eval vm_compute in
    returned (0, iterator_A, references 0 0 0)
      (output_rewind_paragraph fizmo_environment hello_written iterator_A
         (references 0 0 0)).

(** An iterator for the store of scenario 1, from the back of the
    buffer. *)
Definition iterator_C : history_output :=
  Eval vm_compute in
    default zeroed_output
      (init_history_output fizmo_environment zeroed_output hello_written
         (Z_HISTORY_OUTPUT_FROM_BUFFERBACK fizmo_environment)).

(** Iterator A with its position remembered, then rewound, then
    restored. *)
Definition remembered_A : history_output :=
  Eval vm_compute in
    returned iterator_A
      (remember_history_output_position hello_written iterator_A).

Definition remembered_A_rewound : Z * history_output * rewind_references :=
  Eval vm_compute in
    returned (0, iterator_A, references 0 0 0)
      (output_rewind_paragraph fizmo_environment hello_written remembered_A
         (references 0 0 0)).

Definition restored_A : history_output :=
  Eval vm_compute in
    returned iterator_A
      (restore_history_output_position hello_written
         remembered_A_rewound.1.2).

(** Iterator A with the metadata at its index evaluated. *)
Definition evaluated_A : history_output :=
  Eval vm_compute in
    returned iterator_A
      (evaluate_metadata_for_paragraph fizmo_environment hello_written
         iterator_A).

(** The rewound iterator A after the repetition of one paragraph,
    without metadata and without advancing. *)
Definition repeated_A : Z * history_output :=
  Eval vm_compute in
    returned (0, iterator_A)
      (output_repeat_paragraphs fizmo_environment hello_written
         rewound_A.1.2 1 false false).

(** The environment of fizmo with a [realloc] that gives no memory. *)
Definition no_memory_environment : environment :=
  {| HISTORY_METADATA_TYPE_FONT := 1;
     HISTORY_METADATA_TYPE_STYLE := 2;
     HISTORY_METADATA_TYPE_COLOUR := 3;
     HISTORY_METADATA_TYPE_PARAGRAPHATTRIBUTE := 4;
     Z_HISTORY_METADATA_STATE_BLOCK_SIZE := 256;
     Z_HISTORY_OUTPUT_FROM_BUFFERBACK := 1;
     Z_HISTORY_OUTPUT_WITHOUT_VALIDATION := 2;
     paragraph_removal_function := false;
     realloc_succeeds := fun _ => false;
     indeterminate := fun _ => 0;
     loop_budget := 4096 |}.

(** The environment of fizmo with state blocks of four units. *)
Definition small_block_environment : environment :=
  {| HISTORY_METADATA_TYPE_FONT := 1;
     HISTORY_METADATA_TYPE_STYLE := 2;
     HISTORY_METADATA_TYPE_COLOUR := 3;
     HISTORY_METADATA_TYPE_PARAGRAPHATTRIBUTE := 4;
     Z_HISTORY_METADATA_STATE_BLOCK_SIZE := 4;
     Z_HISTORY_OUTPUT_FROM_BUFFERBACK := 1;
     Z_HISTORY_OUTPUT_WITHOUT_VALIDATION := 2;
     paragraph_removal_function := false;
     realloc_succeeds := fun _ => true;
     indeterminate := fun _ => 0;
     loop_budget := 4096 |}.

(** The wrapped store after two more units of text, written with state
    blocks of four units: the front enters another block, so the state
    block follows the text. *)
Definition wrapped_store_ab : OUTPUTHISTORY :=
  Eval vm_compute in
    returned wrapped_store
      (store_z_ucs_output_in_history small_block_environment wrapped_store
         (z_ucs_string (text "ab"))).

(** The store with the state at the front that a record of type [t]
    with the first parameter [p] leaves: fonts, styles and the
    foreground of colours are kept with the store. *)
Definition with_front_state (E : environment) (t p : Z) (h : OUTPUTHISTORY)
    : OUTPUTHISTORY :=
  if t =? HISTORY_METADATA_TYPE_FONT E then
    set_history_buffer_front_index_font (to_z_font p) h
  else if t =? HISTORY_METADATA_TYPE_STYLE E then
    set_history_buffer_front_index_style (to_z_style p) h
  else if t =? HISTORY_METADATA_TYPE_COLOUR E then
    set_history_buffer_front_index_foreground (to_z_colour p) h
  else h.

(** The four types of record are four numbers, none of them the
    escape. *)
Definition distinct_types (E : environment) : Prop :=
  NoDup [HISTORY_METADATA_ESCAPE;
         HISTORY_METADATA_TYPE_FONT E;
         HISTORY_METADATA_TYPE_STYLE E;
         HISTORY_METADATA_TYPE_COLOUR E;
         HISTORY_METADATA_TYPE_PARAGRAPHATTRIBUTE E].

(** The ring of a store that has wrapped is full: the back index is the
    front index, in a buffer that has cells. *)
Definition full_when_wrapped (h : OUTPUTHISTORY) : Prop :=
  nof_wraparounds h <> 0 ->
  z_history_buffer_back_index h = z_history_buffer_front_index h
  /\ 0 < z_history_buffer_size h.

(** The store of scenario 1 with its six units taken off again. *)
Definition hello_emptied : OUTPUTHISTORY :=
  Eval vm_compute in
    (returned (0, hello_written)
       (remove_chars_from_history fizmo_environment hello_written 6)).2.




(** * Properties *)

(** The wrapped store is what three writes leave. *)
Lemma wrapped_store_reached :
  (h ← store_z_ucs_output_in_history fizmo_environment
         (create_outputhistory 0 8 8 9 2 1 0)
         (z_ucs_string (text "ab" ++ [Z_UCS_NEWLINE] ++ text "c"));
   h ← store_z_ucs_output_in_history fizmo_environment h
         (z_ucs_string ([Z_UCS_NEWLINE] ++ text "efg"));
   store_z_ucs_output_in_history fizmo_environment h
     (z_ucs_string (text "h" ++ [Z_UCS_NEWLINE] ++ text "i")))
  = Returns wrapped_store.
Proof. vm_compute. reflexivity. Qed.

(** ** Occupancy (C4) *)

(** C4.  After [create(window, 64, 16, fg, bg, ...)] and
    [store_text("Hello\n")] the buffer holds six units, its front is six
    cells past its back and [wraps] is 0, but [get_buffer_space_used]
    answers 7: in a buffer that has not wrapped it computes
    [front - back + 1], one more than the occupancy [front - back] that
    the claim and the head comment of [history.c] ("In case front == back,
    the buffer is empty") call for. *)
Theorem space_used_after_hello :
  forall window fg bg font style : Z,
    (h ← hello_store window fg bg font style;
     Returns (units_between h (z_history_buffer_back_index h)
                (z_history_buffer_front_index h),
              z_history_buffer_front_index h - z_history_buffer_back_index h,
              nof_wraparounds h,
              get_buffer_space_used h))
    = Returns (text "Hello" ++ [Z_UCS_NEWLINE], 6, 0, 7).
Proof. intros. vm_compute. reflexivity. Qed.

(** An empty buffer that was allocated is reported as holding one unit. *)
Lemma space_used_of_empty_buffer :
  forall h : OUTPUTHISTORY,
    z_history_buffer_size h <> 0 ->
    nof_wraparounds h = 0 ->
    z_history_buffer_front_index h = z_history_buffer_back_index h ->
    get_buffer_space_used h = 1.
Proof.
  intros h Hsize Hwraps Hfront. unfold get_buffer_space_used.
  destruct (Z.eqb_spec (z_history_buffer_size h) 0) as [|_]; [contradiction|].
  rewrite Hwraps, Hfront. simpl.
  replace (z_history_buffer_back_index h - z_history_buffer_back_index h + 1)
    with 1 by lia.
  reflexivity.
Qed.

(** ** The front state (C2) *)

(** C2.  [store_metadata(COLOUR, 4, 5)] on a new store whose background
    is 2 returns 0 and writes the record [ESC, COLOUR, 4 + 13, 5 + 13];
    the foreground of the front state becomes 4 and its background stays
    2.  The assignment to [history_buffer_front_index_background] stands
    behind the exit of the out-of-range branch and is never executed. *)
Theorem colour_metadata_keeps_front_background :
  (r ← store_metadata_in_history fizmo_environment
         (create_outputhistory 0 64 16 9 2 1 0)
         (HISTORY_METADATA_TYPE_COLOUR fizmo_environment) [4; 5];
   Returns (r.1,
            units_between r.2 0 (z_history_buffer_front_index r.2),
            history_buffer_front_index_foreground r.2,
            history_buffer_front_index_background r.2))
  = Returns (0, [0; 3; 17; 18], 4, 2).
Proof. vm_compute. reflexivity. Qed.

(** ** Large inputs (C1) *)

(** C1.  On the full, once wrapped store of at most 8 units,
    [store_data_in_history] with the 8 units "ABCDEFGH" leaves every cell
    of the buffer as it was, sets the front to the start and the back to
    the end, and keeps [wraps] at 1; with the 12 units "ABCDEFGHIJKL" it
    copies one unit, the first one.  It copies [len - maximum] bytes from
    the head of the data, where its comment says "copy as much into it as
    will fit". *)
Theorem store_data_of_buffer_size :
  (h ← store_data_in_history fizmo_environment wrapped_store
         (Some (text "ABCDEFGH")) 8 true;
   Returns (z_history_buffer_start h, z_history_buffer_front_index h,
            z_history_buffer_back_index h, nof_wraparounds h))
  = Returns (z_history_buffer_start wrapped_store, 0, 7, 1)
  /\
  (h ← store_data_in_history fizmo_environment wrapped_store
         (Some (text "ABCDEFGHIJKL")) 12 true;
   Returns (z_history_buffer_start h, z_history_buffer_front_index h,
            z_history_buffer_back_index h, nof_wraparounds h))
  = Returns (text "A" ++ [Z_UCS_NEWLINE] ++ text "ic" ++ [Z_UCS_NEWLINE]
             ++ text "efg" ++ [0], 0, 7, 1).
Proof. split; vm_compute; reflexivity. Qed.

(** ** Remember and restore (C3) *)

(** C3.  After remember, two rewinds and restore, the index is back at
    its remembered value 2, but [nof_wraparounds] is 4294967295 where 0
    was remembered: [restore_history_output_position] assigns
    [output->nof_wraparounds] to itself. *)
Theorem restore_keeps_nof_wraparounds :
  forall uninitialised : history_output,
    (r ← remember_rewind_restore uninitialised;
     Returns (current_paragraph_index r.1, output_nof_wraparounds r.1,
              saved_nof_wraparounds r.2,
              current_paragraph_index r.2, output_nof_wraparounds r.2))
    = Returns (2, 0, 0, 2, 4294967295).
Proof. intros. vm_compute. reflexivity. Qed.

(** What restore makes of the iterator: the saved index, and the counter
    of wrap-arounds that it had. *)
Lemma restore_history_output_position_fields :
  forall (h : OUTPUTHISTORY) (output restored : history_output),
    restore_history_output_position h output = Returns restored ->
    current_paragraph_index restored = saved_current_paragraph_index output
    /\ found_end_of_buffer restored = saved_found_end_of_buffer output
    /\ first_iteration_done restored = saved_first_iteration_done output
    /\ state_at_index restored
       = (saved_font_at_index output, saved_style_at_index output,
          saved_foreground_at_index output, saved_background_at_index output)
    /\ output_nof_wraparounds restored = output_nof_wraparounds output.
Proof.
  intros h output restored Hrun.
  unfold restore_history_output_position in Hrun.
  destruct (validate_unless_disabled h output); try discriminate.
  cbn in Hrun. injection Hrun as <-. repeat split.
Qed.

(** ** State at the start of a paragraph (C5) *)

(** C5.  The first rewind of an iterator from the front lands behind the
    second paragraph, at offset 4, and evaluates the state there.  The
    walk back meets no record and hits the start of the buffer: font and
    style come from the back state, and the foreground is 4, the one of
    the front state, not the 9 of the back state; so is the background.
    The branch announces "Using back values to fill in." *)
Theorem fill_in_takes_front_foreground :
  forall uninitialised : history_output,
    (h ← colour_after_paragraphs;
     match init_history_output fizmo_environment uninitialised h 0 with
     | None => Undefined
     | Some output =>
         r ← output_rewind_paragraph fizmo_environment h output
               (references 0 0 0);
         Returns (r.1.1, current_paragraph_index r.1.2,
                  state_at_index r.1.2,
                  history_buffer_back_index_foreground h,
                  history_buffer_front_index_foreground h)
     end)
    = Returns (0, 4, (1, 0, 4, 2), 9, 4).
Proof. intros. vm_compute. reflexivity. Qed.

(** Whenever the walk cannot step back, what is unresolved is filled in:
    font and style from the back state, both colours from the front
    state. *)
Lemma fill_in_at_end_of_buffer_unresolved :
  forall (h : OUTPUTHISTORY) (output : history_output),
    font_at_index output = -1 ->
    style_at_index output = -1 ->
    foreground_at_index output = Z_COLOUR_UNDEFINED ->
    background_at_index output = Z_COLOUR_UNDEFINED ->
    state_at_index (fill_in_at_end_of_buffer h output)
    = (history_buffer_back_index_font h,
       history_buffer_back_index_style h,
       history_buffer_front_index_foreground h,
       history_buffer_front_index_background h).
Proof.
  intros h output Hfont Hstyle Hfg Hbg.
  unfold fill_in_at_end_of_buffer, state_at_index.
  rewrite Hfont. simpl. rewrite Hstyle. simpl. rewrite Hfg. simpl.
  rewrite Hbg. reflexivity.
Qed.

(** ** The first rewind (C8) *)

(** C8, as the claim states it, fails: with white (9) on black (2) the
    first rewind returns 0 and reports the count 0, not 5. *)
Lemma first_rewind_count_is_not_5 :
  (r ← first_rewind_after_hello 0 9 2 1 0 zeroed_output;
   Returns (r.1.1, char_count r.2))
  = Returns (0, Some 0)
  /\ ~ ((r ← first_rewind_after_hello 0 9 2 1 0 zeroed_output;
         Returns (char_count r.2))
        = Returns (Some 5)).
Proof. split; vm_compute; [reflexivity | discriminate]. Qed.

(** C8, amended.  The last unit is a newline, and the first rewind
    returns 0 at once ("Last output char is newline, returning from 1st
    iteration"): the count is 0, the paragraph is recorded as newline
    terminated, and the state is the one the iterator took from the front
    state, which is the state given to [create]. *)
Theorem first_rewind_after_hello_result :
  forall (window fg bg font style : Z) (uninitialised : history_output),
    (r ← first_rewind_after_hello window fg bg font style uninitialised;
     Returns (r.1.1, char_count r.2,
              rewound_paragraph_was_newline_terminated r.1.2,
              state_at_index r.1.2))
    = Returns (0, Some 0, true, (font, style, fg, bg)).
Proof. intros. vm_compute. reflexivity. Qed.

(** *** What draining and copying leave alone *)

Lemma same_frame_refl : forall h : OUTPUTHISTORY, same_frame h h.
Proof. intros h. repeat split. Qed.

Lemma same_frame_trans :
  forall h1 h2 h3 : OUTPUTHISTORY,
    same_frame h1 h2 -> same_frame h2 h3 -> same_frame h1 h3.
Proof. unfold same_frame. intros h1 h2 h3. intuition congruence. Qed.

Ltac keeps_frame IH :=
  repeat case_match; simplify_eq;
  repeat match goal with
         | H : _ = Returns _ |- _ => apply IH in H
         end;
  unfold same_frame in *; cbn in *; intuition congruence.

Lemma store_same_frame :
  forall (h h' : OUTPUTHISTORY) (p c : Z),
    store h p c = Returns h' -> same_frame h h'.
Proof.
  intros h h' p c Hrun. unfold store in Hrun.
  repeat case_match; simplify_eq. repeat split.
Qed.

Lemma z_ucs_ncpy_same_frame :
  forall (n : nat) (h h' : OUTPUTHISTORY) (dst : Z) (data : list Z) (src : Z),
    z_ucs_ncpy n h dst data src = Returns h' -> same_frame h h'.
Proof.
  intros n. induction n as [|n IH]; intros h h' dst data src Hrun;
    cbn [z_ucs_ncpy] in Hrun.
  - simplify_eq. apply same_frame_refl.
  - unfold mbind, outcome_bind in Hrun.
    destruct (load_data data src); try discriminate.
    destruct (store h dst a) as [h1| | |] eqn:Hstore; try discriminate.
    apply IH in Hrun. apply store_same_frame in Hstore.
    eapply same_frame_trans; eassumption.
Qed.

Lemma memcpy_same_frame :
  forall (h h' : OUTPUTHISTORY) (dst : Z) (data : list Z) (n : Z),
    memcpy h dst data n = Returns h' -> same_frame h h'.
Proof.
  intros h h' dst data n Hrun. unfold memcpy in Hrun.
  unfold mbind, outcome_bind in Hrun. cbv zeta in Hrun.
  destruct (z_ucs_ncpy _ h dst data 0) as [h1| | |] eqn:Hcells;
    try discriminate.
  apply z_ucs_ncpy_same_frame in Hcells.
  destruct (_ =? 0); [now simplify_eq|].
  destruct (load h1 _); try discriminate.
  destruct (load_data data _); try discriminate.
  apply store_same_frame in Hrun.
  eapply same_frame_trans; eassumption.
Qed.

Lemma process_buffer_back_chars_same_frame :
  forall (E : environment) (fuel : nat) (h h' : OUTPUTHISTORY)
         (current_index nof_zucs_chars current_index' : Z),
    process_buffer_back_chars E fuel h current_index nof_zucs_chars
    = Returns (h', current_index') ->
    same_frame h h'.
Proof.
  intros E fuel. induction fuel as [|fuel IH];
    intros h h' current_index nof_zucs_chars current_index' Hrun;
    cbn [process_buffer_back_chars] in Hrun; [discriminate|].
  unfold mbind, outcome_bind, i18n_translate_and_exit in Hrun.
  cbv zeta in Hrun.
  keeps_frame IH.
Qed.

Lemma process_buffer_back_newline_same_frame :
  forall (E : environment) (fuel : nat) (h h' : OUTPUTHISTORY)
         (current_index current_index' : Z),
    process_buffer_back_newline E fuel h current_index
    = Returns (h', current_index') ->
    same_frame h h'.
Proof.
  intros E fuel. induction fuel as [|fuel IH];
    intros h h' current_index current_index' Hrun;
    cbn [process_buffer_back_newline] in Hrun; [discriminate|].
  unfold mbind, outcome_bind in Hrun. cbv zeta in Hrun.
  keeps_frame IH.
Qed.

Lemma process_buffer_back_same_frame :
  forall (E : environment) (h h' : OUTPUTHISTORY) (nof_zucs_chars : Z),
    process_buffer_back E h nof_zucs_chars = Returns h' -> same_frame h h'.
Proof.
  intros E h h' nof_zucs_chars Hrun. unfold process_buffer_back in Hrun.
  unfold mbind at 1, outcome_bind in Hrun.
  destruct (process_buffer_back_chars E _ h _ _) as [[h1 index1]| | |] eqn:H1;
    try discriminate.
  apply process_buffer_back_chars_same_frame in H1.
  destruct (_ && _); [|now simplify_eq].
  unfold mbind, outcome_bind in Hrun.
  destruct (process_buffer_back_newline E _ _ index1)
    as [[h2 index2]| | |] eqn:H2; try discriminate.
  apply process_buffer_back_newline_same_frame in H2.
  simplify_eq. unfold same_frame in *. cbn in *. intuition congruence.
Qed.

Lemma process_buffer_back_keeps_front_background :
  forall (E : environment) (h h' : OUTPUTHISTORY) (nof_zucs_chars : Z),
    process_buffer_back E h nof_zucs_chars = Returns h' ->
    front_background h' = front_background h.
Proof.
  intros E h h' n Hrun. apply process_buffer_back_same_frame in Hrun.
  apply Hrun.
Qed.

Lemma z_ucs_ncpy_keeps_front_background :
  forall (n : nat) (h h' : OUTPUTHISTORY) (dst : Z) (data : list Z) (src : Z),
    z_ucs_ncpy n h dst data src = Returns h' ->
    front_background h' = front_background h.
Proof.
  intros n h h' dst data src Hrun. apply z_ucs_ncpy_same_frame in Hrun.
  apply Hrun.
Qed.

Lemma try_to_enlarge_buffer_keeps_front_background :
  forall (E : environment) (h h' : OUTPUTHISTORY) (desired : Z),
    try_to_enlarge_buffer E h desired = Returns h' ->
    front_background h' = front_background h
    /\ nof_wraparounds h' = nof_wraparounds h.
Proof.
  intros E h h' desired Hrun. unfold try_to_enlarge_buffer in Hrun.
  cbv zeta in Hrun.
  destruct (realloc_succeeds E _); [|now simplify_eq].
  unfold store in Hrun. destruct (_ && _); now simplify_eq.
Qed.

Lemma store_data_wrapped_keeps_front_background :
  forall (E : environment) (fuel : nat) (h h' : OUTPUTHISTORY)
         (data : list Z) (data_offset len : Z),
    store_data_wrapped E fuel h data data_offset len = Returns h' ->
    front_background h' = front_background h.
Proof.
  intros E fuel. induction fuel as [|fuel IH];
    intros h h' data data_offset len Hrun;
    cbn [store_data_wrapped] in Hrun.
  - destruct (0 <? len); now simplify_eq.
  - destruct (0 <? len); [|now simplify_eq].
    unfold mbind at 1, outcome_bind in Hrun. cbv zeta in Hrun.
    destruct (process_buffer_back E h _) as [h1| | |] eqn:H1;
      try discriminate.
    apply process_buffer_back_keeps_front_background in H1.
    unfold mbind, outcome_bind in Hrun.
    destruct (z_ucs_ncpy _ h1 _ data data_offset) as [h2| | |] eqn:H2;
      try discriminate.
    apply z_ucs_ncpy_keeps_front_background in H2.
    apply IH in Hrun. rewrite Hrun.
    destruct (_ =? _); cbn; congruence.
Qed.

Lemma store_data_keeps_front_background :
  forall (E : environment) (h h' : OUTPUTHISTORY) (data : list Z) (len : Z),
    store_data E h data len = Returns h' ->
    front_background h' = front_background h.
Proof.
  intros E h h' data len Hrun. unfold store_data in Hrun.
  destruct (z_history_maximum_buffer_size h <=? len).
  - unfold mbind, outcome_bind in Hrun.
    destruct (process_buffer_back E h _) as [h1| | |] eqn:H1;
      try discriminate.
    apply process_buffer_back_keeps_front_background in H1.
    destruct (if _ <? _ then _ else _) as [h1'| | |] eqn:H1';
      try discriminate.
    assert (Hgrown : front_background h1' = front_background h1).
    { destruct (_ <? _); [|now simplify_eq].
      now apply try_to_enlarge_buffer_keeps_front_background in H1'. }
    destruct (memcpy _ 0 data _) as [h2| | |] eqn:H2;
      try discriminate.
    apply memcpy_same_frame in H2. destruct H2 as (_&_&_&_&_&_&H2).
    simplify_eq. cbn. congruence.
  - unfold mbind at 1, outcome_bind in Hrun.
    match type of Hrun with
    | match ?grow with _ => _ end = _ =>
        destruct grow as [h1| | |] eqn:H1; try discriminate
    end.
    assert (Hgrown : front_background h1 = front_background h).
    { destruct (_ <? len); [|now simplify_eq].
      destruct (_ =? 0); [discriminate|].
      match type of H1 with
      | (if ?c then _ else _) = _ => destruct c; [|now simplify_eq]
      end.
      now apply try_to_enlarge_buffer_keeps_front_background in H1. }
    rewrite <- Hgrown. clear H1 Hgrown.
    destruct (if z_history_buffer_size h1 <? len
              then (len - z_history_buffer_size h1, z_history_buffer_size h1)
              else (0, len)) as [data_offset len'].
    destruct (nof_wraparounds h1 =? 0);
      [|now apply store_data_wrapped_keeps_front_background in Hrun].
    unfold mbind, outcome_bind in Hrun. cbv zeta in Hrun.
    match type of Hrun with
    | match ?write with _ => _ end = _ =>
        destruct write as [h2| | |] eqn:H2; try discriminate
    end.
    assert (Hwritten : front_background h2 = front_background h1).
    { destruct (0 <? _); [|now simplify_eq].
      destruct (z_ucs_ncpy _ h1 _ data data_offset) as [h3| | |] eqn:H3;
        try discriminate.
      apply z_ucs_ncpy_keeps_front_background in H3. simplify_eq.
      cbn. exact H3. }
    rewrite <- Hwritten. clear H2 Hwritten.
    destruct (_ =? len'); [now simplify_eq|].
    apply store_data_wrapped_keeps_front_background in Hrun.
    rewrite Hrun. reflexivity.
Qed.

(** Whatever record [store_metadata_in_history] stores, the background
    of the front state is afterwards what it was before. *)
Lemma store_metadata_keeps_front_background :
  forall (E : environment) (h h' : OUTPUTHISTORY) (metadata_type : Z)
         (ap : list Z) (result : Z),
    store_metadata_in_history E h metadata_type ap = Returns (result, h') ->
    front_background h' = front_background h.
Proof.
  intros E h h' metadata_type ap result Hrun.
  unfold store_metadata_in_history in Hrun.
  unfold mbind, outcome_bind, va_arg, i18n_translate_and_exit in Hrun.
  cbv zeta in Hrun.
  repeat case_match; simplify_eq;
    try reflexivity;
    match goal with
    | H : store_data _ _ _ _ = Returns _ |- _ =>
        apply store_data_keeps_front_background in H; rewrite H
    end;
    reflexivity.
Qed.


(** However long the data, the branch for data of at least the maximum
    size leaves the front at the start of the buffer, the back at its
    end, and the number of wrap-arounds as it was. *)
Lemma store_data_large_input_geometry :
  forall (E : environment) (h h' : OUTPUTHISTORY) (data : list Z) (len : Z),
    z_history_maximum_buffer_size h <= len ->
    store_data E h data len = Returns h' ->
    z_history_buffer_front_index h' = 0
    /\ z_history_buffer_back_index h' = z_history_buffer_end h'
    /\ nof_wraparounds h' = nof_wraparounds h.
Proof.
  intros E h h' data len Hlen Hrun. unfold store_data in Hrun.
  destruct (Z.leb_spec (z_history_maximum_buffer_size h) len); [|lia].
  unfold mbind, outcome_bind in Hrun.
  destruct (process_buffer_back E h _) as [h1| | |] eqn:H1; try discriminate.
  apply process_buffer_back_same_frame in H1.
  destruct (if _ <? _ then _ else _) as [h1'| | |] eqn:H1';
    try discriminate.
  assert (Hgrown : nof_wraparounds h1' = nof_wraparounds h1).
  { destruct (_ <? _); [|now simplify_eq].
    now apply try_to_enlarge_buffer_keeps_front_background in H1'. }
  destruct (memcpy _ 0 data _) as [h2| | |] eqn:H2; try discriminate.
  apply memcpy_same_frame in H2. simplify_eq. cbn.
  repeat split.
  destruct H2 as (_ & _ & _ & _ & _ & -> & _).
  destruct H1 as (_ & _ & _ & _ & _ & <- & _).
  exact Hgrown.
Qed.
(** ** Validation of the iterator (C9, C10) *)

Lemma init_history_output_captures :
  forall (E : environment) (uninitialised : history_output)
         (h0 : OUTPUTHISTORY) (flags : Z) (output : history_output),
    init_history_output E uninitialised h0 flags = Some output ->
    captured h0 output
    /\ validation_disabled output
       = negb (Z.land flags (Z_HISTORY_OUTPUT_WITHOUT_VALIDATION E) =? 0).
Proof.
  intros E u h0 flags output. unfold init_history_output, captured.
  destruct (z_history_buffer_size h0 =? 0); [discriminate|].
  destruct (Z.land flags (Z_HISTORY_OUTPUT_FROM_BUFFERBACK E) =? 0).
  - destruct (decrement_buffer_pointer h0 _ 0) as [[index wraps]|];
      [|discriminate].
    intros [= <-]. simpl. auto.
  - intros [= <-]. simpl. auto.
Qed.

Lemma validate_outputhistory_moved :
  forall (h : OUTPUTHISTORY) (output : history_output),
    moved_since_capture h output ->
    validate_outputhistory h output = Exits.
Proof.
  intros h output Hmoved. unfold validate_outputhistory.
  destruct (Z.eqb_spec (nof_wraparounds h) (validity_wraparounds output));
    [|reflexivity].
  destruct (Z.eqb_spec (validity_frontindex output)
              (z_history_buffer_front_index h)); [|reflexivity].
  destruct Hmoved; congruence.
Qed.


Lemma validate_unless_disabled_skips :
  forall (h : OUTPUTHISTORY) (output : history_output),
    validation_disabled output = true ->
    validate_unless_disabled h output = Returns tt.
Proof.
  intros h output Hdisabled. unfold validate_unless_disabled.
  rewrite Hdisabled. reflexivity.
Qed.

(** *** Operations that cannot exit *)

Lemma bind_not_exits :
  forall (A B : Type) (m : outcome A) (f : A -> outcome B),
    m <> Exits -> (forall a, f a <> Exits) -> m ≫= f <> Exits.
Proof. intros A B [a| | |] f Hm Hf; simpl; auto; discriminate. Qed.

Lemma bind_exits :
  forall (A B : Type) (m : outcome A) (f : A -> outcome B),
    m ≫= f = Exits -> m = Exits \/ exists a, m = Returns a /\ f a = Exits.
Proof. intros A B [a| | |] f H; simpl in H; eauto; discriminate. Qed.

Lemma load_not_exits :
  forall (h : OUTPUTHISTORY) (p : Z), load h p <> Exits.
Proof.
  intros h p. unfold load. destruct (0 <=? p); [|discriminate].
  destruct (z_history_buffer_start h !! Z.to_nat p); discriminate.
Qed.

Lemma load_at_not_exits :
  forall (h : OUTPUTHISTORY) (p : option Z), load_at h p <> Exits.
Proof. intros h [p|]; simpl; [apply load_not_exits | discriminate]. Qed.

Lemma store_not_exits :
  forall (h : OUTPUTHISTORY) (p c : Z), store h p c <> Exits.
Proof. intros h p c. unfold store. destruct (_ && _); discriminate. Qed.

Ltac no_exits :=
  repeat first
    [ progress intros
    | apply load_not_exits
    | apply load_at_not_exits
    | apply store_not_exits
    | apply bind_not_exits
    | match goal with
      | |- Returns _ <> Exits => discriminate
      | |- Undefined <> Exits => discriminate
      | |- Diverges <> Exits => discriminate
      | |- (if ?b then _ else _) <> Exits => destruct b
      | |- (let '(_, _) := ?x in _) <> Exits => destruct x
      | |- match ?x with _ => _ end <> Exits => destruct x
      end ].

Lemma evaluate_metadata_search_not_exits :
  forall (E : environment) (fuel : nat) (h : OUTPUTHISTORY)
         (output : history_output) (index wraps : Z) (i2 i3 : option Z),
    evaluate_metadata_search E fuel h output index wraps i2 i3 <> Exits.
Proof.
  intros E fuel. induction fuel as [|fuel IH]; intros; simpl.
  - destruct (metadata_unresolved output); discriminate.
  - no_exits; apply IH.
Qed.

Lemma evaluate_metadata_for_paragraph_not_exits :
  forall (E : environment) (h : OUTPUTHISTORY) (output : history_output),
    validation_disabled output = true ->
    evaluate_metadata_for_paragraph E h output <> Exits.
Proof.
  intros E h output Hdisabled. unfold evaluate_metadata_for_paragraph.
  rewrite (validate_unless_disabled_skips h output Hdisabled). simpl.
  no_exits. apply evaluate_metadata_search_not_exits.
Qed.

Lemma rewind_to_newline_not_exits :
  forall (E : environment) (fuel : nat) (h : OUTPUTHISTORY) (index wraps : Z)
         (last_index last_index2 : option Z) (nof_chars : Z)
         (refs : rewind_references),
    rewind_to_newline E fuel h index wraps last_index last_index2 nof_chars
      refs <> Exits.
Proof.
  intros E fuel. induction fuel as [|fuel IH]; intros; simpl.
  - discriminate.
  - no_exits; apply IH.
Qed.

Lemma rewind_first_part_not_exits :
  forall (h : OUTPUTHISTORY) (output : history_output)
         (refs : rewind_references),
    rewind_first_part h output refs <> Exits.
Proof. intros. unfold rewind_first_part. no_exits. Qed.

Lemma rewind_first_part_keeps_validation :
  forall (h : OUTPUTHISTORY) (output output' : history_output)
         (refs : rewind_references) (index wraps : Z),
    rewind_first_part h output refs
    = Returns (rewind_from output' index wraps) ->
    validation_disabled output' = validation_disabled output.
Proof.
  intros h output output' refs index wraps Hstart.
  unfold rewind_first_part, mbind, outcome_bind in Hstart.
  repeat case_match; simplify_eq; reflexivity.
Qed.

Lemma output_rewind_paragraph_not_exits :
  forall (E : environment) (h : OUTPUTHISTORY) (output : history_output)
         (refs : rewind_references),
    validation_disabled output = true ->
    output_rewind_paragraph E h output refs <> Exits.
Proof.
  intros E h output refs Hdisabled. unfold output_rewind_paragraph.
  rewrite (validate_unless_disabled_skips h output Hdisabled). simpl.
  destruct (z_history_buffer_size h =? 0); [discriminate|].
  destruct (found_end_of_buffer output); [discriminate|].
  destruct (rewind_first_part h output refs) as [start| | |] eqn:Hstart;
    simpl; try discriminate.
  - destruct start as [result output' refs'|output' index wraps];
      [discriminate|].
    apply rewind_first_part_keeps_validation in Hstart.
    apply bind_not_exits; [apply rewind_to_newline_not_exits|].
    intros [[[[last_index last_wraps] nof_chars]|] refs']; [|discriminate].
    apply bind_not_exits; [|discriminate].
    apply evaluate_metadata_for_paragraph_not_exits.
    simpl. congruence.
  - now apply rewind_first_part_not_exits in Hstart.
Qed.

(** [repeat_metadata] exits on a record of unknown type only. *)
Lemma repeat_metadata_exits :
  forall (E : environment) (h : OUTPUTHISTORY) (output : history_output)
         (output_ptr : Z) (include_metadata : bool),
    repeat_metadata E h output output_ptr include_metadata = Exits ->
    exists p t, load h p = Returns t
                /\ known_metadata_type E (to_int t) = false.
Proof.
  intros E h output output_ptr include_metadata Hexit.
  unfold repeat_metadata, mbind, outcome_bind in Hexit. cbv zeta in Hexit.
  destruct (load h (increment h output_ptr)) as [t| | |] eqn:Ht;
    try discriminate; [|now apply load_not_exits in Ht].
  exists (increment h output_ptr), t. split; [exact Ht|].
  unfold known_metadata_type.
  repeat case_match; simplify_eq;
    solve [reflexivity
          | exfalso; eapply load_not_exits; eassumption ].
Qed.

Lemma repeat_paragraphs_loop_exits :
  forall (E : environment) (fuel : nat) (h : OUTPUTHISTORY)
         (output : history_output) (n output_ptr : Z) (output_buf : list Z)
         (metadata_type : Z) (include_metadata : bool),
    repeat_paragraphs_loop E fuel h output n output_ptr output_buf
      metadata_type include_metadata = Exits ->
    exists p t, load h p = Returns t
                /\ known_metadata_type E (to_int t) = false.
Proof.
  intros E fuel. induction fuel as [|fuel IH];
    intros until include_metadata; intros Hexit; simpl in Hexit.
  - destruct (0 <? n); discriminate.
  - unfold mbind, outcome_bind in Hexit. cbv zeta in Hexit.
    repeat case_match; simplify_eq;
      eauto using repeat_metadata_exits;
      exfalso; eapply load_not_exits; eassumption.
Qed.

Lemma output_repeat_paragraphs_exits :
  forall (E : environment) (h : OUTPUTHISTORY) (output : history_output)
         (n : Z) (include_metadata advance : bool),
    validation_disabled output = true ->
    output_repeat_paragraphs E h output n include_metadata advance = Exits ->
    exists p t, load h p = Returns t
                /\ known_metadata_type E (to_int t) = false.
Proof.
  intros E h output n include_metadata advance Hdisabled.
  unfold output_repeat_paragraphs.
  rewrite (validate_unless_disabled_skips h output Hdisabled). simpl.
  intros Hexit. apply bind_exits in Hexit as [Hexit|(output1 & _ & Hexit)].
  { destruct include_metadata; [|discriminate].
    now apply evaluate_metadata_for_paragraph_not_exits in Hexit. }
  apply bind_exits in Hexit as [Hexit|([[output2 n2] ptr2] & _ & Hexit)].
  { destruct (_ =? _); [discriminate|].
    exact (repeat_paragraphs_loop_exits _ _ _ _ _ _ _ _ _ Hexit). }
  exfalso. unfold mbind, outcome_bind in Hexit.
  repeat case_match; simplify_eq; eapply load_not_exits; eassumption.
Qed.

(** C10.  An iterator made with the flag that turns validation off meets
    a store that has moved since: [alter_last_paragraph_attributes] exits,
    for it validates whatever the flag says.  The other operations skip
    the validation: remember, restore and at-front return, rewind and the
    evaluation of the state cannot exit, and repeat exits only where it
    reads a metadata record of unknown type. *)
Theorem alter_validates_without_asking :
  forall (E : environment) (h : OUTPUTHISTORY) (output : history_output),
    validation_disabled output = true ->
    moved_since_capture h output ->
    (forall a1 a2, alter_last_paragraph_attributes h output a1 a2 = Exits)
    /\ (exists remembered,
          remember_history_output_position h output = Returns remembered)
    /\ (exists restored,
          restore_history_output_position h output = Returns restored)
    /\ is_output_at_frontindex h output
       = Returns (current_paragraph_index output
                  =? z_history_buffer_front_index h)
    /\ (forall refs, output_rewind_paragraph E h output refs <> Exits)
    /\ evaluate_metadata_for_paragraph E h output <> Exits
    /\ (forall n include_metadata advance,
          output_repeat_paragraphs E h output n include_metadata advance
          = Exits ->
          exists p t, load h p = Returns t
                      /\ known_metadata_type E (to_int t) = false).
Proof.
  intros E h output Hdisabled Hmoved.
  pose proof (validate_unless_disabled_skips h output Hdisabled) as Hskip.
  repeat split; intros.
  - unfold alter_last_paragraph_attributes.
    rewrite (validate_outputhistory_moved h output Hmoved). reflexivity.
  - unfold remember_history_output_position. rewrite Hskip. simpl. eauto.
  - unfold restore_history_output_position. rewrite Hskip. simpl. eauto.
  - unfold is_output_at_frontindex. rewrite Hskip. reflexivity.
  - now apply output_rewind_paragraph_not_exits.
  - now apply evaluate_metadata_for_paragraph_not_exits.
  - eapply output_repeat_paragraphs_exits; eauto.
Qed.

(** ** Repeating paragraphs (C7) *)




Lemma newlines_app :
  forall a b : list Z, newlines (a ++ b) = newlines a + newlines b.
Proof.
  intros a b. induction a as [|c a IH]; cbn [newlines app]; [reflexivity|].
  rewrite IH. lia.
Qed.











(** ** Removing characters (C6) *)

(** C6.  The code counts one character too many for each record that
    it crosses.  On "xxxxxab", a font record of three units and "cd",
    [remove_chars(5)] returns 0 and moves the front from 12 back to 3:
    nine cells, the three of the record and six characters, where the
    claim has five characters removed and the record not counted, which
    is eight cells; "xxx" is left.  Five more units of text bring the
    front to 8, not to 12, and the font record is no longer before the
    front. *)
Lemma remove_chars_across_record :
  (h ← font_between_texts;
   r ← remove_chars_from_history fizmo_environment h 5;
   h' ← store_z_ucs_output_in_history fizmo_environment r.2
          (z_ucs_string (text "12345"));
   Returns (units_between h 0 (z_history_buffer_front_index h),
            r.1,
            units_between r.2 0 (z_history_buffer_front_index r.2),
            z_history_buffer_front_index h
            - z_history_buffer_front_index r.2,
            z_history_buffer_front_index h',
            z_history_buffer_front_index h))
  = Returns (text "xxxxxab" ++ [0; 1; 14] ++ text "cd", 0, text "xxx",
             9, 8, 12).
Proof. vm_compute. reflexivity. Qed.

Lemma decrement_buffer_pointer_inside :
  forall (h : OUTPUTHISTORY) (ptr wraps : Z),
    0 < ptr ->
    (ptr = z_history_buffer_front_index h ->
     wraps <= 0
     \/ z_history_buffer_front_index h <> z_history_buffer_back_index h) ->
    decrement_buffer_pointer h ptr wraps = Some (ptr - 1, wraps).
Proof.
  intros h ptr wraps Hptr Hfirst. unfold decrement_buffer_pointer.
  destruct (Z.eqb_spec ptr (z_history_buffer_back_index h)) as [Hb|];
    destruct (Z.eqb_spec ptr (z_history_buffer_front_index h)) as [Hf|];
    destruct (Z.ltb_spec 0 wraps); simpl;
    try (destruct (Hfirst Hf); [lia | congruence]);
    destruct (Z.ltb_spec (ptr - 1) 0); try lia; reflexivity.
Qed.

Lemma remove_chars_walk_plain_text :
  forall (E : environment) (h : OUTPUTHISTORY) (k fuel : nat)
         (ptr wraps last_data : Z),
    (k <= fuel)%nat ->
    Z.of_nat k <= ptr <= z_history_buffer_front_index h ->
    (ptr = z_history_buffer_front_index h ->
     wraps <= 0
     \/ z_history_buffer_front_index h <> z_history_buffer_back_index h) ->
    (forall i : Z,
        ptr - Z.of_nat k <= i < ptr ->
        exists c : Z, load h i = Returns c /\ c <> HISTORY_METADATA_ESCAPE) ->
    remove_chars_walk E fuel h ptr wraps last_data (Z.of_nat k)
    = Returns (Some (ptr - Z.of_nat k, wraps)).
Proof.
  intros E h k. induction k as [|k IH];
    intros fuel ptr wraps last_data Hfuel Hptr Hfirst Htext.
  - replace (ptr - Z.of_nat 0) with ptr by lia. destruct fuel; reflexivity.
  - destruct fuel as [|fuel]; [lia|].
    cbn [remove_chars_walk].
    destruct (Z.ltb_spec 0 (Z.of_nat (S k))); [|lia].
    rewrite decrement_buffer_pointer_inside by (auto; lia).
    destruct (Htext (ptr - 1)) as (c & Hload & Hc); [lia|].
    rewrite Hload. cbn [mbind outcome_bind].
    destruct (Z.eqb_spec c HISTORY_METADATA_ESCAPE); [contradiction|].
    cbn [andb].
    replace (Z.of_nat (S k) - 1) with (Z.of_nat k) by lia.
    rewrite IH.
    + replace (ptr - 1 - Z.of_nat k) with (ptr - Z.of_nat (S k)) by lia.
      reflexivity.
    + lia.
    + lia.
    + intros; lia.
    + intros i Hi. apply Htext. lia.
Qed.

(** Walking back over a whole record adds one to the count: each of the
    [width - 1] units behind the escape takes one off, and the escape
    puts [width] on. *)
Lemma remove_chars_walk_over_record :
  forall (E : environment) (h : OUTPUTHISTORY) (fuel : nat)
         (p t last_data n : Z),
    record_at E h p t ->
    nof_wraparounds h = 0 ->
    record_width E t <= n ->
    remove_chars_walk E (Z.to_nat (record_width E t) + fuel) h
      (p + record_width E t) (nof_wraparounds h) last_data n
    = remove_chars_walk E fuel h p (nof_wraparounds h) t (n + 1).
Proof.
  intros E h fuel p t last_data n (Hp & Hesc & Ht & Hnz & Hparams)
         Hfirst Hn.
  assert (Hstep :
    forall fuel ptr last c count,
      p < ptr <= p + record_width E t -> 0 < count ->
      load h (ptr - 1) = Returns c ->
      remove_chars_walk E (S fuel) h ptr (nof_wraparounds h) last count
      = if (c =? HISTORY_METADATA_ESCAPE) && negb (last =? 0)
        then remove_chars_walk E fuel h (ptr - 1) (nof_wraparounds h) last
               (count + record_width E last)
        else remove_chars_walk E fuel h (ptr - 1) (nof_wraparounds h) c
               (count - 1)).
  { intros fuel' ptr last c count Hptr Hcount Hload.
    cbn [remove_chars_walk].
    destruct (Z.ltb_spec 0 count); [|lia].
    rewrite decrement_buffer_pointer_inside; [| lia |].
    - rewrite Hload. reflexivity.
    - intros _. left. lia. }
  assert (Hparam :
    forall i, p + 2 <= i < p + record_width E t ->
              exists c, load h i = Returns c /\ (c =? 0) = false).
  { intros i Hi. destruct (Hparams i Hi) as (c & Hc & Hne).
    exists c. split; [exact Hc|]. now apply Z.eqb_neq. }
  assert (Htype : (t =? 0) = false) by now apply Z.eqb_neq.
  unfold record_width in *.
  destruct ((t =? HISTORY_METADATA_TYPE_COLOUR E)
            || (t =? HISTORY_METADATA_TYPE_PARAGRAPHATTRIBUTE E)) eqn:Hwide.
  - destruct (Hparam (p + 3)) as (c3 & Hc3 & Hz3); [lia|].
    destruct (Hparam (p + 2)) as (c2 & Hc2 & Hz2); [lia|].
    change (Z.to_nat 4 + fuel)%nat with (S (S (S (S fuel)))).
    rewrite (Hstep _ _ _ c3) by (rewrite ?Hwide; first [lia | now replace (p + 4 - 1) with (p + 3) by lia]).
    unfold HISTORY_METADATA_ESCAPE at 1. rewrite Hz3. cbn [andb].
    replace (p + 4 - 1) with (p + 3) by lia.
    rewrite (Hstep _ _ _ c2) by (rewrite ?Hwide; first [lia | now replace (p + 3 - 1) with (p + 2) by lia]).
    unfold HISTORY_METADATA_ESCAPE at 1. rewrite Hz2. cbn [andb].
    replace (p + 3 - 1) with (p + 2) by lia.
    rewrite (Hstep _ _ _ t) by (rewrite ?Hwide; first [lia | now replace (p + 2 - 1) with (p + 1) by lia]).
    unfold HISTORY_METADATA_ESCAPE at 1. rewrite Htype. cbn [andb].
    replace (p + 2 - 1) with (p + 1) by lia.
    rewrite (Hstep _ _ _ HISTORY_METADATA_ESCAPE)
      by (rewrite ?Hwide; first [lia | now replace (p + 1 - 1) with p by lia]).
    rewrite Z.eqb_refl, Htype. cbn [andb negb]. rewrite Hwide.
    replace (p + 1 - 1) with p by lia.
    f_equal. lia.
  - destruct (Hparam (p + 2)) as (c2 & Hc2 & Hz2); [lia|].
    change (Z.to_nat 3 + fuel)%nat with (S (S (S fuel))).
    rewrite (Hstep _ _ _ c2) by (rewrite ?Hwide; first [lia | now replace (p + 3 - 1) with (p + 2) by lia]).
    unfold HISTORY_METADATA_ESCAPE at 1. rewrite Hz2. cbn [andb].
    replace (p + 3 - 1) with (p + 2) by lia.
    rewrite (Hstep _ _ _ t) by (rewrite ?Hwide; first [lia | now replace (p + 2 - 1) with (p + 1) by lia]).
    unfold HISTORY_METADATA_ESCAPE at 1. rewrite Htype. cbn [andb].
    replace (p + 2 - 1) with (p + 1) by lia.
    rewrite (Hstep _ _ _ HISTORY_METADATA_ESCAPE)
      by (rewrite ?Hwide; first [lia | now replace (p + 1 - 1) with p by lia]).
    rewrite Z.eqb_refl, Htype. cbn [andb negb]. rewrite Hwide.
    replace (p + 1 - 1) with p by lia.
    f_equal. lia.
Qed.

Lemma z_ucs_len_of_text :
  forall units : list Z,
    Forall (fun c => c <> 0) units ->
    z_ucs_len (units ++ [0]) = Returns (Z.of_nat (length units)).
Proof.
  intros units Hunits. induction Hunits as [|c units Hc _ IH]; [reflexivity|].
  cbn [app z_ucs_len length].
  destruct (Z.eqb_spec c 0); [contradiction|].
  rewrite IH. cbn [mbind outcome_bind]. f_equal. lia.
Qed.

Lemma z_ucs_ncpy_within :
  forall (k : nat) (h : OUTPUTHISTORY) (dst : Z) (data : list Z) (src : Z),
    0 <= dst ->
    dst + Z.of_nat k <= Z.of_nat (length (z_history_buffer_start h)) ->
    0 <= src ->
    src + Z.of_nat k <= Z.of_nat (length data) ->
    exists block : list Z,
      z_ucs_ncpy k h dst data src
      = Returns (set_z_history_buffer_start block h)
      /\ length block = length (z_history_buffer_start h).
Proof.
  intros k. induction k as [|k IH]; intros h dst data src Hdst Hroom Hsrc Hdata.
  - exists (z_history_buffer_start h). split; [|reflexivity].
    destruct h; reflexivity.
  - cbn [z_ucs_ncpy]. unfold load_data.
    destruct (Z.leb_spec 0 src); [|lia].
    destruct (data !! Z.to_nat src) as [c|] eqn:Hc.
    2: { apply lookup_ge_None in Hc. lia. }
    cbn [mbind outcome_bind]. unfold store.
    destruct (Z.leb_spec 0 dst); [|lia].
    destruct (Z.ltb_spec dst (Z.of_nat (length (z_history_buffer_start h))));
      [|lia].
    cbn [andb mbind outcome_bind].
    destruct (IH (set_z_history_buffer_start
                    (<[Z.to_nat dst:=c]> (z_history_buffer_start h)) h)
                (dst + 1) data (src + 1)) as (block & Hcopy & Hlength).
    + lia.
    + cbn [set_z_history_buffer_start z_history_buffer_start].
      rewrite length_insert. lia.
    + lia.
    + lia.
    + exists block. split; [exact Hcopy|].
      rewrite Hlength. cbn [set_z_history_buffer_start z_history_buffer_start].
      apply length_insert.
Qed.

(** On a store that has not wrapped, text that fits between the front
    and the end of the buffer moves the front by its length. *)
Lemma store_text_within_buffer :
  forall (E : environment) (h : OUTPUTHISTORY) (units : list Z),
    linear_store h ->
    Forall (fun c => c <> 0) units ->
    0 < Z.of_nat (length units) < z_history_maximum_buffer_size h ->
    z_history_buffer_front_index h + Z.of_nat (length units)
    <= z_history_buffer_size h ->
    front_in_last_state_block E
      (set_z_history_buffer_front_index
         (z_history_buffer_front_index h + Z.of_nat (length units)) h) ->
    exists h' : OUTPUTHISTORY,
      store_z_ucs_output_in_history E h (z_ucs_string units) = Returns h'
      /\ z_history_buffer_front_index h'
         = z_history_buffer_front_index h + Z.of_nat (length units)
      /\ nof_wraparounds h' = 0.
Proof.
  intros E h units (Hsize & Hmax & Hend & Hblock & Hwraps & Hfront)
         Hunits Hlen Hfits (Hb & Hlast).
  set (n := Z.of_nat (length units)) in *.
  unfold z_ucs_string, store_z_ucs_output_in_history.
  rewrite (z_ucs_len_of_text units Hunits). fold n.
  cbn [mbind outcome_bind].
  destruct (Z.eqb_spec n 0); [lia|].
  unfold store_data_in_history, store_data.
  destruct (Z.leb_spec (z_history_maximum_buffer_size h) n); [lia|].
  assert (Havailable :
            to_size_t (z_history_buffer_end h
                       - z_history_buffer_front_index h + 1)
            = z_history_buffer_size h - z_history_buffer_front_index h).
  { unfold to_size_t. rewrite Hend.
    replace (z_history_buffer_size h - 1 - z_history_buffer_front_index h + 1)
      with (z_history_buffer_size h - z_history_buffer_front_index h) by lia.
    apply Z.mod_small. lia. }
  unfold get_buffer_space_available.
  destruct (Z.eqb_spec (z_history_buffer_size h) 0); [lia|].
  rewrite Hwraps. cbn [Z.eqb]. rewrite Havailable.
  destruct (Z.ltb_spec
              (z_history_buffer_size h - z_history_buffer_front_index h) n);
    [lia|].
  cbn [mbind outcome_bind].
  destruct (Z.ltb_spec (z_history_buffer_size h) n); [lia|].
  rewrite Hwraps. cbn [Z.eqb]. rewrite Havailable.
  assert (Hwrite :
            (if n <? z_history_buffer_size h - z_history_buffer_front_index h
             then n
             else z_history_buffer_size h - z_history_buffer_front_index h)
            = n) by (destruct (Z.ltb_spec n (z_history_buffer_size h
                       - z_history_buffer_front_index h)); lia).
  rewrite Hwrite.
  destruct (Z.ltb_spec 0 n); [|lia].
  destruct (z_ucs_ncpy_within (Z.to_nat n) h
              (z_history_buffer_front_index h) (units ++ [0]) 0)
    as (block & Hcopy & _).
  { lia. } { lia. } { lia. } { rewrite length_app. cbn [length]. lia. }
  rewrite Hcopy. cbn [mbind outcome_bind]. rewrite Z.eqb_refl.
  unfold write_metadata_state_block_if_necessary.
  destruct (Z.eqb_spec (Z_HISTORY_METADATA_STATE_BLOCK_SIZE E) 0);
    [contradiction|].
  cbn [mbind outcome_bind].
  cbn [set_z_history_buffer_front_index set_z_history_buffer_start
       z_history_buffer_front_index last_metadata_block_index] in *.
  rewrite Hlast, Z.eqb_refl. cbn [negb mbind outcome_bind].
  eexists. split; [reflexivity|]. cbn. auto.
Qed.

(** The walk of [remove_chars_from_history], on a store whose front is
    not a full, wrapped buffer's back, and within the loop budget:
    - when the [n] units before the front are text and the front is at
      least [n] cells from the start, [remove_chars(n)] returns 0 and
      moves the front back by [n] cells, changing nothing else; and on a
      store that has not wrapped, [n] units of text stored again bring
      the front back to where it was;
    - when the walk crosses a record, it has taken one off the count for
      each unit behind the escape, and at the escape it puts the width of
      the record (3 or 4) on: after the record the count is one more than
      before it, so that the front goes on past the record, which is
      lost, and one cell further for each record crossed, where the count
      of [output_rewind_paragraph] over the same record comes out
      even. *)
Theorem remove_chars_exact_on_text :
  forall (E : environment) (h : OUTPUTHISTORY) (n : Z),
    0 <= n <= z_history_buffer_front_index h ->
    nof_wraparounds h <= 0
    \/ z_history_buffer_front_index h <> z_history_buffer_back_index h ->
    plain_text_before_front h n ->
    (Z.to_nat n <= loop_budget E)%nat ->
    (exists h' : OUTPUTHISTORY,
        remove_chars_from_history E h n = Returns (0, h')
        /\ h' = set_nof_wraparounds (nof_wraparounds h)
                  (set_z_history_buffer_front_index
                     (z_history_buffer_front_index h - n) h)
        /\ z_history_buffer_front_index h - z_history_buffer_front_index h'
           = n
        /\ (forall units : list Z,
              linear_store h ->
              front_in_last_state_block E h ->
              0 < n < z_history_maximum_buffer_size h ->
              Z.of_nat (length units) = n ->
              Forall (fun c => c <> 0) units ->
              exists h'' : OUTPUTHISTORY,
                store_z_ucs_output_in_history E h' (z_ucs_string units)
                = Returns h''
                /\ z_history_buffer_front_index h''
                   = z_history_buffer_front_index h))
    /\ (forall (fuel : nat) (p t last_data count : Z),
          record_at E h p t ->
          nof_wraparounds h = 0 ->
          record_width E t <= count ->
          remove_chars_walk E (Z.to_nat (record_width E t) + fuel) h
            (p + record_width E t) (nof_wraparounds h) last_data count
          = remove_chars_walk E fuel h p (nof_wraparounds h) t (count + 1)).
Proof.
  intros E h n Hn Hfirst Htext Hbudget. split.
  - eexists. split; [|split; [reflexivity|split]].
    + unfold remove_chars_from_history.
      pose proof (remove_chars_walk_plain_text E h (Z.to_nat n)
                    (loop_budget E) (z_history_buffer_front_index h)
                    (nof_wraparounds h) 0 Hbudget) as Hwalk.
      rewrite Z2Nat.id in Hwalk by lia.
      rewrite Hwalk; [reflexivity | lia | intros _; exact Hfirst | exact Htext].
    + cbn. lia.
    + intros units (Hsize & Hmax & Hend & Hblock & Hwraps & Hfront)
             (Hb & Hlast) Hn' Hlength Hunits.
      destruct (store_text_within_buffer E
                  (set_nof_wraparounds (nof_wraparounds h)
                     (set_z_history_buffer_front_index
                        (z_history_buffer_front_index h - n) h)) units)
        as (h'' & Hstore & Hfront'' & _).
      * unfold linear_store. cbn. repeat split; lia.
      * exact Hunits.
      * cbn. lia.
      * cbn. lia.
      * split; [exact Hb|]. cbn. rewrite Hlength.
        replace (z_history_buffer_front_index h - n + n)
          with (z_history_buffer_front_index h) by lia.
        exact Hlast.
      * exists h''. split; [exact Hstore|].
        rewrite Hfront''. cbn. lia.
  - intros fuel p t last_data count Hrecord Hwraps Hcount.
    now apply remove_chars_walk_over_record.
Qed.

(** ** The theorems at work *)

Lemma hello_written_reached :
  hello_store 0 9 2 1 0 = Returns hello_written
  /\ store_z_ucs_output_in_history fizmo_environment hello_written
       (z_ucs_string (text "x")) = Returns hello_x_written
  /\ init_history_output fizmo_environment zeroed_output hello_written 0
     = Some iterator_A
  /\ init_history_output fizmo_environment zeroed_output hello_written
       (Z_HISTORY_OUTPUT_WITHOUT_VALIDATION fizmo_environment)
     = Some iterator_B.
Proof. repeat split; vm_compute; reflexivity. Qed.

(** Scenario 5, second half: iterator B, made without validation, does
    not exit on rewind; on [alter_last_paragraph_attributes] it does. *)
Lemma alter_validates_without_asking_witness :
  validation_disabled iterator_B = true
  /\ moved_since_capture hello_x_written iterator_B
  /\ alter_last_paragraph_attributes hello_x_written iterator_B 7 8 = Exits
  /\ output_rewind_paragraph fizmo_environment hello_x_written iterator_B
       (references 0 0 0) <> Exits.
Proof.
  assert (Hmoved : moved_since_capture hello_x_written iterator_B)
    by (right; vm_compute; discriminate).
  pose proof (alter_validates_without_asking fizmo_environment
                hello_x_written iterator_B eq_refl Hmoved)
    as (Halter & _ & _ & _ & Hrewind & _).
  split; [reflexivity|]. split; [exact Hmoved|].
  split; [apply Halter | apply Hrewind].
Defined.

(** Three units off the text of scenario 1. *)
Lemma remove_chars_exact_on_text_witness :
  0 <= 3 <= z_history_buffer_front_index hello_written
  /\ nof_wraparounds hello_written <= 0
  /\ plain_text_before_front hello_written 3
  /\ (Z.to_nat 3 <= loop_budget fizmo_environment)%nat
  /\ exists h' : OUTPUTHISTORY,
       remove_chars_from_history fizmo_environment hello_written 3
       = Returns (0, h')
       /\ z_history_buffer_front_index hello_written
          - z_history_buffer_front_index h' = 3.
Proof.
  assert (Hn : 0 <= 3 <= z_history_buffer_front_index hello_written)
    by (vm_compute; split; discriminate).
  assert (Hwraps : nof_wraparounds hello_written <= 0)
    by (vm_compute; discriminate).
  assert (Htext : plain_text_before_front hello_written 3).
  { intros i Hi. change (6 - 3 <= i < 6) in Hi.
    assert (Hcases : i = 3 \/ i = 4 \/ i = 5) by lia.
    destruct Hcases as [-> | [-> | ->]];
      eexists; (split; [vm_compute; reflexivity | discriminate]). }
  assert (Hbudget : (Z.to_nat 3 <= loop_budget fizmo_environment)%nat)
    by (vm_compute; lia).
  split; [exact Hn|]. split; [exact Hwraps|]. split; [exact Htext|].
  split; [exact Hbudget|].
  destruct (remove_chars_exact_on_text fizmo_environment hello_written 3
              Hn (or_introl Hwraps) Htext Hbudget)
    as [(h' & Hrun & _ & Hfront & _) _].
  exists h'. split; assumption.
Defined.

(** * Further properties *)

(** ** The geometry of the buffer *)

Lemma same_geometry_refl : forall h : OUTPUTHISTORY, same_geometry h h.
Proof. intros h. split; [apply same_frame_refl|split; reflexivity]. Qed.

Lemma same_geometry_trans :
  forall h1 h2 h3 : OUTPUTHISTORY,
    same_geometry h1 h2 -> same_geometry h2 h3 -> same_geometry h1 h3.
Proof.
  intros h1 h2 h3 (Hf12 & Hl12 & Hi12) (Hf23 & Hl23 & Hi23).
  split; [eapply same_frame_trans; eassumption|]. split; congruence.
Qed.

Lemma store_same_geometry :
  forall (h h' : OUTPUTHISTORY) (p c : Z),
    store h p c = Returns h' -> same_geometry h h'.
Proof.
  intros h h' p c Hrun. split; [eapply store_same_frame; eassumption|].
  unfold store in Hrun. repeat case_match; simplify_eq. cbn.
  split; [apply length_insert|reflexivity].
Qed.

Lemma z_ucs_ncpy_same_geometry :
  forall (n : nat) (h h' : OUTPUTHISTORY) (dst : Z) (data : list Z) (src : Z),
    z_ucs_ncpy n h dst data src = Returns h' -> same_geometry h h'.
Proof.
  intros n. induction n as [|n IH]; intros h h' dst data src Hrun;
    cbn [z_ucs_ncpy] in Hrun.
  - simplify_eq. apply same_geometry_refl.
  - unfold mbind, outcome_bind in Hrun.
    destruct (load_data data src); try discriminate.
    destruct (store h dst a) as [h1| | |] eqn:Hstore; try discriminate.
    apply IH in Hrun. apply store_same_geometry in Hstore.
    eapply same_geometry_trans; eassumption.
Qed.

Lemma memcpy_same_geometry :
  forall (h h' : OUTPUTHISTORY) (dst : Z) (data : list Z) (n : Z),
    memcpy h dst data n = Returns h' -> same_geometry h h'.
Proof.
  intros h h' dst data n Hrun. unfold memcpy in Hrun.
  unfold mbind, outcome_bind in Hrun. cbv zeta in Hrun.
  destruct (z_ucs_ncpy _ h dst data 0) as [h1| | |] eqn:Hcells;
    try discriminate.
  apply z_ucs_ncpy_same_geometry in Hcells.
  destruct (_ =? 0); [now simplify_eq|].
  destruct (load h1 _); try discriminate.
  destruct (load_data data _); try discriminate.
  apply store_same_geometry in Hrun.
  eapply same_geometry_trans; eassumption.
Qed.

(** [process_buffer_back] reads the block and writes none of its cells. *)
Ltac keeps_block IH :=
  repeat case_match; simplify_eq;
  repeat match goal with
         | H : _ = Returns _ |- _ => apply IH in H
         end;
  cbn in *; intuition congruence.

Lemma process_buffer_back_chars_keeps_block :
  forall (E : environment) (fuel : nat) (h h' : OUTPUTHISTORY)
         (current_index nof_zucs_chars current_index' : Z),
    process_buffer_back_chars E fuel h current_index nof_zucs_chars
    = Returns (h', current_index') ->
    z_history_buffer_start h' = z_history_buffer_start h
    /\ z_history_buffer_increment_size h'
       = z_history_buffer_increment_size h.
Proof.
  intros E fuel. induction fuel as [|fuel IH];
    intros h h' current_index nof_zucs_chars current_index' Hrun;
    cbn [process_buffer_back_chars] in Hrun; [discriminate|].
  unfold mbind, outcome_bind, i18n_translate_and_exit in Hrun.
  cbv zeta in Hrun.
  keeps_block IH.
Qed.

Lemma process_buffer_back_newline_keeps_block :
  forall (E : environment) (fuel : nat) (h h' : OUTPUTHISTORY)
         (current_index current_index' : Z),
    process_buffer_back_newline E fuel h current_index
    = Returns (h', current_index') ->
    z_history_buffer_start h' = z_history_buffer_start h
    /\ z_history_buffer_increment_size h'
       = z_history_buffer_increment_size h.
Proof.
  intros E fuel. induction fuel as [|fuel IH];
    intros h h' current_index current_index' Hrun;
    cbn [process_buffer_back_newline] in Hrun; [discriminate|].
  unfold mbind, outcome_bind in Hrun. cbv zeta in Hrun.
  keeps_block IH.
Qed.

Lemma process_buffer_back_keeps_block :
  forall (E : environment) (h h' : OUTPUTHISTORY) (nof_zucs_chars : Z),
    process_buffer_back E h nof_zucs_chars = Returns h' ->
    z_history_buffer_start h' = z_history_buffer_start h
    /\ z_history_buffer_increment_size h'
       = z_history_buffer_increment_size h.
Proof.
  intros E h h' nof_zucs_chars Hrun. unfold process_buffer_back in Hrun.
  unfold mbind at 1, outcome_bind in Hrun.
  destruct (process_buffer_back_chars E _ h _ _) as [[h1 index1]| | |] eqn:H1;
    try discriminate.
  apply process_buffer_back_chars_keeps_block in H1.
  destruct (_ && _); [|now simplify_eq].
  unfold mbind, outcome_bind in Hrun.
  destruct (process_buffer_back_newline E _ _ index1)
    as [[h2 index2]| | |] eqn:H2; try discriminate.
  apply process_buffer_back_newline_keeps_block in H2.
  simplify_eq. cbn in *. intuition congruence.
Qed.

Lemma process_buffer_back_same_geometry :
  forall (E : environment) (h h' : OUTPUTHISTORY) (nof_zucs_chars : Z),
    process_buffer_back E h nof_zucs_chars = Returns h' ->
    same_geometry h h'.
Proof.
  intros E h h' n Hrun.
  pose proof (process_buffer_back_keeps_block E h h' n Hrun) as (Hb & Hi).
  split; [eapply process_buffer_back_same_frame; eassumption|].
  split; congruence.
Qed.

Lemma well_formed_same_geometry :
  forall h h' : OUTPUTHISTORY,
    well_formed h -> same_geometry h h' -> well_formed h'.
Proof.
  intros h h' (Hshape & Hsize & Hmax & Hfront)
         ((Hs & Hm & He & Hf & _ & _ & _) & Hlength & _).
  unfold well_formed, buffer_shape. rewrite Hs, Hm, He, Hf, Hlength.
  repeat split; try lia.
  destruct Hshape as [(Hzero & Hnil & Hend)|Hshape]; [left|right; exact Hshape].
  repeat split; try assumption.
  rewrite Hnil in Hlength. now apply length_zero_iff_nil.
Qed.

Lemma length_realloc :
  forall (E : environment) (block : list Z) (n : nat),
    length (realloc E block n) = n.
Proof.
  intros E block n. unfold realloc.
  rewrite length_app, length_take, length_map, length_seq. lia.
Qed.

(** The cells of the block that [try_to_enlarge_buffer] asks for: when
    the guard cell of a buffer of [desired] cells lies within them, the
    number of bytes did not wrap and there are [desired + 1] of them. *)
Lemma cells_of_bytes :
  forall desired : Z,
    0 <= desired ->
    desired
    < to_size_t (sizeof_z_ucs * to_size_t (desired + 1)) / sizeof_z_ucs ->
    to_size_t (sizeof_z_ucs * to_size_t (desired + 1)) / sizeof_z_ucs
    = desired + 1.
Proof.
  intros desired Hdesired Hguard. unfold to_size_t, sizeof_z_ucs in *.
  change (2 ^ 64) with (4 * 2 ^ 62) in *.
  rewrite Z.mul_mod_distr_l in * by lia.
  rewrite (Z.mul_comm 4), Z.div_mul in * by lia.
  set (cells := (desired + 1) mod (4 * 2 ^ 62)) in *.
  assert (Hcells : 0 <= cells <= desired + 1).
  { subst cells. split; [apply Z.mod_pos_bound; lia|].
    apply Z.mod_le; lia. }
  assert (Hfit : cells mod 2 ^ 62 <= cells) by (apply Z.mod_le; lia).
  lia.
Qed.

Lemma try_to_enlarge_buffer_well_formed :
  forall (E : environment) (h h' : OUTPUTHISTORY) (desired : Z),
    well_formed h ->
    z_history_buffer_size h < desired <= z_history_maximum_buffer_size h ->
    try_to_enlarge_buffer E h desired = Returns h' ->
    well_formed h'
    /\ z_history_buffer_size h <= z_history_buffer_size h'
    /\ z_history_maximum_buffer_size h' = z_history_maximum_buffer_size h
    /\ z_history_buffer_front_index h' = z_history_buffer_front_index h
    /\ nof_wraparounds h' = nof_wraparounds h.
Proof.
  intros E h h' desired (Hshape & Hsize & Hmax & Hfront) Hdesired Hrun.
  unfold try_to_enlarge_buffer in Hrun. cbv zeta in Hrun.
  destruct (realloc_succeeds E _).
  - assert (0 <= z_history_buffer_size h)
      by (destruct Hshape as [(-> & _)|(? & _)]; lia).
    unfold store in Hrun.
    cbn [z_history_buffer_start set_z_history_buffer_start
         z_history_buffer_end set_z_history_buffer_end
         z_history_buffer_size set_z_history_buffer_size] in Hrun.
    rewrite length_realloc in Hrun.
    replace (desired - 1 + 1) with desired in Hrun by lia.
    destruct (Z.leb_spec 0 desired); [|lia].
    destruct (Z.ltb_spec desired
                (Z.of_nat
                   (Z.to_nat
                      (to_size_t (sizeof_z_ucs * to_size_t (desired + 1))
                       / sizeof_z_ucs)))) as [Hguard|];
      [|discriminate].
    cbn [andb] in Hrun. injection Hrun as <-.
    assert (Hcells : to_size_t (sizeof_z_ucs * to_size_t (desired + 1))
                     / sizeof_z_ucs = desired + 1)
      by (apply cells_of_bytes; lia).
    unfold well_formed, buffer_shape. cbn.
    rewrite length_insert, length_realloc, Hcells.
    repeat split; lia.
  - injection Hrun as <-. repeat split; try assumption; lia.
Qed.

Lemma grown_refl : forall h : OUTPUTHISTORY, well_formed h -> grown h h.
Proof. intros h Hh. repeat split; try apply Hh; lia. Qed.

Lemma grown_trans :
  forall h1 h2 h3 : OUTPUTHISTORY, grown h1 h2 -> grown h2 h3 -> grown h1 h3.
Proof.
  intros h1 h2 h3 (_ & Hs12 & Hm12) (Hw & Hs23 & Hm23).
  repeat split; try apply Hw; try lia; congruence.
Qed.

Lemma grown_same_geometry :
  forall h h' : OUTPUTHISTORY,
    well_formed h -> same_geometry h h' -> grown h h'.
Proof.
  intros h h' Hh Hsame. split; [eapply well_formed_same_geometry; eauto|].
  destruct Hsame as ((Hs & Hm & _) & _). split; [lia|exact Hm].
Qed.

Lemma room_to_the_end :
  forall h : OUTPUTHISTORY,
    well_formed h ->
    to_size_t (z_history_buffer_end h - z_history_buffer_front_index h + 1)
    = if z_history_buffer_size h =? 0 then 1
      else z_history_buffer_size h - z_history_buffer_front_index h.
Proof.
  intros h (Hshape & Hsize & Hmax & Hfront). unfold to_size_t.
  destruct Hshape as [(Hzero & _ & Hend)|(Hpos & _ & Hend)].
  - rewrite Hzero in *. rewrite Hend. cbn [Z.eqb].
    replace (z_history_buffer_front_index h) with 0 by lia. reflexivity.
  - destruct (Z.eqb_spec (z_history_buffer_size h) 0); [lia|].
    rewrite Hend.
    replace (z_history_buffer_size h - 1 - z_history_buffer_front_index h + 1)
      with (z_history_buffer_size h - z_history_buffer_front_index h) by lia.
    apply Z.mod_small. lia.
Qed.

(** Moving the front within the buffer, and the back anywhere, keeps a
    store well formed. *)
Lemma well_formed_moved :
  forall (h : OUTPUTHISTORY) (front back : Z),
    well_formed h ->
    0 <= front <= z_history_buffer_size h ->
    well_formed
      (set_z_history_buffer_back_index back
         (set_z_history_buffer_front_index front h)).
Proof.
  intros h front back (Hshape & Hsize & Hmax & _) Hfront.
  unfold well_formed, buffer_shape in *. cbn. repeat split; try lia.
  exact Hshape.
Qed.

Lemma store_data_wrapped_grown :
  forall (E : environment) (fuel : nat) (h h' : OUTPUTHISTORY)
         (data : list Z) (data_offset len : Z),
    well_formed h ->
    store_data_wrapped E fuel h data data_offset len = Returns h' ->
    grown h h'.
Proof.
  intros E fuel. induction fuel as [|fuel IH];
    intros h h' data data_offset len Hh Hrun;
    cbn [store_data_wrapped] in Hrun.
  - destruct (0 <? len); [discriminate|]. simplify_eq. now apply grown_refl.
  - destruct (Z.ltb_spec 0 len); [|simplify_eq; now apply grown_refl].
    unfold mbind at 1, outcome_bind in Hrun. cbv zeta in Hrun.
    destruct (process_buffer_back E h _) as [h1| | |] eqn:H1;
      try discriminate.
    apply process_buffer_back_same_geometry in H1.
    unfold mbind, outcome_bind in Hrun.
    destruct (z_ucs_ncpy _ h1 _ data data_offset) as [h2| | |] eqn:H2;
      try discriminate.
    apply z_ucs_ncpy_same_geometry in H2.
    pose proof (same_geometry_trans _ _ _ H1 H2) as H12.
    pose proof (grown_same_geometry h h2 Hh H12) as Hg.
    pose proof (room_to_the_end h Hh) as Hroom.
    destruct H1 as ((_ & _ & He1 & Hf1 & _) & _).
    destruct H12 as ((Hs2 & Hm12 & He2 & Hf2 & _) & _).
    cbn [set_z_history_buffer_front_index z_history_buffer_front_index
         z_history_buffer_end] in Hrun.
    rewrite Hf2, He2 in Hrun.
    set (wrote :=
           if z_history_buffer_end h
              <? z_history_buffer_front_index h + len - 1
           then to_size_t (z_history_buffer_end h
                           - z_history_buffer_front_index h + 1)
           else len) in *.
    destruct Hg as (Hw2 & _).
    destruct Hh as (Hshape & Hsize & Hmax & Hfront).
    assert (Hend : z_history_buffer_end h
                   = if z_history_buffer_size h =? 0 then 0
                     else z_history_buffer_size h - 1).
    { destruct Hshape as [(-> & _ & ->)|(? & _ & ->)]; [reflexivity|].
      destruct (Z.eqb_spec (z_history_buffer_size h) 0); lia. }
    assert (Hwrote :
              z_history_buffer_front_index h + wrote
              = z_history_buffer_end h + 1
              \/ 0 <= z_history_buffer_front_index h + wrote
                 <= z_history_buffer_size h).
    { unfold wrote.
      destruct (Z.ltb_spec (z_history_buffer_end h)
                  (z_history_buffer_front_index h + len - 1)).
      - rewrite Hroom, Hend.
        destruct (Z.eqb_spec (z_history_buffer_size h) 0); lia.
      - rewrite Hend in *.
        destruct (Z.eqb_spec (z_history_buffer_size h) 0); lia. }
    assert (Hsize0 : 0 <= z_history_buffer_size h)
      by (destruct Hshape as [(-> & _)|(? & _)]; lia).
    destruct (Z.eqb_spec (z_history_buffer_front_index h + wrote)
                (z_history_buffer_end h + 1));
      apply IH in Hrun.
    + destruct Hrun as (Hw' & Hs' & Hm'). cbn in Hs', Hm'.
      repeat split; try apply Hw'; try lia; congruence.
    + destruct Hw2 as (? & ? & ? & ?).
      unfold well_formed, buffer_shape in *. cbn.
      repeat split; try lia. assumption.
    + destruct Hrun as (Hw' & Hs' & Hm'). cbn in Hs', Hm'.
      repeat split; try apply Hw'; try lia; congruence.
    + destruct Hwrote as [|Hwrote]; [contradiction|].
      cbn.
      apply (well_formed_moved h2
               (z_history_buffer_front_index h + wrote)); [exact Hw2|].
      rewrite Hs2. exact Hwrote.
Qed.

Lemma well_formed_front :
  forall (h : OUTPUTHISTORY) (front : Z),
    well_formed h ->
    0 <= front <= z_history_buffer_size h ->
    well_formed (set_z_history_buffer_front_index front h).
Proof.
  intros h front (Hshape & Hsize & Hmax & _) Hfront.
  unfold well_formed, buffer_shape in *. cbn. repeat split; try lia.
  exact Hshape.
Qed.

Lemma well_formed_nonnegative :
  forall h : OUTPUTHISTORY, well_formed h -> 0 <= z_history_buffer_size h.
Proof. intros h ([(-> & _)|(? & _)] & _); lia. Qed.

Lemma store_data_grown :
  forall (E : environment) (h h' : OUTPUTHISTORY) (data : list Z) (len : Z),
    well_formed h ->
    store_data E h data len = Returns h' ->
    grown h h'.
Proof.
  intros E h h' data len Hh Hrun. unfold store_data in Hrun.
  pose proof (well_formed_nonnegative h Hh) as Hsize0.
  destruct (z_history_maximum_buffer_size h <=? len).
  - unfold mbind, outcome_bind in Hrun.
    destruct (process_buffer_back E h _) as [h1| | |] eqn:H1;
      try discriminate.
    apply process_buffer_back_same_geometry in H1.
    pose proof (grown_same_geometry h h1 Hh H1) as (Hw1 & Hs1 & Hm1).
    destruct (if z_history_buffer_size h1 <? z_history_maximum_buffer_size h1
              then try_to_enlarge_buffer E h1
                     (z_history_maximum_buffer_size h1)
              else Returns h1) as [h2| | |] eqn:H2; try discriminate.
    assert (Hg2 : grown h1 h2).
    { destruct (Z.ltb_spec (z_history_buffer_size h1)
                  (z_history_maximum_buffer_size h1));
        [|injection H2 as <-; now apply grown_refl].
      destruct (try_to_enlarge_buffer_well_formed E h1 h2
                  (z_history_maximum_buffer_size h1) Hw1)
        as (? & ? & ? & _); [lia|exact H2|].
      split; [assumption|split; assumption]. }
    destruct (memcpy h2 0 data _) as [h3| | |] eqn:H3; try discriminate.
    apply memcpy_same_geometry in H3.
    destruct Hg2 as (Hw2 & Hs2 & Hm2).
    pose proof (grown_same_geometry h2 h3 Hw2 H3) as (Hw3 & Hs3 & Hm3).
    simplify_eq. split; [|cbn; split; [lia|congruence]].
    apply well_formed_moved; [exact Hw3|].
    pose proof (well_formed_nonnegative h3 Hw3). lia.
  - unfold mbind at 1, outcome_bind in Hrun.
    match type of Hrun with
    | match ?grow with _ => _ end = _ =>
        destruct grow as [h1| | |] eqn:H1; try discriminate
    end.
    assert (Hg1 : grown h h1
                  /\ z_history_buffer_front_index h1
                     = z_history_buffer_front_index h
                  /\ nof_wraparounds h1 = nof_wraparounds h).
    { destruct (_ <? len); [|simplify_eq; split; [now apply grown_refl|auto]].
      destruct (_ =? 0); [discriminate|].
      match type of H1 with
      | (if _ <? ?d then _ else _) = _ =>
          destruct (Z.ltb_spec (z_history_buffer_size h) d);
          [|simplify_eq; split; [now apply grown_refl|auto]];
          destruct (try_to_enlarge_buffer_well_formed E h h1 d Hh)
            as (Ha & Hb & Hc & Hd & He)
      end.
      - split; [assumption|].
        match goal with
        | |- context [if ?a <? ?b then _ else _] =>
            destruct (Z.ltb_spec a b)
        end; lia.
      - exact H1.
      - split; [split; [exact Ha|split; [exact Hb|exact Hc]]|].
        split; [exact Hd|exact He]. }
    clear H1. destruct Hg1 as (Hg1 & Hf1 & Hwr1).
    pose proof Hg1 as (Hw1 & _).
    pose proof (well_formed_nonnegative h1 Hw1) as Hsize1.
    destruct (if z_history_buffer_size h1 <? len
              then (len - z_history_buffer_size h1, z_history_buffer_size h1)
              else (0, len)) as [data_offset len'] eqn:Hlen.
    assert (Hlen' : len' <= z_history_buffer_size h1).
    { destruct (Z.ltb_spec (z_history_buffer_size h1) len); simplify_eq; lia. }
    destruct (nof_wraparounds h1 =? 0).
    2: { apply store_data_wrapped_grown in Hrun; [|exact Hw1].
         eapply grown_trans; eassumption. }
    rewrite (room_to_the_end h1 Hw1) in Hrun.
    unfold mbind, outcome_bind in Hrun. cbv zeta in Hrun.
    set (room := if z_history_buffer_size h1 =? 0 then 1
                 else z_history_buffer_size h1
                      - z_history_buffer_front_index h1) in *.
    set (wrote := if len' <? room then len' else room) in *.
    match type of Hrun with
    | match ?write with _ => _ end = _ =>
        destruct write as [h2| | |] eqn:H2; try discriminate
    end.
    assert (Hg2 : grown h1 h2).
    { destruct (Z.ltb_spec 0 wrote); [|simplify_eq; now apply grown_refl].
      destruct (z_ucs_ncpy _ h1 _ data data_offset) as [h3| | |] eqn:H3;
        try discriminate.
      apply z_ucs_ncpy_same_geometry in H3.
      pose proof (grown_same_geometry h1 h3 Hw1 H3) as (Hw3 & Hs3 & Hm3).
      destruct H3 as ((Hs31 & _ & _ & Hf3 & _) & _).
      simplify_eq. split; [|cbn; split; [lia|congruence]].
      apply well_formed_front; [exact Hw3|].
      destruct Hw1 as (_ & _ & _ & Hfront1).
      unfold wrote, room in *.
      destruct (Z.eqb_spec (z_history_buffer_size h1) 0);
        destruct (Z.ltb_spec len' 1);
        destruct (Z.ltb_spec len'
                    (z_history_buffer_size h1
                     - z_history_buffer_front_index h1)); lia. }
    clear H2.
    destruct (wrote =? len'); [simplify_eq; eapply grown_trans; eassumption|].
    apply store_data_wrapped_grown in Hrun.
    + destruct Hrun as (Hw' & Hs' & Hm'). cbn in Hs', Hm'.
      destruct Hg1 as (_ & ? & ?). destruct Hg2 as (_ & ? & ?).
      repeat split; try apply Hw'; try lia; congruence.
    + destruct Hg2 as (Hw2 & _).
      pose proof (well_formed_nonnegative h2 Hw2).
      destruct Hw2 as (? & ? & ? & ?).
      unfold well_formed, buffer_shape in *. cbn.
      repeat split; try lia. assumption.
Qed.

Lemma store_metadata_in_history_grown :
  forall (E : environment) (h h' : OUTPUTHISTORY) (metadata_type : Z)
         (ap : list Z) (result : Z),
    well_formed h ->
    store_metadata_in_history E h metadata_type ap = Returns (result, h') ->
    grown h h'.
Proof.
  intros E h h' metadata_type ap result Hh Hrun.
  unfold store_metadata_in_history in Hrun.
  unfold mbind, outcome_bind, va_arg, i18n_translate_and_exit in Hrun.
  cbv zeta in Hrun.
  repeat case_match; simplify_eq;
    try (now apply grown_refl);
    match goal with
    | H : store_data _ ?h0 _ _ = Returns _ |- _ =>
        apply store_data_grown in H;
        [ destruct H as (Hw & Hs & Hm); cbn in Hs, Hm;
          split; [exact Hw|split; assumption]
        | destruct Hh as (? & ? & ? & ?);
          unfold well_formed, buffer_shape in *; cbn;
          repeat split; solve [lia | assumption] ]
    end.
Qed.

Lemma write_metadata_state_block_if_necessary_grown :
  forall (E : environment) (h h' : OUTPUTHISTORY),
    well_formed h ->
    write_metadata_state_block_if_necessary E h = Returns h' ->
    grown h h'.
Proof.
  intros E h h' Hh Hrun.
  unfold write_metadata_state_block_if_necessary in Hrun.
  destruct (_ =? 0); [discriminate|].
  unfold mbind at 1, outcome_bind at 1 in Hrun.
  match type of Hrun with
  | match ?records with _ => _ end = _ =>
      destruct records as [h1| | |] eqn:H1; try discriminate
  end.
  assert (Hg : grown h h1).
  { destruct (negb _); [|simplify_eq; now apply grown_refl].
    unfold mbind, outcome_bind in H1.
    destruct (store_metadata_in_history E h _ _) as [[r1 g1]| | |] eqn:Hfont;
      try discriminate.
    apply store_metadata_in_history_grown in Hfont; [|exact Hh].
    destruct (store_metadata_in_history E g1 _ _) as [[r2 g2]| | |] eqn:Hstyle;
      try discriminate.
    apply store_metadata_in_history_grown in Hstyle; [|apply Hfont].
    destruct (store_metadata_in_history E g2 _ _) as [[r3 g3]| | |]
      eqn:Hcolour; try discriminate.
    apply store_metadata_in_history_grown in Hcolour; [|apply Hstyle].
    simplify_eq.
    eapply grown_trans; [|exact Hcolour].
    eapply grown_trans; eassumption. }
  simplify_eq. destruct Hg as ((? & ? & ? & ?) & ? & ?).
  unfold grown, well_formed, buffer_shape in *. cbn.
  repeat split; solve [lia | assumption].
Qed.

Lemma store_data_in_history_grown :
  forall (E : environment) (h h' : OUTPUTHISTORY) (data : option (list Z))
         (len : Z) (evaluate_state_block : bool),
    well_formed h ->
    store_data_in_history E h data len evaluate_state_block = Returns h' ->
    grown h h'.
Proof.
  intros E h h' [data|] len evaluate_state_block Hh Hrun;
    unfold store_data_in_history in Hrun;
    [|simplify_eq; now apply grown_refl].
  unfold mbind, outcome_bind in Hrun.
  destruct (store_data E h data len) as [h1| | |] eqn:H1; try discriminate.
  apply store_data_grown in H1; [|exact Hh].
  destruct evaluate_state_block; [|now simplify_eq].
  apply write_metadata_state_block_if_necessary_grown in Hrun;
    [|apply H1].
  eapply grown_trans; eassumption.
Qed.

Lemma store_z_ucs_output_in_history_grown :
  forall (E : environment) (h h' : OUTPUTHISTORY)
         (z_ucs_output : option (list Z)),
    well_formed h ->
    store_z_ucs_output_in_history E h z_ucs_output = Returns h' ->
    grown h h'.
Proof.
  intros E h h' [s|] Hh Hrun; unfold store_z_ucs_output_in_history in Hrun;
    [|simplify_eq; now apply grown_refl].
  unfold mbind, outcome_bind in Hrun.
  destruct (z_ucs_len s); try discriminate.
  destruct (_ =? 0); [simplify_eq; now apply grown_refl|].
  eapply store_data_in_history_grown; eassumption.
Qed.

(** From [2^62 - 1] cells on the number of bytes asked of [realloc]
    wraps: the block is too short for the size that is recorded, and the
    guard cell is written behind it. *)
Lemma try_to_enlarge_buffer_wrapped :
  forall (E : environment) (h : OUTPUTHISTORY) (desired : Z),
    2 ^ 62 - 1 <= desired < 2 ^ 64 ->
    try_to_enlarge_buffer E h desired
    = if realloc_succeeds E
           (to_size_t (sizeof_z_ucs * to_size_t (desired + 1)))
      then Undefined
      else Returns h.
Proof.
  intros E h desired Hdesired. unfold try_to_enlarge_buffer. cbv zeta.
  destruct (realloc_succeeds E _); [|reflexivity].
  unfold store.
  cbn [z_history_buffer_start set_z_history_buffer_start
       z_history_buffer_end set_z_history_buffer_end
       z_history_buffer_size set_z_history_buffer_size].
  rewrite length_realloc.
  replace (desired - 1 + 1) with desired by lia.
  assert (Hcells : to_size_t (sizeof_z_ucs * to_size_t (desired + 1))
                   / sizeof_z_ucs < 2 ^ 62).
  { unfold to_size_t, sizeof_z_ucs.
    apply Z.div_lt_upper_bound; [lia|].
    change (4 * 2 ^ 62) with (2 ^ 64). apply Z.mod_pos_bound. lia. }
  assert (Hnonneg : 0 <= to_size_t (sizeof_z_ucs * to_size_t (desired + 1))
                         / sizeof_z_ucs).
  { unfold to_size_t, sizeof_z_ucs. apply Z.div_pos; [|lia].
    apply Z.mod_pos_bound. lia. }
  destruct (Z.ltb_spec desired
              (Z.of_nat
                 (Z.to_nat
                    (to_size_t (sizeof_z_ucs * to_size_t (desired + 1))
                     / sizeof_z_ucs)))); [lia|].
  rewrite andb_false_r. reflexivity.
Qed.

(** X1.  Whatever is written, and however the writing ends when it
    returns, a well-formed store stays well formed: the buffer is not
    allocated or has one guard cell behind its [size] cells, the size is
    within the maximum, and the front is within the buffer or on the
    guard cell; further the buffer does not shrink and the maximum size
    does not change.  An enlargement to [2^62 - 1] cells or more does
    not return when [realloc] succeeds: the number of bytes wraps, and
    the guard cell is written behind the block. *)
Theorem writes_keep_store_well_formed :
  forall (E : environment) (h : OUTPUTHISTORY),
    well_formed h ->
    (forall data len evaluate_state_block h',
        store_data_in_history E h data len evaluate_state_block = Returns h' ->
        grown h h')
    /\ (forall metadata_type ap result h',
          store_metadata_in_history E h metadata_type ap
          = Returns (result, h') ->
          grown h h')
    /\ (forall z_ucs_output h',
          store_z_ucs_output_in_history E h z_ucs_output = Returns h' ->
          grown h h')
    /\ (forall desired,
          2 ^ 62 - 1 <= desired < 2 ^ 64 ->
          try_to_enlarge_buffer E h desired
          = if realloc_succeeds E
                 (to_size_t (sizeof_z_ucs * to_size_t (desired + 1)))
            then Undefined
            else Returns h).
Proof.
  intros E h Hh. split; [|split; [|split]].
  - intros data len evaluate_state_block h' Hrun.
    eapply store_data_in_history_grown; eassumption.
  - intros metadata_type ap result h' Hrun.
    eapply store_metadata_in_history_grown; eassumption.
  - intros z_ucs_output h' Hrun.
    eapply store_z_ucs_output_in_history_grown; eassumption.
  - intros desired Hdesired. now apply try_to_enlarge_buffer_wrapped.
Qed.

(** ** Stores that come from [create_outputhistory] *)

Lemma create_outputhistory_well_formed :
  forall window maximum increment fg bg font style : Z,
    0 <= maximum < 2 ^ 64 ->
    well_formed
      (create_outputhistory window maximum increment fg bg font style).
Proof.
  intros. unfold well_formed, buffer_shape. cbn.
  repeat split; try lia. left. repeat split.
Qed.

Lemma decrement_buffer_pointer_within :
  forall (h : OUTPUTHISTORY) (ptr wraps ptr' wraps' : Z),
    well_formed h ->
    0 <= ptr <= z_history_buffer_size h ->
    decrement_buffer_pointer h ptr wraps = Some (ptr', wraps') ->
    0 <= ptr' <= z_history_buffer_end h
    /\ ptr' <= z_history_buffer_size h.
Proof.
  intros h ptr wraps ptr' wraps' (Hshape & _) Hptr Hstep.
  unfold decrement_buffer_pointer in Hstep.
  destruct (_ && _); [discriminate|].
  destruct (Z.ltb_spec (ptr - 1) 0).
  - destruct (_ =? 0); [discriminate|]. simplify_eq.
    destruct Hshape as [(-> & _ & ->)|(? & _ & ->)]; lia.
  - simplify_eq.
    destruct Hshape as [(Hzero & _)|(? & _ & ->)]; lia.
Qed.

Lemma remove_chars_walk_within :
  forall (E : environment) (h : OUTPUTHISTORY) (fuel : nat)
         (ptr wraps last_data nof_chars ptr' wraps' : Z),
    well_formed h ->
    0 <= ptr <= z_history_buffer_size h ->
    remove_chars_walk E fuel h ptr wraps last_data nof_chars
    = Returns (Some (ptr', wraps')) ->
    0 <= ptr' <= z_history_buffer_size h.
Proof.
  intros E h fuel. induction fuel as [|fuel IH];
    intros ptr wraps last_data nof_chars ptr' wraps' Hh Hptr Hwalk;
    cbn [remove_chars_walk] in Hwalk.
  - destruct (0 <? nof_chars); [discriminate|]. simplify_eq. exact Hptr.
  - destruct (0 <? nof_chars); [|simplify_eq; exact Hptr].
    destruct (decrement_buffer_pointer h ptr wraps) as [[p w]|] eqn:Hstep;
      [|discriminate].
    apply decrement_buffer_pointer_within in Hstep; [|exact Hh|exact Hptr].
    unfold mbind, outcome_bind in Hwalk.
    destruct (load h p); try discriminate.
    destruct Hstep as (? & ?).
    destruct (_ && _); apply IH in Hwalk; solve [assumption | lia].
Qed.

(** What [remove_chars_from_history] returns: -1 and the store as it
    was, or 0 and the store with another front and another number of
    wrap-arounds. *)
Lemma remove_chars_from_history_result :
  forall (E : environment) (h h' : OUTPUTHISTORY) (nof_chars result : Z),
    remove_chars_from_history E h nof_chars = Returns (result, h') ->
    (result = -1 /\ h' = h)
    \/ (result = 0
        /\ h' = set_nof_wraparounds (nof_wraparounds h')
                  (set_z_history_buffer_front_index
                     (z_history_buffer_front_index h') h)).
Proof.
  intros E h h' nof_chars result Hrun.
  unfold remove_chars_from_history in Hrun.
  unfold mbind, outcome_bind in Hrun.
  destruct (remove_chars_walk E _ h _ _ 0 nof_chars) as [[[p w]|]| | |];
    simplify_eq; [right|left]; auto.
Qed.

Lemma writes_well_formed :
  forall (E : environment) (h h' : OUTPUTHISTORY),
    well_formed h -> writes E h h' -> well_formed h'.
Proof.
  intros E h h' Hh Hstep.
  destruct Hstep as [h h' data len ev Hrun|h h' s Hrun|h h' t r ap Hrun
                     |h h' n r Hrun|h h' output a1 a2 r Hrun].
  - apply (store_data_in_history_grown _ _ _ _ _ _ Hh Hrun).
  - apply (store_z_ucs_output_in_history_grown _ _ _ _ Hh Hrun).
  - apply (store_metadata_in_history_grown _ _ _ _ _ _ Hh Hrun).
  - unfold remove_chars_from_history in Hrun.
    unfold mbind, outcome_bind in Hrun.
    destruct (remove_chars_walk E _ h _ _ 0 n) as [[[p w]|]| | |] eqn:Hwalk;
      simplify_eq; [|exact Hh].
    apply remove_chars_walk_within in Hwalk; [|exact Hh|apply Hh].
    destruct Hh as (? & ? & ? & ?).
    unfold well_formed, buffer_shape in *. cbn.
    repeat split; solve [lia | assumption].
  - unfold alter_last_paragraph_attributes in Hrun.
    unfold mbind, outcome_bind in Hrun.
    destruct (validate_outputhistory h output); try discriminate.
    destruct (last_paragraph_attribute_index output) as [index|];
      [|simplify_eq; exact Hh].
    destruct (store h index _) as [h1| | |] eqn:H1; try discriminate.
    destruct (store h1 _ _) as [h2| | |] eqn:H2; try discriminate.
    apply store_same_geometry in H1, H2. simplify_eq.
    eapply well_formed_same_geometry; [exact Hh|].
    eapply same_geometry_trans; eassumption.
Qed.

(** X2.  A store that [create_outputhistory] made for a maximum size
    below 2^64 is well formed, and it stays so through any sequence of
    calls that return: stores of data, of text and of metadata, removals
    of characters and alterations of paragraph attributes.  The buffer
    size never exceeds the maximum given to [create_outputhistory]. *)
Theorem stores_from_create_are_well_formed :
  forall (E : environment) (window maximum increment fg bg font style : Z)
         (h : OUTPUTHISTORY),
    0 <= maximum < 2 ^ 64 ->
    rtc (writes E)
      (create_outputhistory window maximum increment fg bg font style) h ->
    well_formed h
    /\ z_history_maximum_buffer_size h = maximum
    /\ 0 <= z_history_buffer_size h <= maximum.
Proof.
  intros E window maximum increment fg bg font style h Hmax Hsteps.
  assert (Hinv :
            forall h0 h1,
              rtc (writes E) h0 h1 ->
              well_formed h0 ->
              well_formed h1
              /\ z_history_maximum_buffer_size h1
                 = z_history_maximum_buffer_size h0).
  { intros h0 h1 Hrtc. induction Hrtc as [|h0 h1 h2 Hstep _ IH];
      intros Hh0; [auto|].
    pose proof (writes_well_formed E h0 h1 Hh0 Hstep) as Hh1.
    destruct (IH Hh1) as (Hh2 & Hm). split; [exact Hh2|].
    rewrite Hm. clear IH Hm Hh2.
    destruct Hstep as [g g' data len ev Hrun|g g' s Hrun|g g' t r ap Hrun
                       |g g' n r Hrun|g g' output a1 a2 r Hrun].
    - apply (store_data_in_history_grown _ _ _ _ _ _ Hh0 Hrun).
    - apply (store_z_ucs_output_in_history_grown _ _ _ _ Hh0 Hrun).
    - apply (store_metadata_in_history_grown _ _ _ _ _ _ Hh0 Hrun).
    - apply remove_chars_from_history_result in Hrun
        as [(_ & ->)|(_ & ->)]; reflexivity.
    - unfold alter_last_paragraph_attributes in Hrun.
      unfold mbind, outcome_bind in Hrun.
      destruct (validate_outputhistory g output); try discriminate.
      destruct (last_paragraph_attribute_index output) as [index|];
        [|now simplify_eq].
      destruct (store g index _) as [g1| | |] eqn:H1; try discriminate.
      destruct (store g1 _ _) as [g2| | |] eqn:H2; try discriminate.
      apply store_same_geometry in H1, H2. simplify_eq.
      destruct H1 as ((_ & Hm1 & _) & _). destruct H2 as ((_ & Hm2 & _) & _).
      congruence. }
  destruct (Hinv _ _ Hsteps) as (Hh & Hm).
  { now apply create_outputhistory_well_formed. }
  cbn in Hm. split; [exact Hh|]. split; [exact Hm|].
  pose proof (well_formed_nonnegative h Hh).
  destruct Hh as (_ & ? & _). lia.
Qed.

(** ** What a write leaves in the buffer *)

Lemma load_store :
  forall (h h' : OUTPUTHISTORY) (p c i : Z),
    store h p c = Returns h' ->
    0 <= i ->
    load h' i = if i =? p then Returns c else load h i.
Proof.
  intros h h' p c i Hstore Hi. unfold store in Hstore.
  destruct (Z.leb_spec 0 p); [|discriminate].
  destruct (Z.ltb_spec p (Z.of_nat (length (z_history_buffer_start h))));
    [|discriminate].
  cbn in Hstore. injection Hstore as <-. unfold load.
  destruct (Z.leb_spec 0 i); [|lia].
  cbn [z_history_buffer_start set_z_history_buffer_start].
  destruct (Z.eqb_spec i p) as [->|Hne].
  - rewrite list_lookup_insert_eq by lia. reflexivity.
  - rewrite list_lookup_insert_ne by lia. reflexivity.
Qed.

(** After a copy of [k] cells to [dst], these cells hold the data and
    the others hold what they held. *)
Lemma z_ucs_ncpy_cells :
  forall (k : nat) (h h' : OUTPUTHISTORY) (dst : Z) (data : list Z)
         (src i : Z),
    z_ucs_ncpy k h dst data src = Returns h' ->
    0 <= dst -> 0 <= i ->
    load h' i
    = if (dst <=? i) && (i <? dst + Z.of_nat k)
      then load_data data (src + (i - dst))
      else load h i.
Proof.
  intros k. induction k as [|k IH]; intros h h' dst data src i Hrun Hdst Hi;
    cbn [z_ucs_ncpy] in Hrun.
  - simplify_eq.
    destruct (Z.leb_spec dst i); destruct (Z.ltb_spec i (dst + Z.of_nat 0));
      cbn [andb]; try reflexivity; lia.
  - unfold mbind, outcome_bind in Hrun.
    destruct (load_data data src) as [c| | |] eqn:Hc; try discriminate.
    destruct (store h dst c) as [h1| | |] eqn:Hstore; try discriminate.
    rewrite (IH _ _ _ _ _ i Hrun) by lia.
    rewrite (load_store _ _ _ _ i Hstore) by lia.
    destruct (Z.leb_spec (dst + 1) i); destruct (Z.leb_spec dst i);
      destruct (Z.ltb_spec i (dst + 1 + Z.of_nat k));
      destruct (Z.ltb_spec i (dst + Z.of_nat (S k)));
      destruct (Z.eqb_spec i dst); cbn [andb]; try lia; try reflexivity.
    + f_equal. lia.
    + subst i. replace (src + (dst - dst)) with src by lia. now rewrite Hc.
Qed.

(** On a store that has not wrapped, data that fit between the front
    and the end of the buffer are copied to the front, which moves behind
    them. *)
Lemma store_data_within_buffer :
  forall (E : environment) (h : OUTPUTHISTORY) (data : list Z) (n : Z),
    linear_store h ->
    0 < n < z_history_maximum_buffer_size h ->
    z_history_buffer_front_index h + n <= z_history_buffer_size h ->
    store_data E h data n
    = z_ucs_ncpy (Z.to_nat n) h (z_history_buffer_front_index h) data 0
      ≫= (fun h' =>
            Returns (set_z_history_buffer_front_index
                       (z_history_buffer_front_index h' + n) h')).
Proof.
  intros E h data n (Hsize & Hmax & Hend & Hblock & Hwraps & Hfront)
         Hn Hfits.
  unfold store_data.
  destruct (Z.leb_spec (z_history_maximum_buffer_size h) n); [lia|].
  assert (Havailable :
            to_size_t (z_history_buffer_end h
                       - z_history_buffer_front_index h + 1)
            = z_history_buffer_size h - z_history_buffer_front_index h).
  { unfold to_size_t. rewrite Hend.
    replace (z_history_buffer_size h - 1 - z_history_buffer_front_index h + 1)
      with (z_history_buffer_size h - z_history_buffer_front_index h) by lia.
    apply Z.mod_small. lia. }
  unfold get_buffer_space_available.
  destruct (Z.eqb_spec (z_history_buffer_size h) 0); [lia|].
  rewrite Hwraps. cbn [Z.eqb]. rewrite Havailable.
  destruct (Z.ltb_spec
              (z_history_buffer_size h - z_history_buffer_front_index h) n);
    [lia|].
  cbn [mbind outcome_bind].
  destruct (Z.ltb_spec (z_history_buffer_size h) n); [lia|].
  rewrite Hwraps. cbn [Z.eqb]. rewrite Havailable.
  assert (Hwrite :
            (if n <? z_history_buffer_size h - z_history_buffer_front_index h
             then n
             else z_history_buffer_size h - z_history_buffer_front_index h)
            = n) by (destruct (Z.ltb_spec n (z_history_buffer_size h
                       - z_history_buffer_front_index h)); lia).
  rewrite Hwrite.
  destruct (Z.ltb_spec 0 n); [|lia].
  destruct (z_ucs_ncpy _ h _ data 0) as [h1| | |]; cbn [mbind outcome_bind];
    try reflexivity.
  now rewrite Z.eqb_refl.
Qed.

Lemma load_lookup :
  forall (h : OUTPUTHISTORY) (i c : Z),
    0 <= i ->
    load h i = Returns c <-> z_history_buffer_start h !! Z.to_nat i = Some c.
Proof.
  intros h i c Hi. unfold load. destruct (Z.leb_spec 0 i); [|lia].
  destruct (z_history_buffer_start h !! Z.to_nat i);
    split; intros H'; now simplify_eq.
Qed.

Lemma load_data_lookup :
  forall (data : list Z) (i c : Z),
    0 <= i ->
    load_data data i = Returns c <-> data !! Z.to_nat i = Some c.
Proof.
  intros data i c Hi. unfold load_data. destruct (Z.leb_spec 0 i); [|lia].
  destruct (data !! Z.to_nat i); split; intros H'; now simplify_eq.
Qed.

(** X3.  On a store that has not wrapped, text that fits between the
    front and the end of the buffer, and that ends in the state block in
    which the store last was, is stored as it is: the front moves by the
    length of the text, the units between the old and the new front are
    the text, every cell before the old front holds what it held, and
    back and wrap-arounds are as before. *)
Theorem stored_text_is_read_back :
  forall (E : environment) (h : OUTPUTHISTORY) (units : list Z),
    linear_store h ->
    Forall (fun c => c <> 0) units ->
    0 < Z.of_nat (length units) < z_history_maximum_buffer_size h ->
    z_history_buffer_front_index h + Z.of_nat (length units)
    <= z_history_buffer_size h ->
    front_in_last_state_block E
      (set_z_history_buffer_front_index
         (z_history_buffer_front_index h + Z.of_nat (length units)) h) ->
    exists h' : OUTPUTHISTORY,
      store_z_ucs_output_in_history E h (z_ucs_string units) = Returns h'
      /\ z_history_buffer_front_index h'
         = z_history_buffer_front_index h + Z.of_nat (length units)
      /\ units_between h' (z_history_buffer_front_index h)
           (z_history_buffer_front_index h') = units
      /\ (forall i : Z,
            0 <= i < z_history_buffer_front_index h ->
            load h' i = load h i)
      /\ z_history_buffer_back_index h' = z_history_buffer_back_index h
      /\ nof_wraparounds h' = nof_wraparounds h.
Proof.
  intros E h units Hlinear Hunits Hlen Hfits (Hb & Hlast).
  pose proof Hlinear as (Hsize & Hmax & Hend & Hblock & Hwraps & Hfront).
  set (n := Z.of_nat (length units)) in *.
  unfold z_ucs_string, store_z_ucs_output_in_history.
  rewrite (z_ucs_len_of_text units Hunits). fold n.
  cbn [mbind outcome_bind].
  destruct (Z.eqb_spec n 0); [lia|].
  unfold store_data_in_history.
  rewrite (store_data_within_buffer E h (units ++ [0]) n Hlinear Hlen Hfits).
  destruct (z_ucs_ncpy_within (Z.to_nat n) h
              (z_history_buffer_front_index h) (units ++ [0]) 0)
    as (block & Hcopy & Hlength).
  { lia. } { lia. } { lia. } { rewrite length_app. cbn [length]. lia. }
  assert (Hcells : forall i : Z, 0 <= i ->
            load (set_z_history_buffer_start block h) i
            = if (z_history_buffer_front_index h <=? i)
                 && (i <? z_history_buffer_front_index h
                          + Z.of_nat (Z.to_nat n))
              then load_data (units ++ [0])
                     (0 + (i - z_history_buffer_front_index h))
              else load h i).
  { intros i Hi. apply (z_ucs_ncpy_cells _ _ _ _ _ _ i Hcopy); lia. }
  rewrite Hcopy. cbn [mbind outcome_bind].
  unfold write_metadata_state_block_if_necessary.
  destruct (Z.eqb_spec (Z_HISTORY_METADATA_STATE_BLOCK_SIZE E) 0);
    [contradiction|].
  cbn [set_z_history_buffer_front_index set_z_history_buffer_start
       z_history_buffer_front_index last_metadata_block_index] in *.
  rewrite Hlast, Z.eqb_refl. cbn [negb mbind outcome_bind].
  eexists. split; [reflexivity|]. cbn.
  split; [reflexivity|]. split; [|split; [|split; reflexivity]].
  - unfold units_between. cbn.
    replace (z_history_buffer_front_index h + n
             - z_history_buffer_front_index h) with n by lia.
    apply list_eq. intros j.
    destruct (decide (j < length units)%nat) as [Hj|Hj].
    + rewrite lookup_take_lt by lia. rewrite lookup_drop.
      destruct (lookup_lt_is_Some_2 units j Hj) as (c & Hc).
      rewrite Hc.
      specialize (Hcells (z_history_buffer_front_index h + Z.of_nat j)
                    ltac:(lia)).
      rewrite Z2Nat.id in Hcells by lia.
      destruct (Z.leb_spec (z_history_buffer_front_index h)
                  (z_history_buffer_front_index h + Z.of_nat j)); [|lia].
      destruct (Z.ltb_spec (z_history_buffer_front_index h + Z.of_nat j)
                  (z_history_buffer_front_index h + n)); [|lia].
      cbn [andb] in Hcells.
      assert (Hdata : load_data (units ++ [0])
                        (0 + (z_history_buffer_front_index h + Z.of_nat j
                              - z_history_buffer_front_index h))
                      = Returns c).
      { apply load_data_lookup; [lia|].
        replace (Z.to_nat _) with j by lia.
        rewrite lookup_app_l by lia. exact Hc. }
      rewrite Hdata in Hcells.
      apply load_lookup in Hcells; [|lia].
      cbn in Hcells.
      replace (Z.to_nat (z_history_buffer_front_index h + Z.of_nat j))
        with (Z.to_nat (z_history_buffer_front_index h) + j)%nat
        in Hcells by lia.
      exact Hcells.
    + rewrite lookup_take_ge by lia. symmetry.
      apply lookup_ge_None. lia.
  - intros i Hi.
    specialize (Hcells i ltac:(lia)).
    destruct (Z.leb_spec (z_history_buffer_front_index h) i); [lia|].
    cbn [andb] in Hcells. exact Hcells.
Qed.

(** * Records of metadata are stored as they are

    On a store that has not wrapped, [store_data] with room before the
    end of the buffer is one copy to the front. *)
Lemma store_data_read_back :
  forall (E : environment) (h : OUTPUTHISTORY) (data : list Z) (n : Z),
    linear_store h ->
    0 < n < z_history_maximum_buffer_size h ->
    z_history_buffer_front_index h + n <= z_history_buffer_size h ->
    n <= Z.of_nat (length data) ->
    exists block : list Z,
      store_data E h data n
      = Returns (set_z_history_buffer_front_index
                   (z_history_buffer_front_index h + n)
                   (set_z_history_buffer_start block h))
      /\ length block = length (z_history_buffer_start h)
      /\ take (Z.to_nat n)
           (drop (Z.to_nat (z_history_buffer_front_index h)) block)
         = take (Z.to_nat n) data
      /\ forall i : Z,
           0 <= i < z_history_buffer_front_index h ->
           load (set_z_history_buffer_start block h) i = load h i.
Proof.
  intros E h data n Hlinear Hn Hfits Hdata.
  pose proof Hlinear as (Hsize & Hmax & Hend & Hblock & Hwraps & Hfront).
  rewrite (store_data_within_buffer E h data n Hlinear Hn Hfits).
  destruct (z_ucs_ncpy_within (Z.to_nat n) h
              (z_history_buffer_front_index h) data 0)
    as (block & Hcopy & Hlength); [lia..|].
  assert (Hcells : forall i : Z, 0 <= i ->
            load (set_z_history_buffer_start block h) i
            = if (z_history_buffer_front_index h <=? i)
                 && (i <? z_history_buffer_front_index h
                          + Z.of_nat (Z.to_nat n))
              then load_data data (0 + (i - z_history_buffer_front_index h))
              else load h i).
  { intros i Hi. apply (z_ucs_ncpy_cells _ _ _ _ _ _ i Hcopy); lia. }
  rewrite Hcopy. cbn [mbind outcome_bind].
  exists block. split; [reflexivity|]. split; [exact Hlength|]. split.
  - apply list_eq. intros j.
    destruct (decide (j < Z.to_nat n)%nat) as [Hj|Hj].
    + rewrite !lookup_take_lt by lia. rewrite lookup_drop.
      destruct (lookup_lt_is_Some_2 data j ltac:(lia)) as (c & Hc).
      rewrite Hc.
      specialize (Hcells (z_history_buffer_front_index h + Z.of_nat j)
                    ltac:(lia)).
      rewrite Z2Nat.id in Hcells by lia.
      destruct (Z.leb_spec (z_history_buffer_front_index h)
                  (z_history_buffer_front_index h + Z.of_nat j)); [|lia].
      destruct (Z.ltb_spec (z_history_buffer_front_index h + Z.of_nat j)
                  (z_history_buffer_front_index h + n)); [|lia].
      cbn [andb] in Hcells.
      assert (Hread : load_data data
                        (0 + (z_history_buffer_front_index h + Z.of_nat j
                              - z_history_buffer_front_index h))
                      = Returns c).
      { apply load_data_lookup; [lia|].
        replace (Z.to_nat _) with j by lia. exact Hc. }
      rewrite Hread in Hcells.
      apply load_lookup in Hcells; [|lia].
      cbn in Hcells.
      replace (Z.to_nat (z_history_buffer_front_index h + Z.of_nat j))
        with (Z.to_nat (z_history_buffer_front_index h) + j)%nat
        in Hcells by lia.
      exact Hcells.
    + rewrite !lookup_take_ge by lia. reflexivity.
  - intros i Hi.
    specialize (Hcells i ltac:(lia)).
    destruct (Z.leb_spec (z_history_buffer_front_index h) i); [lia|].
    cbn [andb] in Hcells. exact Hcells.
Qed.

Lemma to_int16_small :
  forall p : Z, - 2 ^ 15 <= p < 2 ^ 15 -> to_int16 p = p.
Proof.
  intros p Hp. unfold to_int16, to_signed.
  change (2 ^ 16) with 65536. change (2 ^ (16 - 1)) with 32768.
  change (2 ^ 15) with 32768 in Hp.
  destruct (Z.ltb_spec (p mod 65536) 32768) as [Hlt|Hge].
  - destruct (Z_lt_le_dec p 0) as [Hneg|Hpos].
    + rewrite <- (Z.mod_add p 1 65536) in Hlt by lia.
      rewrite Z.mod_small in Hlt by lia. lia.
    + apply Z.mod_small. lia.
  - destruct (Z_lt_le_dec p 0) as [Hneg|Hpos].
    + rewrite <- (Z.mod_add p 1 65536) by lia.
      rewrite Z.mod_small by lia. lia.
    + rewrite Z.mod_small in Hge by lia. lia.
Qed.

(** X5.  On a store that has not wrapped, a record of one of the four
    types, with room for it before the end of the buffer and with
    parameters that are [int16_t] (for a colour, within -2 .. 15), is
    stored as it is: the call returns 0, the front moves by the width of
    the record (4 units for colours and paragraph attributes, 3 for
    fonts and styles), the units between the old and the new front are
    the escape, the type and the parameters plus 13, every older cell
    holds what it held, and back and wrap-arounds are as before. *)
Theorem metadata_record_is_read_back :
  forall (E : environment) (h : OUTPUTHISTORY) (t p1 p2 : Z),
    linear_store h ->
    known_metadata_type E t = true ->
    record_width E t < z_history_maximum_buffer_size h ->
    z_history_buffer_front_index h + record_width E t
    <= z_history_buffer_size h ->
    - 2 ^ 15 <= p1 < 2 ^ 15 ->
    - 2 ^ 15 <= p2 < 2 ^ 15 ->
    (t = HISTORY_METADATA_TYPE_COLOUR E ->
     -2 <= p1 <= 15 /\ -2 <= p2 <= 15) ->
    exists h' : OUTPUTHISTORY,
      store_metadata_in_history E h t [p1; p2] = Returns (0, h')
      /\ z_history_buffer_front_index h'
         = z_history_buffer_front_index h + record_width E t
      /\ units_between h' (z_history_buffer_front_index h)
           (z_history_buffer_front_index h')
         = take (Z.to_nat (record_width E t))
             [HISTORY_METADATA_ESCAPE; to_z_ucs t;
              to_z_ucs (p1 + HISTORY_METADATA_DATA_OFFSET);
              to_z_ucs (p2 + HISTORY_METADATA_DATA_OFFSET)]
      /\ (forall i : Z,
            0 <= i < z_history_buffer_front_index h ->
            load h' i = load h i)
      /\ z_history_buffer_back_index h' = z_history_buffer_back_index h
      /\ nof_wraparounds h' = nof_wraparounds h.
Proof.
  intros E h t p1 p2 Hlinear Hknown Hmax Hfits Hp1 Hp2 Hcolour.
  unfold store_metadata_in_history.
  assert (Hunknown :
            negb (t =? HISTORY_METADATA_TYPE_FONT E)
            && negb (t =? HISTORY_METADATA_TYPE_STYLE E)
            && negb (t =? HISTORY_METADATA_TYPE_COLOUR E)
            && negb (t =? HISTORY_METADATA_TYPE_PARAGRAPHATTRIBUTE E)
            = false).
  { unfold known_metadata_type in Hknown.
    destruct (t =? HISTORY_METADATA_TYPE_FONT E),
             (t =? HISTORY_METADATA_TYPE_STYLE E),
             (t =? HISTORY_METADATA_TYPE_COLOUR E),
             (t =? HISTORY_METADATA_TYPE_PARAGRAPHATTRIBUTE E);
      cbn in *; congruence. }
  rewrite Hunknown. cbn [va_arg mbind outcome_bind].
  rewrite !to_int16_small by assumption.
  assert (Hrange1 : (t =? HISTORY_METADATA_TYPE_COLOUR E)
                    && colour_out_of_range p1 = false).
  { destruct (Z.eqb_spec t (HISTORY_METADATA_TYPE_COLOUR E)) as [Ht|];
      [|reflexivity].
    destruct (Hcolour Ht) as (H1 & _). unfold colour_out_of_range.
    destruct (Z.ltb_spec p1 (-2)); [lia|].
    destruct (Z.ltb_spec 15 p1); [lia|]. reflexivity. }
  assert (Hrange2 : (t =? HISTORY_METADATA_TYPE_COLOUR E)
                    && colour_out_of_range p2 = false).
  { destruct (Z.eqb_spec t (HISTORY_METADATA_TYPE_COLOUR E)) as [Ht|];
      [|reflexivity].
    destruct (Hcolour Ht) as (_ & H2). unfold colour_out_of_range.
    destruct (Z.ltb_spec p2 (-2)); [lia|].
    destruct (Z.ltb_spec 15 p2); [lia|]. reflexivity. }
  rewrite Hrange1. cbv zeta.
  set (h1 := if t =? HISTORY_METADATA_TYPE_FONT E then _ else _).
  assert (Hh1 : linear_store h1
                /\ z_history_buffer_front_index h1
                   = z_history_buffer_front_index h
                /\ z_history_buffer_size h1 = z_history_buffer_size h
                /\ z_history_maximum_buffer_size h1
                   = z_history_maximum_buffer_size h
                /\ z_history_buffer_start h1 = z_history_buffer_start h
                /\ z_history_buffer_back_index h1
                   = z_history_buffer_back_index h
                /\ nof_wraparounds h1 = nof_wraparounds h).
  { subst h1. repeat case_match; repeat split; try reflexivity;
      apply Hlinear. }
  destruct Hh1 as (Hlinear1 & Hfront1 & Hsize1 & Hmax1 & Hstart1 & Hback1
                   & Hwraps1).
  unfold record_width in *.
  destruct ((t =? HISTORY_METADATA_TYPE_COLOUR E)
            || (t =? HISTORY_METADATA_TYPE_PARAGRAPHATTRIBUTE E)).
  - cbn [va_arg mbind outcome_bind].
    rewrite ?to_int16_small by assumption. rewrite Hrange2.
    destruct (store_data_read_back E h1
                [HISTORY_METADATA_ESCAPE; to_z_ucs t;
                 to_z_ucs (p1 + HISTORY_METADATA_DATA_OFFSET);
                 to_z_ucs (p2 + HISTORY_METADATA_DATA_OFFSET)] 4)
      as (block & Hstore & Hlength & Hunits & Hold);
      [exact Hlinear1|lia|lia|cbn; lia|].
    rewrite Hstore. cbn [mbind outcome_bind].
    eexists. split; [reflexivity|]. cbn.
    split; [congruence|]. split; [|split; [|split; congruence]].
    + unfold units_between. cbn.
      replace (z_history_buffer_front_index h1 + 4
               - z_history_buffer_front_index h) with 4 by lia.
      rewrite <- Hfront1. exact Hunits.
    + intros i Hi. rewrite <- Hfront1 in Hi.
      specialize (Hold i Hi). unfold load in *. cbn in *.
      rewrite Hold, Hstart1. reflexivity.
  - destruct (store_data_read_back E h1
                [HISTORY_METADATA_ESCAPE; to_z_ucs t;
                 to_z_ucs (p1 + HISTORY_METADATA_DATA_OFFSET);
                 indeterminate E 3] 3)
      as (block & Hstore & Hlength & Hunits & Hold);
      [exact Hlinear1|lia|lia|cbn; lia|].
    rewrite Hstore. cbn [mbind outcome_bind].
    eexists. split; [reflexivity|]. cbn.
    split; [congruence|]. split; [|split; [|split; congruence]].
    + unfold units_between. cbn.
      replace (z_history_buffer_front_index h1 + 3
               - z_history_buffer_front_index h) with 3 by lia.
      rewrite <- Hfront1. exact Hunits.
    + intros i Hi. rewrite <- Hfront1 in Hi.
      specialize (Hold i Hi). unfold load in *. cbn in *.
      rewrite Hold, Hstart1. reflexivity.
Qed.

Lemma store_metadata_in_history_unknown :
  forall (E : environment) (h : OUTPUTHISTORY) (t : Z) (ap : list Z),
    known_metadata_type E t = false ->
    store_metadata_in_history E h t ap = Returns (-1, h).
Proof.
  intros E h t ap Hknown. unfold store_metadata_in_history.
  unfold known_metadata_type in Hknown.
  destruct (t =? HISTORY_METADATA_TYPE_FONT E),
           (t =? HISTORY_METADATA_TYPE_STYLE E),
           (t =? HISTORY_METADATA_TYPE_COLOUR E),
           (t =? HISTORY_METADATA_TYPE_PARAGRAPHATTRIBUTE E);
    cbn in *; congruence.
Qed.

Lemma store_metadata_in_history_known :
  forall (E : environment) (h : OUTPUTHISTORY) (t p1 p2 : Z),
    linear_store h ->
    known_metadata_type E t = true ->
    4 < z_history_maximum_buffer_size h ->
    z_history_buffer_front_index h + 4 <= z_history_buffer_size h ->
    - 2 ^ 15 <= p1 < 2 ^ 15 ->
    - 2 ^ 15 <= p2 < 2 ^ 15 ->
    exists h' : OUTPUTHISTORY,
      store_metadata_in_history E h t [p1; p2]
      = if (t =? HISTORY_METADATA_TYPE_COLOUR E)
           && (colour_out_of_range p1 || colour_out_of_range p2)
        then Exits
        else Returns (0, h').
Proof.
  intros E h t p1 p2 Hlinear Hknown Hmax Hfits Hp1 Hp2.
  unfold store_metadata_in_history.
  assert (Hunknown :
            negb (t =? HISTORY_METADATA_TYPE_FONT E)
            && negb (t =? HISTORY_METADATA_TYPE_STYLE E)
            && negb (t =? HISTORY_METADATA_TYPE_COLOUR E)
            && negb (t =? HISTORY_METADATA_TYPE_PARAGRAPHATTRIBUTE E)
            = false).
  { unfold known_metadata_type in Hknown.
    destruct (t =? HISTORY_METADATA_TYPE_FONT E),
             (t =? HISTORY_METADATA_TYPE_STYLE E),
             (t =? HISTORY_METADATA_TYPE_COLOUR E),
             (t =? HISTORY_METADATA_TYPE_PARAGRAPHATTRIBUTE E);
      cbn in *; congruence. }
  rewrite Hunknown. cbn [va_arg mbind outcome_bind].
  rewrite ?to_int16_small by assumption.
  destruct ((t =? HISTORY_METADATA_TYPE_COLOUR E)
            && colour_out_of_range p1) eqn:Hrange1.
  { exists h. apply andb_prop in Hrange1 as (-> & ->). reflexivity. }
  cbv zeta.
  set (h1 := if t =? HISTORY_METADATA_TYPE_FONT E then _ else _).
  assert (Hlinear1 : linear_store h1
                     /\ z_history_maximum_buffer_size h1
                        = z_history_maximum_buffer_size h
                     /\ z_history_buffer_front_index h1
                        = z_history_buffer_front_index h
                     /\ z_history_buffer_size h1 = z_history_buffer_size h).
  { subst h1. repeat case_match; repeat split; try reflexivity;
      apply Hlinear. }
  destruct Hlinear1 as (Hlinear1 & Hmax1 & Hfront1 & Hsize1).
  destruct ((t =? HISTORY_METADATA_TYPE_COLOUR E)
            || (t =? HISTORY_METADATA_TYPE_PARAGRAPHATTRIBUTE E)) eqn:Hwide.
  - cbn [va_arg mbind outcome_bind].
    rewrite ?to_int16_small by assumption.
    destruct ((t =? HISTORY_METADATA_TYPE_COLOUR E)
              && colour_out_of_range p2) eqn:Hrange2.
    { exists h. apply andb_prop in Hrange2 as (-> & ->).
      rewrite orb_true_r. reflexivity. }
    destruct (store_data_read_back E h1
                [HISTORY_METADATA_ESCAPE; to_z_ucs t;
                 to_z_ucs (p1 + HISTORY_METADATA_DATA_OFFSET);
                 to_z_ucs (p2 + HISTORY_METADATA_DATA_OFFSET)] 4)
      as (block & Hstore & _); [exact Hlinear1|lia|lia|cbn; lia|].
    rewrite Hstore. cbn [mbind outcome_bind]. eexists.
    destruct (t =? HISTORY_METADATA_TYPE_COLOUR E); cbn [andb] in *;
      [rewrite Hrange1, Hrange2|]; reflexivity.
  - destruct (store_data_read_back E h1
                [HISTORY_METADATA_ESCAPE; to_z_ucs t;
                 to_z_ucs (p1 + HISTORY_METADATA_DATA_OFFSET);
                 indeterminate E 3] 3)
      as (block & Hstore & _); [exact Hlinear1|lia|lia|cbn; lia|].
    rewrite Hstore. cbn [mbind outcome_bind]. eexists.
    apply orb_false_elim in Hwide as (-> & _). reflexivity.
Qed.

(** X4.  With room for a record on a store that has not wrapped,
    [store_metadata_in_history] ends the program exactly for a colour
    with a parameter outside -2 .. 15, and returns -1 exactly for a type
    that is none of the four, leaving the store as it was. *)
Theorem metadata_exits_only_for_colours :
  forall (E : environment) (h : OUTPUTHISTORY) (t p1 p2 : Z),
    linear_store h ->
    4 < z_history_maximum_buffer_size h ->
    z_history_buffer_front_index h + 4 <= z_history_buffer_size h ->
    - 2 ^ 15 <= p1 < 2 ^ 15 ->
    - 2 ^ 15 <= p2 < 2 ^ 15 ->
    (store_metadata_in_history E h t [p1; p2] = Exits
     <-> t = HISTORY_METADATA_TYPE_COLOUR E
         /\ (colour_out_of_range p1 = true
             \/ colour_out_of_range p2 = true))
    /\ (forall h' : OUTPUTHISTORY,
          store_metadata_in_history E h t [p1; p2] = Returns (-1, h')
          <-> known_metadata_type E t = false /\ h' = h).
Proof.
  intros E h t p1 p2 Hlinear Hmax Hfits Hp1 Hp2.
  destruct (known_metadata_type E t) eqn:Hknown.
  - destruct (store_metadata_in_history_known E h t p1 p2)
      as (h0 & Hresult); try assumption.
    rewrite Hresult. split.
    + destruct (Z.eqb_spec t (HISTORY_METADATA_TYPE_COLOUR E)) as [Ht|Ht];
        cbn [andb].
      * destruct (colour_out_of_range p1), (colour_out_of_range p2);
          cbn [orb]; split; intros H'; try discriminate; try reflexivity;
          try (split; [exact Ht|]; auto).
        destruct H' as (_ & [H'|H']); discriminate.
      * split; [discriminate|]. intros (H' & _). contradiction.
    + intros h'. split; [|intros (H' & _); discriminate].
      destruct ((t =? HISTORY_METADATA_TYPE_COLOUR E)
                && (colour_out_of_range p1 || colour_out_of_range p2));
        intros H'; discriminate.
  - rewrite store_metadata_in_history_unknown by exact Hknown. split.
    + split; [discriminate|]. intros (Ht & _).
      unfold known_metadata_type in Hknown. rewrite Ht, Z.eqb_refl in Hknown.
      rewrite orb_true_r in Hknown. discriminate.
    + intros h'. split.
      * intros H'. split; [reflexivity|]. congruence.
      * intros (_ & ->). reflexivity.
Qed.

(** * The state block *)

Lemma store_metadata_in_history_linear :
  forall (E : environment) (h : OUTPUTHISTORY) (t p1 p2 : Z),
    linear_store h ->
    known_metadata_type E t = true ->
    record_width E t < z_history_maximum_buffer_size h ->
    z_history_buffer_front_index h + record_width E t
    <= z_history_buffer_size h ->
    - 2 ^ 15 <= p1 < 2 ^ 15 ->
    - 2 ^ 15 <= p2 < 2 ^ 15 ->
    (t = HISTORY_METADATA_TYPE_COLOUR E ->
     -2 <= p1 <= 15 /\ -2 <= p2 <= 15) ->
    exists block : list Z,
      store_metadata_in_history E h t [p1; p2]
      = Returns
          (0, set_z_history_buffer_front_index
                (z_history_buffer_front_index h + record_width E t)
                (set_z_history_buffer_start block
                   (with_front_state E t p1 h)))
      /\ length block = length (z_history_buffer_start h)
      /\ take (Z.to_nat (record_width E t))
           (drop (Z.to_nat (z_history_buffer_front_index h)) block)
         = take (Z.to_nat (record_width E t))
             [HISTORY_METADATA_ESCAPE; to_z_ucs t;
              to_z_ucs (p1 + HISTORY_METADATA_DATA_OFFSET);
              to_z_ucs (p2 + HISTORY_METADATA_DATA_OFFSET)]
      /\ forall i : nat,
           (i < Z.to_nat (z_history_buffer_front_index h))%nat ->
           block !! i = z_history_buffer_start h !! i.
Proof.
  intros E h t p1 p2 Hlinear Hknown Hmax Hfits Hp1 Hp2 Hcolour.
  unfold store_metadata_in_history.
  assert (Hunknown :
            negb (t =? HISTORY_METADATA_TYPE_FONT E)
            && negb (t =? HISTORY_METADATA_TYPE_STYLE E)
            && negb (t =? HISTORY_METADATA_TYPE_COLOUR E)
            && negb (t =? HISTORY_METADATA_TYPE_PARAGRAPHATTRIBUTE E)
            = false).
  { unfold known_metadata_type in Hknown.
    destruct (t =? HISTORY_METADATA_TYPE_FONT E),
             (t =? HISTORY_METADATA_TYPE_STYLE E),
             (t =? HISTORY_METADATA_TYPE_COLOUR E),
             (t =? HISTORY_METADATA_TYPE_PARAGRAPHATTRIBUTE E);
      cbn in *; congruence. }
  rewrite Hunknown. cbn [va_arg mbind outcome_bind].
  rewrite !to_int16_small by assumption.
  assert (Hrange1 : (t =? HISTORY_METADATA_TYPE_COLOUR E)
                    && colour_out_of_range p1 = false).
  { destruct (Z.eqb_spec t (HISTORY_METADATA_TYPE_COLOUR E)) as [Ht|];
      [|reflexivity].
    destruct (Hcolour Ht) as (H1 & _). unfold colour_out_of_range.
    destruct (Z.ltb_spec p1 (-2)); [lia|].
    destruct (Z.ltb_spec 15 p1); [lia|]. reflexivity. }
  assert (Hrange2 : (t =? HISTORY_METADATA_TYPE_COLOUR E)
                    && colour_out_of_range p2 = false).
  { destruct (Z.eqb_spec t (HISTORY_METADATA_TYPE_COLOUR E)) as [Ht|];
      [|reflexivity].
    destruct (Hcolour Ht) as (_ & H2). unfold colour_out_of_range.
    destruct (Z.ltb_spec p2 (-2)); [lia|].
    destruct (Z.ltb_spec 15 p2); [lia|]. reflexivity. }
  rewrite Hrange1. cbv zeta.
  set (h1 := if t =? HISTORY_METADATA_TYPE_FONT E then _ else _).
  assert (Hstate : h1 = with_front_state E t p1 h).
  { unfold with_front_state, to_z_font, to_z_style, to_z_colour.
    rewrite !to_int16_small by assumption. reflexivity. }
  clearbody h1. subst h1.
  set (h1 := with_front_state E t p1 h).
  assert (Hh1 : linear_store h1
                /\ z_history_buffer_front_index h1
                   = z_history_buffer_front_index h
                /\ z_history_buffer_size h1 = z_history_buffer_size h
                /\ z_history_maximum_buffer_size h1
                   = z_history_maximum_buffer_size h
                /\ z_history_buffer_start h1 = z_history_buffer_start h).
  { subst h1. unfold with_front_state.
    repeat case_match; repeat split; try reflexivity; apply Hlinear. }
  destruct Hh1 as (Hlinear1 & Hfront1 & Hsize1 & Hmax1 & Hstart1).
  assert (Hold :
            forall block : list Z,
              length block = length (z_history_buffer_start h1) ->
              (forall i : Z,
                  0 <= i < z_history_buffer_front_index h1 ->
                  load (set_z_history_buffer_start block h1) i = load h1 i) ->
              forall i : nat,
                (i < Z.to_nat (z_history_buffer_front_index h))%nat ->
                block !! i = z_history_buffer_start h !! i).
  { intros block Hlength Hloads i Hi.
    destruct Hlinear1 as (? & ? & ? & Hblock1 & ? & ?).
    destruct (lookup_lt_is_Some_2 (z_history_buffer_start h1) i ltac:(lia))
      as (c & Hc).
    rewrite <- Hstart1, Hc.
    specialize (Hloads (Z.of_nat i) ltac:(lia)).
    assert (Hread : load h1 (Z.of_nat i) = Returns c).
    { apply load_lookup; [lia|]. now rewrite Nat2Z.id. }
    rewrite Hread in Hloads. apply load_lookup in Hloads; [|lia].
    cbn in Hloads. now rewrite Nat2Z.id in Hloads. }
  unfold record_width in *.
  destruct ((t =? HISTORY_METADATA_TYPE_COLOUR E)
            || (t =? HISTORY_METADATA_TYPE_PARAGRAPHATTRIBUTE E)).
  - cbn [va_arg mbind outcome_bind].
    rewrite ?to_int16_small by assumption. rewrite Hrange2.
    destruct (store_data_read_back E h1
                [HISTORY_METADATA_ESCAPE; to_z_ucs t;
                 to_z_ucs (p1 + HISTORY_METADATA_DATA_OFFSET);
                 to_z_ucs (p2 + HISTORY_METADATA_DATA_OFFSET)] 4)
      as (block & Hstore & Hlength & Hunits & Hloads);
      [exact Hlinear1|lia|lia|cbn; lia|].
    rewrite Hstore. cbn [mbind outcome_bind].
    exists block. rewrite Hfront1 in Hunits. rewrite Hfront1.
    split; [reflexivity|]. split; [congruence|]. split; [exact Hunits|].
    apply Hold; [exact Hlength|exact Hloads].
  - destruct (store_data_read_back E h1
                [HISTORY_METADATA_ESCAPE; to_z_ucs t;
                 to_z_ucs (p1 + HISTORY_METADATA_DATA_OFFSET);
                 indeterminate E 3] 3)
      as (block & Hstore & Hlength & Hunits & Hloads);
      [exact Hlinear1|lia|lia|cbn; lia|].
    rewrite Hstore. cbn [mbind outcome_bind].
    exists block. rewrite Hfront1 in Hunits. rewrite Hfront1.
    split; [reflexivity|]. split; [congruence|]. split; [exact Hunits|].
    apply Hold; [exact Hlength|exact Hloads].
Qed.

(** A record of three units takes one parameter. *)
Lemma store_metadata_in_history_one_parameter :
  forall (E : environment) (h : OUTPUTHISTORY) (t p1 p2 : Z),
    record_width E t = 3 ->
    store_metadata_in_history E h t [p1]
    = store_metadata_in_history E h t [p1; p2].
Proof.
  intros E h t p1 p2 Hwidth. unfold record_width in Hwidth.
  unfold store_metadata_in_history.
  destruct ((t =? HISTORY_METADATA_TYPE_COLOUR E)
            || (t =? HISTORY_METADATA_TYPE_PARAGRAPHATTRIBUTE E)) eqn:Hwide;
    [discriminate|].
  apply orb_false_elim in Hwide as (Hc & Hp). rewrite Hc, Hp.
  cbn [va_arg mbind outcome_bind andb orb]. reflexivity.
Qed.

Lemma segment_kept :
  forall (l l' : list Z) (f a k : nat),
    (forall i : nat, (i < k)%nat -> l' !! i = l !! i) ->
    (f + a <= k)%nat ->
    take a (drop f l') = take a (drop f l).
Proof.
  intros l l' f a k Hsame Hk. apply list_eq. intros j.
  destruct (decide (j < a)%nat).
  - rewrite !lookup_take_lt, !lookup_drop by lia. apply Hsame. lia.
  - rewrite !lookup_take_ge by lia. reflexivity.
Qed.

Lemma distinct_types_apart :
  forall E : environment,
    distinct_types E ->
    HISTORY_METADATA_TYPE_FONT E <> HISTORY_METADATA_TYPE_STYLE E
    /\ HISTORY_METADATA_TYPE_FONT E <> HISTORY_METADATA_TYPE_COLOUR E
    /\ HISTORY_METADATA_TYPE_FONT E
       <> HISTORY_METADATA_TYPE_PARAGRAPHATTRIBUTE E
    /\ HISTORY_METADATA_TYPE_STYLE E <> HISTORY_METADATA_TYPE_COLOUR E
    /\ HISTORY_METADATA_TYPE_STYLE E
       <> HISTORY_METADATA_TYPE_PARAGRAPHATTRIBUTE E.
Proof.
  intros E Hdistinct. unfold distinct_types in Hdistinct.
  rewrite !NoDup_cons, !not_elem_of_cons in Hdistinct.
  destruct Hdistinct as (_ & (Hfs & Hfc & Hfp & _) & (Hsc & Hsp & _) & _).
  auto.
Qed.

(** X20.  When the front has left the block of the last state block,
    and the types of record are four different numbers, on a store that
    has not wrapped and has room for ten units
    [write_metadata_state_block_if_necessary] writes three records at
    the front: the font, the style and the colours of the state at the
    back of the buffer.  The state at the front takes that font, that
    style and that foreground, the block is noted as the one of the
    front before the records, and every older cell holds what it
    held. *)
Theorem state_block_holds_the_back_state :
  forall (E : environment) (h : OUTPUTHISTORY),
    linear_store h ->
    distinct_types E ->
    Z_HISTORY_METADATA_STATE_BLOCK_SIZE E <> 0 ->
    z_history_buffer_front_index h
    - Z.rem (z_history_buffer_front_index h)
        (Z_HISTORY_METADATA_STATE_BLOCK_SIZE E)
    <> last_metadata_block_index h ->
    10 < z_history_maximum_buffer_size h ->
    z_history_buffer_front_index h + 10 <= z_history_buffer_size h ->
    - 2 ^ 15 <= history_buffer_back_index_font h < 2 ^ 15 ->
    - 2 ^ 15 <= history_buffer_back_index_style h < 2 ^ 15 ->
    -2 <= history_buffer_back_index_foreground h <= 15 ->
    -2 <= history_buffer_back_index_background h <= 15 ->
    exists h' : OUTPUTHISTORY,
      write_metadata_state_block_if_necessary E h = Returns h'
      /\ z_history_buffer_front_index h'
         = z_history_buffer_front_index h + 10
      /\ units_between h' (z_history_buffer_front_index h)
           (z_history_buffer_front_index h')
         = [HISTORY_METADATA_ESCAPE;
            to_z_ucs (HISTORY_METADATA_TYPE_FONT E);
            to_z_ucs (history_buffer_back_index_font h
                      + HISTORY_METADATA_DATA_OFFSET);
            HISTORY_METADATA_ESCAPE;
            to_z_ucs (HISTORY_METADATA_TYPE_STYLE E);
            to_z_ucs (history_buffer_back_index_style h
                      + HISTORY_METADATA_DATA_OFFSET);
            HISTORY_METADATA_ESCAPE;
            to_z_ucs (HISTORY_METADATA_TYPE_COLOUR E);
            to_z_ucs (history_buffer_back_index_foreground h
                      + HISTORY_METADATA_DATA_OFFSET);
            to_z_ucs (history_buffer_back_index_background h
                      + HISTORY_METADATA_DATA_OFFSET)]
      /\ last_metadata_block_index h'
         = z_history_buffer_front_index h
           - Z.rem (z_history_buffer_front_index h)
               (Z_HISTORY_METADATA_STATE_BLOCK_SIZE E)
      /\ (history_buffer_front_index_font h',
          history_buffer_front_index_style h',
          history_buffer_front_index_foreground h')
         = (history_buffer_back_index_font h,
            history_buffer_back_index_style h,
            history_buffer_back_index_foreground h)
      /\ forall i : nat,
           (i < Z.to_nat (z_history_buffer_front_index h))%nat ->
           z_history_buffer_start h' !! i = z_history_buffer_start h !! i.
Proof.
  intros E h Hlinear Hdistinct Hblock Hcrossed Hmax Hfits Hfont Hstyle Hfg Hbg.
  pose proof Hlinear as (Hsize & Hmax64 & Hend & Hlength & Hwraps & Hfront).
  destruct (distinct_types_apart E Hdistinct)
    as (Hfs & Hfc & Hfp & Hsc & Hsp).
  assert (Hwidth_font : record_width E (HISTORY_METADATA_TYPE_FONT E) = 3).
  { unfold record_width.
    destruct (Z.eqb_spec (HISTORY_METADATA_TYPE_FONT E)
                (HISTORY_METADATA_TYPE_COLOUR E)); [contradiction|].
    destruct (Z.eqb_spec (HISTORY_METADATA_TYPE_FONT E)
                (HISTORY_METADATA_TYPE_PARAGRAPHATTRIBUTE E));
      [contradiction|reflexivity]. }
  assert (Hwidth_style : record_width E (HISTORY_METADATA_TYPE_STYLE E) = 3).
  { unfold record_width.
    destruct (Z.eqb_spec (HISTORY_METADATA_TYPE_STYLE E)
                (HISTORY_METADATA_TYPE_COLOUR E)); [contradiction|].
    destruct (Z.eqb_spec (HISTORY_METADATA_TYPE_STYLE E)
                (HISTORY_METADATA_TYPE_PARAGRAPHATTRIBUTE E));
      [contradiction|reflexivity]. }
  assert (Hwidth_colour :
            record_width E (HISTORY_METADATA_TYPE_COLOUR E) = 4).
  { unfold record_width. rewrite Z.eqb_refl. reflexivity. }
  assert (Hknown_font :
            known_metadata_type E (HISTORY_METADATA_TYPE_FONT E) = true).
  { unfold known_metadata_type. rewrite Z.eqb_refl. reflexivity. }
  assert (Hknown_style :
            known_metadata_type E (HISTORY_METADATA_TYPE_STYLE E) = true).
  { unfold known_metadata_type. rewrite Z.eqb_refl.
    rewrite orb_true_r. reflexivity. }
  assert (Hknown_colour :
            known_metadata_type E (HISTORY_METADATA_TYPE_COLOUR E) = true).
  { unfold known_metadata_type. rewrite Z.eqb_refl.
    rewrite orb_true_r. reflexivity. }
  assert (Hstate_font :
            forall p g,
              with_front_state E (HISTORY_METADATA_TYPE_FONT E) p g
              = set_history_buffer_front_index_font (to_z_font p) g).
  { intros p g. unfold with_front_state. now rewrite Z.eqb_refl. }
  assert (Hstate_style :
            forall p g,
              with_front_state E (HISTORY_METADATA_TYPE_STYLE E) p g
              = set_history_buffer_front_index_style (to_z_style p) g).
  { intros p g. unfold with_front_state.
    destruct (Z.eqb_spec (HISTORY_METADATA_TYPE_STYLE E)
                (HISTORY_METADATA_TYPE_FONT E)); [congruence|].
    now rewrite Z.eqb_refl. }
  assert (Hstate_colour :
            forall p g,
              with_front_state E (HISTORY_METADATA_TYPE_COLOUR E) p g
              = set_history_buffer_front_index_foreground (to_z_colour p) g).
  { intros p g. unfold with_front_state.
    destruct (Z.eqb_spec (HISTORY_METADATA_TYPE_COLOUR E)
                (HISTORY_METADATA_TYPE_FONT E)); [congruence|].
    destruct (Z.eqb_spec (HISTORY_METADATA_TYPE_COLOUR E)
                (HISTORY_METADATA_TYPE_STYLE E)); [congruence|].
    now rewrite Z.eqb_refl. }
  unfold write_metadata_state_block_if_necessary.
  destruct (Z.eqb_spec (Z_HISTORY_METADATA_STATE_BLOCK_SIZE E) 0);
    [contradiction|].
  cbv zeta.
  destruct (Z.eqb_spec
              (z_history_buffer_front_index h
               - Z.rem (z_history_buffer_front_index h)
                   (Z_HISTORY_METADATA_STATE_BLOCK_SIZE E))
              (last_metadata_block_index h)); [contradiction|].
  cbn [negb].
  (* the font *)
  rewrite (store_metadata_in_history_one_parameter E h _ _ 0 Hwidth_font).
  destruct (store_metadata_in_history_linear E h
              (HISTORY_METADATA_TYPE_FONT E)
              (history_buffer_back_index_font h) 0)
    as (block1 & Hrun1 & Hlength1 & Hunits1 & Hold1);
    [exact Hlinear|exact Hknown_font|lia|lia|exact Hfont|lia
    |intros Heq; congruence|].
  rewrite Hwidth_font, Hstate_font in *.
  rewrite Hrun1. cbn [mbind outcome_bind].
  match type of Hrun1 with
  | _ = Returns (0, ?g) => set (h1 := g) in *
  end.
  assert (Hlinear1 : linear_store h1).
  { unfold linear_store. subst h1. cbn. rewrite Hlength1.
    split; [exact Hsize|]. split; [exact Hmax64|]. split; [exact Hend|].
    split; [exact Hlength|]. split; [exact Hwraps|lia]. }
  change (history_buffer_back_index_style h1)
    with (history_buffer_back_index_style h).
  (* the style *)
  rewrite (store_metadata_in_history_one_parameter E h1 _ _ 0 Hwidth_style).
  destruct (store_metadata_in_history_linear E h1
              (HISTORY_METADATA_TYPE_STYLE E)
              (history_buffer_back_index_style h) 0)
    as (block2 & Hrun2 & Hlength2 & Hunits2 & Hold2);
    [exact Hlinear1|exact Hknown_style
    |rewrite Hwidth_style; subst h1; cbn; lia
    |rewrite Hwidth_style; subst h1; cbn; lia|exact Hstyle|lia
    |intros Heq; congruence|].
  rewrite Hwidth_style, Hstate_style in *.
  rewrite Hrun2. cbn [mbind outcome_bind].
  match type of Hrun2 with
  | _ = Returns (0, ?g) => set (h2 := g) in *
  end.
  assert (Hlinear2 : linear_store h2).
  { unfold linear_store. subst h2 h1. cbn in *.
    rewrite Hlength2, Hlength1.
    split; [exact Hsize|]. split; [exact Hmax64|]. split; [exact Hend|].
    split; [exact Hlength|]. split; [exact Hwraps|lia]. }
  change (history_buffer_back_index_foreground h2)
    with (history_buffer_back_index_foreground h).
  change (history_buffer_back_index_background h2)
    with (history_buffer_back_index_background h).
  (* the colours *)
  destruct (store_metadata_in_history_linear E h2
              (HISTORY_METADATA_TYPE_COLOUR E)
              (history_buffer_back_index_foreground h)
              (history_buffer_back_index_background h))
    as (block3 & Hrun3 & Hlength3 & Hunits3 & Hold3);
    [exact Hlinear2|exact Hknown_colour
    |rewrite Hwidth_colour; subst h2 h1; cbn; lia
    |rewrite Hwidth_colour; subst h2 h1; cbn; lia|lia|lia
    |intros _; split; assumption|].
  rewrite Hwidth_colour, Hstate_colour in *.
  rewrite Hrun3. cbn [mbind outcome_bind].
  eexists. split; [reflexivity|].
  subst h2 h1. cbn in *.
  set (F := Z.to_nat (z_history_buffer_front_index h)) in *.
  replace (Z.to_nat (z_history_buffer_front_index h + 3))
    with (F + 3)%nat in * by lia.
  replace (Z.to_nat (z_history_buffer_front_index h + 3 + 3))
    with (F + 3 + 3)%nat in * by lia.
  split; [lia|]. split.
  - unfold units_between. cbn. fold F.
    replace (Z.to_nat (z_history_buffer_front_index h + 3 + 3 + 4
                       - z_history_buffer_front_index h))
      with (3 + (3 + 4))%nat by lia.
    rewrite <- (take_take_drop (drop F block3) 3 (3 + 4)).
    rewrite <- (take_take_drop (drop 3 (drop F block3)) 3 4).
    rewrite !drop_drop.
    rewrite (segment_kept block2 block3 F 3 (F + 3 + 3)) by (exact Hold3 || lia).
    rewrite (segment_kept block1 block2 F 3 (F + 3)) by (exact Hold2 || lia).
    rewrite (segment_kept block2 block3 (F + 3) 3 (F + 3 + 3))
      by (exact Hold3 || lia).
    change (Z.to_nat 3) with 3%nat in *.
    change (Z.to_nat 4) with 4%nat in *.
    rewrite Hunits1, Hunits2, Hunits3. reflexivity.
  - split; [reflexivity|]. split.
    + unfold to_z_font, to_z_style, to_z_colour.
      rewrite !to_int16_small by lia. reflexivity.
    + intros i Hi. rewrite Hold3 by lia. rewrite Hold2 by lia.
      apply Hold1. exact Hi.
Qed.

(** * The iterator

    ** What the operations leave alone *)

Lemma untouched_refl :
  forall output : history_output, untouched output output.
Proof. intros output. repeat split. Qed.

Lemma untouched_trans :
  forall o1 o2 o3 : history_output,
    untouched o1 o2 -> untouched o2 o3 -> untouched o1 o3.
Proof.
  unfold untouched. intros o1 o2 o3 (? & ? & ? & ?) (? & ? & ? & ?).
  split; [congruence|]. split; [congruence|]. split; congruence.
Qed.

Lemma evaluate_metadata_search_untouched :
  forall (E : environment) (fuel : nat) (h : OUTPUTHISTORY)
         (output output' : history_output) (index wraps : Z)
         (i2 i3 : option Z),
    evaluate_metadata_search E fuel h output index wraps i2 i3
    = Returns output' ->
    untouched output output'.
Proof.
  intros E fuel h. induction fuel as [|fuel IH];
    intros output output' index wraps i2 i3 Hrun;
    cbn [evaluate_metadata_search] in Hrun.
  - destruct (metadata_unresolved output); [discriminate|].
    simplify_eq. apply untouched_refl.
  - destruct (metadata_unresolved output);
      [|simplify_eq; apply untouched_refl].
    destruct (decrement_buffer_pointer h index wraps) as [[p w]|].
    + unfold mbind, outcome_bind in Hrun. cbv zeta in Hrun.
      repeat case_match; simplify_eq;
        match goal with
        | H : evaluate_metadata_search _ _ _ _ _ _ _ _ = Returns _ |- _ =>
            apply IH in H; exact H
        end.
    + simplify_eq. unfold fill_in_at_end_of_buffer.
      repeat case_match; repeat split.
Qed.

Lemma evaluate_metadata_for_paragraph_untouched :
  forall (E : environment) (h : OUTPUTHISTORY)
         (output output' : history_output),
    evaluate_metadata_for_paragraph E h output = Returns output' ->
    untouched output output'.
Proof.
  intros E h output output' Hrun.
  unfold evaluate_metadata_for_paragraph in Hrun.
  unfold mbind, outcome_bind in Hrun. cbv zeta in Hrun.
  destruct (validate_unless_disabled h output); try discriminate.
  destruct (metadata_at_index_evaluated output);
    [simplify_eq; apply untouched_refl|].
  destruct (_ =? 0); [discriminate|].
  destruct (_ && _).
  - simplify_eq. repeat split.
  - destruct (evaluate_metadata_search _ _ _ _ _ _ _ _) as [o| | |] eqn:Hs;
      try discriminate.
    apply evaluate_metadata_search_untouched in Hs. simplify_eq. exact Hs.
Qed.

Lemma rewind_first_part_untouched :
  forall (h : OUTPUTHISTORY) (output : history_output)
         (refs : rewind_references) (start : rewind_start),
    rewind_first_part h output refs = Returns start ->
    match start with
    | rewind_return _ output' _ => untouched output output'
    | rewind_from output' _ _ => untouched output output'
    end.
Proof.
  intros h output refs start Hstart.
  unfold rewind_first_part, mbind, outcome_bind in Hstart.
  cbv zeta in Hstart.
  repeat case_match; simplify_eq; repeat split.
Qed.

Lemma output_rewind_paragraph_untouched :
  forall (E : environment) (h : OUTPUTHISTORY)
         (output output' : history_output) (refs refs' : rewind_references)
         (result : Z),
    output_rewind_paragraph E h output refs
    = Returns (result, output', refs') ->
    untouched output output'.
Proof.
  intros E h output output' refs refs' result Hrun.
  unfold output_rewind_paragraph in Hrun.
  unfold mbind, outcome_bind in Hrun.
  destruct (validate_unless_disabled h output); try discriminate.
  destruct (_ =? 0); [simplify_eq; apply untouched_refl|].
  destruct (found_end_of_buffer output);
    [simplify_eq; apply untouched_refl|].
  destruct (rewind_first_part h output refs) as [start| | |] eqn:Hstart;
    try discriminate.
  apply rewind_first_part_untouched in Hstart.
  destruct start as [r o rf|o index wraps]; [simplify_eq; exact Hstart|].
  destruct (rewind_to_newline _ _ _ _ _ _ _ _ _) as [[found rf]| | |];
    try discriminate.
  destruct found as [[[last_index last_wraps] nof_chars]|].
  - destruct (evaluate_metadata_for_paragraph E h _) as [o1| | |] eqn:He;
      try discriminate.
    apply evaluate_metadata_for_paragraph_untouched in He.
    simplify_eq. eapply untouched_trans; [exact Hstart|exact He].
  - simplify_eq. exact Hstart.
Qed.

Lemma repeat_metadata_untouched :
  forall (E : environment) (h : OUTPUTHISTORY)
         (output output' : history_output) (output_ptr : Z)
         (include_metadata : bool) (metadata_type output_ptr' : Z),
    repeat_metadata E h output output_ptr include_metadata
    = Returns (output', metadata_type, output_ptr') ->
    untouched output output'.
Proof.
  intros E h output output' output_ptr include_metadata metadata_type
         output_ptr' Hrun.
  unfold repeat_metadata, mbind, outcome_bind in Hrun. cbv zeta in Hrun.
  repeat case_match; simplify_eq; repeat split.
Qed.

Lemma repeat_paragraphs_loop_untouched :
  forall (E : environment) (fuel : nat) (h : OUTPUTHISTORY)
         (output output' : history_output) (n output_ptr : Z)
         (output_buf : list Z) (metadata_type : Z) (include_metadata : bool)
         (n' output_ptr' : Z),
    repeat_paragraphs_loop E fuel h output n output_ptr output_buf
      metadata_type include_metadata
    = Returns (output', n', output_ptr') ->
    untouched output output'.
Proof.
  intros E fuel h. induction fuel as [|fuel IH];
    intros output output' n output_ptr output_buf metadata_type
           include_metadata n' output_ptr' Hrun;
    cbn [repeat_paragraphs_loop] in Hrun.
  - destruct (0 <? n); [discriminate|]. simplify_eq. apply untouched_refl.
  - destruct (0 <? n); [|simplify_eq; apply untouched_refl].
    unfold mbind, outcome_bind in Hrun. cbv zeta in Hrun.
    destruct (load h output_ptr) as [c| | |]; try discriminate.
    destruct (_ || _).
    + destruct (output_ptr =? _); [simplify_eq; repeat split|].
      destruct (_ <? 1); [simplify_eq; repeat split|].
      destruct (c =? HISTORY_METADATA_ESCAPE).
      * destruct (repeat_metadata E h _ output_ptr include_metadata)
          as [[[o t] p]| | |] eqn:Hm; try discriminate.
        apply repeat_metadata_untouched in Hm.
        destruct (if t =? -1 then load h p else Returns c) as [unit| | |];
          try discriminate.
        apply IH in Hrun.
        eapply untouched_trans; [exact Hm|exact Hrun].
      * apply IH in Hrun. exact Hrun.
    + apply IH in Hrun. exact Hrun.
Qed.

Lemma output_repeat_paragraphs_untouched :
  forall (E : environment) (h : OUTPUTHISTORY)
         (output output' : history_output) (n result : Z)
         (include_metadata advance : bool),
    output_repeat_paragraphs E h output n include_metadata advance
    = Returns (result, output') ->
    untouched output output'.
Proof.
  intros E h output output' n result include_metadata advance Hrun.
  unfold output_repeat_paragraphs in Hrun.
  unfold mbind, outcome_bind in Hrun. cbv zeta in Hrun.
  destruct (validate_unless_disabled h output); try discriminate.
  assert (Hfirst :
            forall o1,
              (if include_metadata
               then evaluate_metadata_for_paragraph E h output
               else Returns output) = Returns o1 ->
              untouched output o1).
  { intros o1 H1. destruct include_metadata.
    - now apply evaluate_metadata_for_paragraph_untouched in H1.
    - simplify_eq. apply untouched_refl. }
  destruct (if include_metadata then _ else _) as [o1| | |];
    try discriminate.
  specialize (Hfirst o1 eq_refl).
  match type of Hrun with
  | match (if ?c then _ else repeat_paragraphs_loop ?E' ?f ?h' ?o ?n0 ?p ?b
                              ?t ?i) with _ => _ end = _ =>
      assert (Hloop :
                forall o2 n2 p2,
                  (if c then Returns (o, -1, p)
                   else repeat_paragraphs_loop E' f h' o n0 p b t i)
                  = Returns (o2, n2, p2) ->
                  untouched output o2);
      [intros o2 n2 p2 H2; destruct c;
       [simplify_eq; destruct advance; exact Hfirst
       |apply repeat_paragraphs_loop_untouched in H2;
        eapply untouched_trans; [|exact H2];
        destruct advance; exact Hfirst]|];
      destruct (if c then Returns (o, -1, p)
                else repeat_paragraphs_loop E' f h' o n0 p b t i)
        as [[[o2 n2] p2]| | |]; try discriminate
  end.
  specialize (Hloop o2 n2 p2 eq_refl).
  destruct advance; [|simplify_eq; exact Hloop].
  repeat case_match; simplify_eq; exact Hloop.
Qed.

Lemma reads_untouched :
  forall (E : environment) (h : OUTPUTHISTORY)
         (output output' : history_output),
    reads E h output output' -> untouched output output'.
Proof.
  intros E h output output' [o o' refs refs' r Hrun|o o' n r im adv Hrun
                            |o o' Hrun].
  - eapply output_rewind_paragraph_untouched; exact Hrun.
  - eapply output_repeat_paragraphs_untouched; exact Hrun.
  - eapply evaluate_metadata_for_paragraph_untouched; exact Hrun.
Qed.

Lemma rtc_reads_untouched :
  forall (E : environment) (h : OUTPUTHISTORY)
         (output output' : history_output),
    rtc (reads E h) output output' -> untouched output output'.
Proof.
  intros E h output output' Hsteps.
  induction Hsteps as [|o1 o2 o3 Hstep _ IH]; [apply untouched_refl|].
  eapply untouched_trans; [|exact IH].
  eapply reads_untouched; exact Hstep.
Qed.

Lemma moves_validity :
  forall (E : environment) (h : OUTPUTHISTORY)
         (output output' : history_output),
    moves E h output output' -> validity output' = validity output.
Proof.
  intros E h output output' [o o' Hreads|o o' Hrun|o o' Hrun].
  - apply reads_untouched in Hreads. apply Hreads.
  - unfold remember_history_output_position, mbind, outcome_bind in Hrun.
    destruct (validate_unless_disabled h o); try discriminate.
    simplify_eq. reflexivity.
  - unfold restore_history_output_position, mbind, outcome_bind in Hrun.
    destruct (validate_unless_disabled h o); try discriminate.
    simplify_eq. reflexivity.
Qed.

Lemma rtc_moves_validity :
  forall (E : environment) (h : OUTPUTHISTORY)
         (output output' : history_output),
    rtc (moves E h) output output' -> validity output' = validity output.
Proof.
  intros E h output output' Hsteps.
  induction Hsteps as [|o1 o2 o3 Hstep _ IH]; [reflexivity|].
  apply moves_validity in Hstep. congruence.
Qed.

(** X6.  An iterator that [init_history_output] made for a store passes
    the validation on that store, and keeps passing it through any
    sequence of rewinds, repetitions, evaluations of metadata, remembers
    and restores: none of them assigns a field that the validation
    compares. *)
Theorem iterator_stays_valid :
  forall (E : environment) (uninitialised : history_output)
         (h : OUTPUTHISTORY) (output_init_flags : Z)
         (output output' : history_output),
    init_history_output E uninitialised h output_init_flags = Some output ->
    rtc (moves E h) output output' ->
    validity output' = validity output
    /\ validate_outputhistory h output' = Returns tt
    /\ validate_unless_disabled h output' = Returns tt.
Proof.
  intros E uninitialised h output_init_flags output output' Hinit Hsteps.
  apply rtc_moves_validity in Hsteps.
  apply init_history_output_captures in Hinit as ((Hwraps & Hfront) & _).
  unfold validity in Hsteps.
  assert (Hvalid : validate_outputhistory h output' = Returns tt).
  { unfold validate_outputhistory.
    replace (validity_wraparounds output') with (validity_wraparounds output)
      by congruence.
    replace (validity_frontindex output') with (validity_frontindex output)
      by congruence.
    rewrite Hwraps, Hfront, !Z.eqb_refl. reflexivity. }
  split; [exact Hsteps|]. split; [exact Hvalid|].
  unfold validate_unless_disabled. rewrite Hvalid.
  destruct (negb _); reflexivity.
Qed.

(** X7.  After remember, any sequence of rewinds, repetitions and
    evaluations of metadata, and then restore, the fields that remember
    saves are those of the iterator before remember: the index, the
    flags [found_end_of_buffer], [first_iteration_done],
    [rewound_paragraph_was_newline_terminated] and
    [metadata_at_index_evaluated], the state at the index and the cache
    of the last state.  What remember does not save, or restore does not
    assign, is as the operations in between left it: the flag
    [dont_skip_newline], on which the next rewind branches, the counter
    of wrap-arounds, [last_paragraph_attribute_index] and the calls of
    the target. *)
Theorem restore_returns_to_remembered_position :
  forall (E : environment) (h : OUTPUTHISTORY)
         (output remembered moved restored : history_output),
    remember_history_output_position h output = Returns remembered ->
    rtc (reads E h) remembered moved ->
    restore_history_output_position h moved = Returns restored ->
    position restored = position output
    /\ validity restored = validity output
    /\ dont_skip_newline restored = dont_skip_newline moved
    /\ output_nof_wraparounds restored = output_nof_wraparounds moved
    /\ last_paragraph_attribute_index restored
       = last_paragraph_attribute_index moved
    /\ target restored = target moved.
Proof.
  intros E h output remembered moved restored Hremember Hsteps Hrestore.
  apply rtc_reads_untouched in Hsteps as (Hvalidity & Hsaved & _).
  unfold remember_history_output_position, mbind, outcome_bind in Hremember.
  destruct (validate_unless_disabled h output); try discriminate.
  unfold restore_history_output_position, mbind, outcome_bind in Hrestore.
  destruct (validate_unless_disabled h moved); try discriminate.
  injection Hremember as <-. injection Hrestore as <-.
  unfold saved_position in Hsaved. cbn in Hsaved.
  unfold validity in *. cbn in Hvalidity.
  unfold position, state_at_index. cbn.
  injection Hsaved as -> -> -> -> -> -> -> -> -> -> -> -> -> ->.
  split; [reflexivity|]. split; [exact Hvalidity|].
  repeat split.
Qed.

Lemma validate_unless_disabled_validity :
  forall (h : OUTPUTHISTORY) (output output' : history_output),
    validity output' = validity output ->
    validate_unless_disabled h output' = validate_unless_disabled h output.
Proof.
  intros h output output' Hvalidity. unfold validity in Hvalidity.
  injection Hvalidity as Hw Hf Hd.
  unfold validate_unless_disabled, validate_outputhistory.
  rewrite Hw, Hf, Hd. reflexivity.
Qed.

Lemma rewind_first_part_result :
  forall (h : OUTPUTHISTORY) (output output' : history_output)
         (refs refs' : rewind_references) (result : Z),
    rewind_first_part h output refs
    = Returns (rewind_return result output' refs') ->
    result = 0 \/ result = -3 \/ result = -4.
Proof.
  intros h output output' refs refs' result Hstart.
  unfold rewind_first_part, mbind, outcome_bind in Hstart.
  cbv zeta in Hstart.
  repeat case_match; simplify_eq; auto.
Qed.

(** X8.  What a rewind returns is 0, 1, -1, -3 or -4; it is -1 exactly
    on a store without buffer; and an iterator for which a rewind
    returned 1 has found the end of the buffer: every further rewind on
    the same store returns 1 and leaves the iterator and the references
    as they are. *)
Theorem rewind_result_and_end_of_buffer :
  forall (E : environment) (h : OUTPUTHISTORY)
         (output output' : history_output) (refs refs' : rewind_references)
         (result : Z),
    output_rewind_paragraph E h output refs
    = Returns (result, output', refs') ->
    (result = 0 \/ result = 1 \/ result = -1 \/ result = -3 \/ result = -4)
    /\ (result = -1 <-> z_history_buffer_size h = 0)
    /\ (result = 1 ->
        found_end_of_buffer output' = true
        /\ forall refs2 : rewind_references,
             output_rewind_paragraph E h output' refs2
             = Returns (1, output', refs2)).
Proof.
  intros E h output output' refs refs' result Hrun.
  pose proof (output_rewind_paragraph_untouched _ _ _ _ _ _ _ Hrun)
    as (Hvalidity & _).
  apply (validate_unless_disabled_validity h) in Hvalidity.
  unfold output_rewind_paragraph in Hrun.
  unfold mbind, outcome_bind in Hrun.
  destruct (validate_unless_disabled h output) as [[]| | |] eqn:Hvalid;
    try discriminate.
  assert (Hsticky :
            z_history_buffer_size h <> 0 ->
            found_end_of_buffer output' = true ->
            forall refs2 : rewind_references,
              output_rewind_paragraph E h output' refs2
              = Returns (1, output', refs2)).
  { intros Hsize Hfound refs2. unfold output_rewind_paragraph.
    rewrite Hvalidity. cbn [mbind outcome_bind].
    destruct (Z.eqb_spec (z_history_buffer_size h) 0); [contradiction|].
    rewrite Hfound. reflexivity. }
  destruct (Z.eqb_spec (z_history_buffer_size h) 0) as [Hsize|Hsize].
  { simplify_eq. split; [auto|]. split; [tauto|]. discriminate. }
  destruct (found_end_of_buffer output) eqn:Hfound.
  { simplify_eq. split; [auto|]. split; [split; [discriminate|tauto]|].
    intros _. split; [exact Hfound|]. now apply Hsticky. }
  destruct (rewind_first_part h output refs) as [start| | |] eqn:Hstart;
    try discriminate.
  destruct start as [r o rf|o index wraps].
  - apply rewind_first_part_result in Hstart. simplify_eq.
    split; [tauto|]. split; [split; [lia|tauto]|]. lia.
  - destruct (rewind_to_newline _ _ _ _ _ _ _ _ _) as [[found rf]| | |];
      try discriminate.
    destruct found as [[[last_index last_wraps] nof_chars]|].
    + destruct (evaluate_metadata_for_paragraph E h _) as [o1| | |];
        try discriminate.
      simplify_eq. split; [auto|]. split; [split; [discriminate|tauto]|].
      discriminate.
    + simplify_eq. split; [auto|]. split; [split; [discriminate|tauto]|].
      intros _. split; [reflexivity|]. now apply Hsticky.
Qed.

Lemma evaluate_metadata_search_same_place :
  forall (E : environment) (fuel : nat) (h : OUTPUTHISTORY)
         (output output' : history_output) (index wraps : Z)
         (i2 i3 : option Z),
    evaluate_metadata_search E fuel h output index wraps i2 i3
    = Returns output' ->
    place output' = place output
    /\ target output' = target output
    /\ last_paragraph_attribute_index output'
       = last_paragraph_attribute_index output
    /\ metadata_at_index_evaluated output'
       = metadata_at_index_evaluated output.
Proof.
  intros E fuel h. induction fuel as [|fuel IH];
    intros output output' index wraps i2 i3 Hrun;
    cbn [evaluate_metadata_search] in Hrun.
  - destruct (metadata_unresolved output); [discriminate|].
    simplify_eq. auto.
  - destruct (metadata_unresolved output); [|simplify_eq; auto].
    destruct (decrement_buffer_pointer h index wraps) as [[p w]|].
    + unfold mbind, outcome_bind in Hrun. cbv zeta in Hrun.
      repeat case_match; simplify_eq;
        match goal with
        | H : evaluate_metadata_search _ _ _ _ _ _ _ _ = Returns _ |- _ =>
            apply IH in H; exact H
        end.
    + simplify_eq. unfold fill_in_at_end_of_buffer.
      repeat case_match; auto.
Qed.

(** X9.  Evaluating the metadata of a paragraph twice is evaluating it
    once: the second evaluation returns the iterator that the first one
    returned. *)
Theorem evaluate_metadata_twice :
  forall (E : environment) (h : OUTPUTHISTORY)
         (output output' : history_output),
    evaluate_metadata_for_paragraph E h output = Returns output' ->
    metadata_at_index_evaluated output' = true
    /\ current_paragraph_index output' = current_paragraph_index output
    /\ evaluate_metadata_for_paragraph E h output' = Returns output'.
Proof.
  intros E h output output' Hrun.
  pose proof (evaluate_metadata_for_paragraph_untouched _ _ _ _ Hrun)
    as (Hvalidity & _).
  apply (validate_unless_disabled_validity h) in Hvalidity.
  unfold evaluate_metadata_for_paragraph in Hrun.
  unfold mbind, outcome_bind in Hrun. cbv zeta in Hrun.
  destruct (validate_unless_disabled h output) as [[]| | |] eqn:Hvalid;
    try discriminate.
  assert (Hagain :
            metadata_at_index_evaluated output' = true ->
            evaluate_metadata_for_paragraph E h output' = Returns output').
  { intros Hdone. unfold evaluate_metadata_for_paragraph.
    rewrite Hvalidity. cbn [mbind outcome_bind]. rewrite Hdone.
    reflexivity. }
  destruct (metadata_at_index_evaluated output) eqn:Hdone.
  { simplify_eq. auto. }
  destruct (_ =? 0); [discriminate|].
  destruct (_ && _).
  - simplify_eq. cbn. split; [reflexivity|]. split; [reflexivity|].
    now apply Hagain.
  - destruct (evaluate_metadata_search _ _ _ _ _ _ _ _) as [o| | |] eqn:Hs;
      try discriminate.
    simplify_eq. cbn. split; [reflexivity|]. split; [|now apply Hagain].
    apply evaluate_metadata_search_same_place in Hs as (Hplace & _).
    unfold place in Hplace. cbn in Hplace.
    injection Hplace as Hindex _. exact Hindex.
Qed.

(** X10.  No rewind, repetition or evaluation assigns the cache of the
    last metadata state: on an iterator from [init_history_output] the
    cache stays as [init_history_output] set it, block index -1, font
    and style -1, colours undefined. *)
Theorem cache_is_never_filled :
  forall (E : environment) (uninitialised : history_output)
         (h : OUTPUTHISTORY) (output_init_flags : Z)
         (output output' : history_output),
    init_history_output E uninitialised h output_init_flags = Some output ->
    rtc (reads E h) output output' ->
    cache output'
    = (-1, -1, -1, Z_COLOUR_UNDEFINED, Z_COLOUR_UNDEFINED).
Proof.
  intros E uninitialised h output_init_flags output output' Hinit Hsteps.
  apply rtc_reads_untouched in Hsteps as (_ & _ & _ & ->).
  unfold init_history_output in Hinit.
  destruct (z_history_buffer_size h =? 0); [discriminate|].
  cbv zeta in Hinit.
  destruct (Z.land output_init_flags _ =? 0).
  - destruct (decrement_buffer_pointer h _ 0) as [[index wraps]|];
      [|discriminate].
    injection Hinit as <-. reflexivity.
  - injection Hinit as <-. reflexivity.
Qed.

(** ** Repetitions *)

Lemma evaluate_metadata_for_paragraph_same_place :
  forall (E : environment) (h : OUTPUTHISTORY)
         (output output' : history_output),
    evaluate_metadata_for_paragraph E h output = Returns output' ->
    place output' = place output
    /\ target output' = target output
    /\ last_paragraph_attribute_index output'
       = last_paragraph_attribute_index output.
Proof.
  intros E h output output' Hrun.
  unfold evaluate_metadata_for_paragraph in Hrun.
  unfold mbind, outcome_bind in Hrun. cbv zeta in Hrun.
  destruct (validate_unless_disabled h output); try discriminate.
  destruct (metadata_at_index_evaluated output); [simplify_eq; auto|].
  destruct (_ =? 0); [discriminate|].
  destruct (_ && _).
  - simplify_eq. auto.
  - destruct (evaluate_metadata_search _ _ _ _ _ _ _ _) as [o| | |] eqn:Hs;
      try discriminate.
    apply evaluate_metadata_search_same_place in Hs
      as (Hplace & Htarget & Hlast & _).
    injection Hrun as <-.
    split; [exact Hplace|]. split; [exact Htarget|exact Hlast].
Qed.

Lemma repeat_metadata_calls :
  forall (E : environment) (h : OUTPUTHISTORY)
         (output output' : history_output) (output_ptr : Z)
         (include_metadata : bool) (metadata_type output_ptr' : Z),
    repeat_metadata E h output output_ptr include_metadata
    = Returns (output', metadata_type, output_ptr') ->
    place output' = place output
    /\ exists calls : list target_call,
         target output' = target output ++ calls
         /\ (include_metadata = false -> calls = []).
Proof.
  intros E h output output' output_ptr include_metadata metadata_type
         output_ptr' Hrun.
  unfold repeat_metadata, mbind, outcome_bind in Hrun. cbv zeta in Hrun.
  repeat case_match; simplify_eq; (split; [reflexivity|]); cbn;
    first [ exists []; split; [now rewrite app_nil_r|reflexivity]
          | eexists [_]; split; [reflexivity|discriminate] ].
Qed.

Lemma repeat_paragraphs_loop_calls :
  forall (E : environment) (fuel : nat) (h : OUTPUTHISTORY)
         (output output' : history_output) (n output_ptr : Z)
         (output_buf : list Z) (metadata_type : Z) (include_metadata : bool)
         (n' output_ptr' : Z),
    repeat_paragraphs_loop E fuel h output n output_ptr output_buf
      metadata_type include_metadata
    = Returns (output', n', output_ptr') ->
    place output' = place output
    /\ exists calls : list target_call,
         target output' = target output ++ calls
         /\ (include_metadata = false ->
             Forall (fun c => is_text c = true) calls).
Proof.
  intros E fuel h. induction fuel as [|fuel IH];
    intros output output' n output_ptr output_buf metadata_type
           include_metadata n' output_ptr' Hrun;
    cbn [repeat_paragraphs_loop] in Hrun.
  - destruct (0 <? n); [discriminate|]. simplify_eq.
    split; [reflexivity|]. exists []. now rewrite app_nil_r.
  - destruct (0 <? n);
      [|simplify_eq; split; [reflexivity|]; exists [];
        now rewrite app_nil_r].
    unfold mbind, outcome_bind in Hrun. cbv zeta in Hrun.
    destruct (load h output_ptr) as [c| | |]; try discriminate.
    destruct (_ || _).
    + destruct (output_ptr =? _).
      { simplify_eq. split; [reflexivity|].
        eexists [_]. split; [reflexivity|]. intros _. now repeat constructor. }
      destruct (_ <? 1).
      { simplify_eq. split; [reflexivity|].
        eexists [_]. split; [reflexivity|]. intros _. now repeat constructor. }
      destruct (c =? HISTORY_METADATA_ESCAPE).
      * destruct (repeat_metadata E h _ output_ptr include_metadata)
          as [[[o t] p]| | |] eqn:Hm; try discriminate.
        apply repeat_metadata_calls in Hm
          as (Hplace1 & calls1 & Htarget1 & Hnone).
        destruct (if t =? -1 then load h p else Returns c) as [unit| | |];
          try discriminate.
        apply IH in Hrun as (Hplace2 & calls2 & Htarget2 & Htext).
        split; [rewrite Hplace2, Hplace1; reflexivity|].
        exists (z_ucs_output output_buf :: calls1 ++ calls2).
        split.
        -- rewrite Htarget2, Htarget1. cbn. rewrite <- !app_assoc.
           reflexivity.
        -- intros Hno. rewrite (Hnone Hno). cbn.
           constructor; [reflexivity|]. now apply Htext.
      * apply IH in Hrun as (Hplace2 & calls2 & Htarget2 & Htext).
        split; [rewrite Hplace2; reflexivity|].
        exists (z_ucs_output output_buf :: calls2). split.
        -- rewrite Htarget2. cbn. rewrite <- app_assoc. reflexivity.
        -- intros Hno. constructor; [reflexivity|]. now apply Htext.
    + apply IH in Hrun. exact Hrun.
Qed.

Lemma output_repeat_paragraphs_calls :
  forall (E : environment) (h : OUTPUTHISTORY)
         (output output' : history_output) (n result : Z)
         (include_metadata advance : bool),
    output_repeat_paragraphs E h output n include_metadata advance
    = Returns (result, output') ->
    exists (evaluated : history_output) (calls : list target_call),
      (if include_metadata then evaluate_metadata_for_paragraph E h output
       else Returns output) = Returns evaluated
      /\ target output'
         = target output
           ++ [set_font (font_at_index evaluated);
               set_text_style (style_at_index evaluated);
               set_colour (foreground_at_index evaluated)
                 (background_at_index evaluated) (-1)]
           ++ calls
      /\ (include_metadata = false ->
          Forall (fun c => is_text c = true) calls)
      /\ (advance = false -> place output' = place output).
Proof.
  intros E h output output' n result include_metadata advance Hrun.
  unfold output_repeat_paragraphs in Hrun.
  unfold mbind, outcome_bind in Hrun. cbv zeta in Hrun.
  destruct (validate_unless_disabled h output); try discriminate.
  destruct (if include_metadata then _ else _) as [o1| | |] eqn:Hfirst;
    try discriminate.
  assert (Hsame : place o1 = place output /\ target o1 = target output).
  { destruct include_metadata.
    - apply evaluate_metadata_for_paragraph_same_place in Hfirst.
      split; apply Hfirst.
    - injection Hfirst as <-. auto. }
  destruct Hsame as (Hplace1 & Htarget1).
  exists o1.
  destruct (if current_paragraph_index output =? _ then _ else _)
    as [[[o2 n2] p2]| | |] eqn:Hloop; try discriminate.
  assert (Hcalls :
            exists calls : list target_call,
              target o2
              = target output
                ++ [set_font (font_at_index o1);
                    set_text_style (style_at_index o1);
                    set_colour (foreground_at_index o1)
                      (background_at_index o1) (-1)]
                ++ calls
              /\ (include_metadata = false ->
                  Forall (fun c => is_text c = true) calls)
              /\ (advance = false -> place o2 = place output)).
  { destruct (current_paragraph_index output =? _).
    - injection Hloop as <- _ _. exists []. split.
      + destruct advance; cbn; rewrite Htarget1, <- !app_assoc; reflexivity.
      + split; [constructor|]. intros ->. exact Hplace1.
    - apply repeat_paragraphs_loop_calls in Hloop
        as (Hplace2 & calls & Htarget2 & Htext).
      exists calls. split.
      + rewrite Htarget2.
        destruct advance; cbn; rewrite Htarget1, <- !app_assoc; reflexivity.
      + split; [exact Htext|]. intros ->. rewrite Hplace2. exact Hplace1. }
  destruct Hcalls as (calls & Htarget2 & Htext & Hplace2).
  exists calls. split; [reflexivity|].
  destruct advance.
  - split; [|split; [exact Htext|discriminate]].
    repeat case_match; simplify_eq; exact Htarget2.
  - injection Hrun as _ <-. auto.
Qed.

(** X11.  A repetition hands the target the font, the style and the
    colours of the iterator (evaluated first, when metadata is to be
    included) before anything else, and never takes a call back.
    Without metadata every further call hands over text: the records in
    the buffer reach the iterator, not the target. *)
Theorem repetition_sets_state_before_text :
  forall (E : environment) (h : OUTPUTHISTORY)
         (output output' : history_output) (n result : Z)
         (include_metadata advance : bool),
    output_repeat_paragraphs E h output n include_metadata advance
    = Returns (result, output') ->
    exists (evaluated : history_output) (calls : list target_call),
      (if include_metadata then evaluate_metadata_for_paragraph E h output
       else Returns output) = Returns evaluated
      /\ target output'
         = target output
           ++ [set_font (font_at_index evaluated);
               set_text_style (style_at_index evaluated);
               set_colour (foreground_at_index evaluated)
                 (background_at_index evaluated) (-1)]
           ++ calls
      /\ (include_metadata = false ->
          Forall (fun c => is_text c = true) calls).
Proof.
  intros E h output output' n result include_metadata advance Hrun.
  apply output_repeat_paragraphs_calls in Hrun
    as (evaluated & calls & Hfirst & Htarget & Htext & _).
  exists evaluated, calls. auto.
Qed.

(** X12.  A repetition that is not to advance the history pointer
    leaves the iterator where it is: index, counter of wrap-arounds and
    the flags of the rewinding are as before, and so are the fields that
    validation compares, the saved slot and the cache. *)
Theorem repetition_without_advance_stays :
  forall (E : environment) (h : OUTPUTHISTORY)
         (output output' : history_output) (n result : Z)
         (include_metadata : bool),
    output_repeat_paragraphs E h output n include_metadata false
    = Returns (result, output') ->
    place output' = place output /\ untouched output output'.
Proof.
  intros E h output output' n result include_metadata Hrun.
  split.
  - apply output_repeat_paragraphs_calls in Hrun
      as (_ & _ & _ & _ & _ & Hplace).
    now apply Hplace.
  - eapply output_repeat_paragraphs_untouched; exact Hrun.
Qed.

(** ** A fresh iterator *)

(** X19.  [init_history_output] gives no iterator exactly for a store
    without buffer and, from the front, for a store that has not wrapped
    and whose front is at the start of the buffer.  An iterator from the
    front is on the unit before the front (the end of the buffer, when
    the front is at the start), with the state at the front; an iterator
    from the back is on the back index, with the state at the back, and
    has found the end of the buffer: a rewind returns 1 and leaves it as
    it is. *)
Theorem fresh_iterator :
  forall (E : environment) (uninitialised : history_output)
         (h : OUTPUTHISTORY) (output_init_flags : Z),
    0 <= z_history_buffer_front_index h ->
    (init_history_output E uninitialised h output_init_flags = None
     <-> z_history_buffer_size h = 0
         \/ (Z.land output_init_flags (Z_HISTORY_OUTPUT_FROM_BUFFERBACK E) = 0
             /\ z_history_buffer_front_index h = 0
             /\ nof_wraparounds h = 0))
    /\ forall output : history_output,
         init_history_output E uninitialised h output_init_flags
         = Some output ->
         if Z.land output_init_flags (Z_HISTORY_OUTPUT_FROM_BUFFERBACK E)
            =? 0
         then
           current_paragraph_index output
           = (if z_history_buffer_front_index h =? 0
              then z_history_buffer_end h
              else z_history_buffer_front_index h - 1)
           /\ state_at_index output
              = (history_buffer_front_index_font h,
                 history_buffer_front_index_style h,
                 history_buffer_front_index_foreground h,
                 history_buffer_front_index_background h)
           /\ found_end_of_buffer output = false
         else
           current_paragraph_index output = z_history_buffer_back_index h
           /\ state_at_index output
              = (history_buffer_back_index_font h,
                 history_buffer_back_index_style h,
                 history_buffer_back_index_foreground h,
                 history_buffer_back_index_background h)
           /\ forall refs : rewind_references,
                output_rewind_paragraph E h output refs
                = Returns (1, output, refs).
Proof.
  intros E uninitialised h output_init_flags Hfront.
  unfold init_history_output.
  destruct (Z.eqb_spec (z_history_buffer_size h) 0) as [Hsize|Hsize].
  { split; [|discriminate]. split; auto. }
  cbv zeta.
  destruct (Z.eqb_spec (Z.land output_init_flags
                          (Z_HISTORY_OUTPUT_FROM_BUFFERBACK E)) 0)
    as [Hflag|Hflag].
  - unfold decrement_buffer_pointer. cbn [Z.ltb Z.compare].
    rewrite andb_false_r.
    destruct (Z.ltb_spec (z_history_buffer_front_index h - 1) 0).
    + destruct (Z.eqb_spec (nof_wraparounds h) 0).
      * split; [|discriminate]. split; [|reflexivity].
        intros _. right. split; [exact Hflag|]. split; [lia|assumption].
      * split.
        -- split; [discriminate|]. intros [?|(_ & _ & ?)]; contradiction.
        -- intros output [= <-]. cbn.
           destruct (Z.eqb_spec (z_history_buffer_front_index h) 0); [|lia].
           auto.
    + split.
      * split; [discriminate|]. intros [?|(_ & ? & _)]; [contradiction|lia].
      * intros output [= <-]. cbn.
        destruct (Z.eqb_spec (z_history_buffer_front_index h) 0); [lia|].
        auto.
  - split.
    + split; [discriminate|].
      intros [?|(? & _)]; contradiction.
    + intros output [= <-]. cbn.
      split; [reflexivity|]. split; [reflexivity|].
      intros refs. unfold output_rewind_paragraph.
      unfold validate_unless_disabled, validate_outputhistory. cbn.
      rewrite !Z.eqb_refl. cbn.
      destruct (negb (negb _)); cbn;
        destruct (Z.eqb_spec (z_history_buffer_size h) 0);
        try contradiction; reflexivity.
Qed.

(** * Paragraph attributes that are altered *)

Lemma to_int_small :
  forall a : Z, - 2 ^ 31 <= a < 2 ^ 31 -> to_int a = a.
Proof.
  intros a Ha. unfold to_int, to_signed.
  change (2 ^ 32) with 4294967296. change (2 ^ (32 - 1)) with 2147483648.
  change (2 ^ 31) with 2147483648 in Ha.
  destruct (Z.ltb_spec (a mod 4294967296) 2147483648) as [Hlt|Hge].
  - destruct (Z_lt_le_dec a 0) as [Hneg|Hpos].
    + rewrite <- (Z.mod_add a 1 4294967296) in Hlt by lia.
      rewrite Z.mod_small in Hlt by lia. lia.
    + apply Z.mod_small. lia.
  - destruct (Z_lt_le_dec a 0) as [Hneg|Hpos].
    + rewrite <- (Z.mod_add a 1 4294967296) by lia.
      rewrite Z.mod_small by lia. lia.
    + rewrite Z.mod_small in Hge by lia. lia.
Qed.

(** The unit that holds a parameter, read as [output_rewind_paragraph]
    reads a paragraph attribute. *)
Lemma stored_parameter_decodes :
  forall a : Z,
    - 2 ^ 31 <= a < 2 ^ 31 ->
    to_int (to_z_ucs (a + HISTORY_METADATA_DATA_OFFSET)
            - HISTORY_METADATA_DATA_OFFSET) = a.
Proof.
  intros a Ha. rewrite <- (to_int_small a Ha) at 2.
  unfold to_int, to_signed, to_z_ucs, to_unsigned_int.
  rewrite Zminus_mod_idemp_l.
  replace (a + HISTORY_METADATA_DATA_OFFSET - HISTORY_METADATA_DATA_OFFSET)
    with a by lia.
  reflexivity.
Qed.

(** X13.  On an allocated buffer of more than one cell, altering the
    attributes of the last paragraph of an iterator that passes
    validation writes the two parameters, plus 13, to the cell that the
    iterator points to and to the next cell of the ring, and to no other
    cell; read as a rewind reads them, the two cells give back the two
    attributes.  The geometry of the store stays.  Without such a
    pointer the call returns -1 and leaves the store as it is. *)
Theorem altered_attributes_are_read_back :
  forall (h : OUTPUTHISTORY) (output : history_output) (a1 a2 : Z),
    validate_outputhistory h output = Returns tt ->
    1 < z_history_buffer_size h ->
    Z.of_nat (length (z_history_buffer_start h)) = z_history_buffer_size h + 1 ->
    z_history_buffer_end h = z_history_buffer_size h - 1 ->
    - 2 ^ 31 <= a1 < 2 ^ 31 ->
    - 2 ^ 31 <= a2 < 2 ^ 31 ->
    match last_paragraph_attribute_index output with
    | None =>
        alter_last_paragraph_attributes h output a1 a2 = Returns (-1, h)
    | Some index =>
        0 <= index <= z_history_buffer_end h ->
        exists (h' : OUTPUTHISTORY) (c1 c2 : Z),
          alter_last_paragraph_attributes h output a1 a2 = Returns (0, h')
          /\ load h' index = Returns c1
          /\ load h' (increment h index) = Returns c2
          /\ to_int (c1 - HISTORY_METADATA_DATA_OFFSET) = a1
          /\ to_int (c2 - HISTORY_METADATA_DATA_OFFSET) = a2
          /\ (forall i : Z,
                i <> index -> i <> increment h index ->
                load h' i = load h i)
          /\ same_geometry h h'
    end.
Proof.
  intros h output a1 a2 Hvalid Hsize Hblock Hend Ha1 Ha2.
  unfold alter_last_paragraph_attributes. rewrite Hvalid.
  cbn [mbind outcome_bind].
  destruct (last_paragraph_attribute_index output) as [index|];
    [|reflexivity].
  intros Hindex.
  set (c1 := to_z_ucs (a1 + HISTORY_METADATA_DATA_OFFSET)).
  set (c2 := to_z_ucs (a2 + HISTORY_METADATA_DATA_OFFSET)).
  destruct (store h index c1) as [h1| | |] eqn:H1.
  2-4: unfold store in H1;
       destruct (Z.leb_spec 0 index); [|lia];
       destruct (Z.ltb_spec index
                   (Z.of_nat (length (z_history_buffer_start h))));
       [discriminate|lia].
  pose proof (store_same_geometry _ _ _ _ H1) as Hg1.
  assert (Hend1 : z_history_buffer_end h1 = z_history_buffer_end h)
    by apply Hg1.
  assert (Hlen1 : length (z_history_buffer_start h1)
                  = length (z_history_buffer_start h)) by apply Hg1.
  cbn [mbind outcome_bind]. rewrite Hend1. fold (increment h index).
  assert (Hnext : 0 <= increment h index <= z_history_buffer_end h
                  /\ increment h index <> index).
  { unfold increment. destruct (Z.ltb_spec (z_history_buffer_end h)
                                  (index + 1)); lia. }
  destruct (store h1 (increment h index) c2) as [h2| | |] eqn:H2.
  2-4: unfold store in H2; rewrite Hlen1 in H2;
       destruct (Z.leb_spec 0 (increment h index)); [|lia];
       destruct (Z.ltb_spec (increment h index)
                   (Z.of_nat (length (z_history_buffer_start h))));
       [discriminate|lia].
  pose proof (store_same_geometry _ _ _ _ H2) as Hg2.
  cbn [mbind outcome_bind].
  exists h2, c1, c2. split; [reflexivity|].
  pose proof (fun i => load_store _ _ _ _ i H1) as Hload1.
  pose proof (fun i => load_store _ _ _ _ i H2) as Hload2.
  split.
  { rewrite Hload2 by lia.
    destruct (Z.eqb_spec index (increment h index)); [lia|].
    rewrite Hload1, Z.eqb_refl by lia. reflexivity. }
  split.
  { rewrite Hload2, Z.eqb_refl by lia. reflexivity. }
  split; [now apply stored_parameter_decodes|].
  split; [now apply stored_parameter_decodes|].
  split.
  - intros i Hi1 Hi2.
    destruct (Z_lt_le_dec i 0) as [Hneg|Hpos].
    { unfold load. destruct (Z.leb_spec 0 i); [lia|reflexivity]. }
    rewrite Hload2 by lia.
    destruct (Z.eqb_spec i (increment h index)); [contradiction|].
    rewrite Hload1 by lia. destruct (Z.eqb_spec i index); [contradiction|].
    reflexivity.
  - eapply same_geometry_trans; eassumption.
Qed.

(** * Stepping back through the buffer *)

Lemma decrement_buffer_pointer_unwrapped :
  forall (h : OUTPUTHISTORY) (ptr : Z),
    nof_wraparounds h = 0 ->
    decrement_buffer_pointer h ptr 0
    = if ptr - 1 <? 0 then None else Some (ptr - 1, 0).
Proof.
  intros h ptr Hwraps. unfold decrement_buffer_pointer.
  rewrite Hwraps. cbn. rewrite andb_false_r. reflexivity.
Qed.

Lemma remove_chars_walk_unwrapped :
  forall (E : environment) (h : OUTPUTHISTORY) (fuel : nat)
         (ptr last_data nof_chars ptr' wraps' : Z),
    nof_wraparounds h = 0 ->
    remove_chars_walk E fuel h ptr 0 last_data nof_chars
    = Returns (Some (ptr', wraps')) ->
    ptr' <= ptr /\ wraps' = 0 /\ (nof_chars <= 0 -> ptr' = ptr).
Proof.
  intros E h fuel. induction fuel as [|fuel IH];
    intros ptr last_data nof_chars ptr' wraps' Hwraps Hwalk;
    cbn [remove_chars_walk] in Hwalk.
  - destruct (Z.ltb_spec 0 nof_chars); [discriminate|].
    simplify_eq. auto with zarith.
  - destruct (Z.ltb_spec 0 nof_chars); [|simplify_eq; auto with zarith].
    rewrite (decrement_buffer_pointer_unwrapped h ptr Hwraps) in Hwalk.
    destruct (Z.ltb_spec (ptr - 1) 0); [discriminate|].
    unfold mbind, outcome_bind in Hwalk.
    destruct (load h (ptr - 1)); try discriminate.
    destruct (_ && _); apply IH in Hwalk as (? & ? & _);
      try assumption; (split; [lia|]); (split; [assumption|lia]).
Qed.

(** X14.  Removing characters returns -1 or 0 and writes no cell.  On
    -1 the store is as it was.  On 0 only the front and the counter of
    wrap-arounds may differ, and on a well-formed store the new front is
    within the buffer; if the store has not wrapped, the front has not
    moved forward and the store still has not wrapped. *)
Theorem remove_chars_moves_only_the_front :
  forall (E : environment) (h h' : OUTPUTHISTORY) (nof_chars result : Z),
    well_formed h ->
    remove_chars_from_history E h nof_chars = Returns (result, h') ->
    (result = -1 /\ h' = h)
    \/ (result = 0
        /\ h' = set_nof_wraparounds (nof_wraparounds h')
                  (set_z_history_buffer_front_index
                     (z_history_buffer_front_index h') h)
        /\ 0 <= z_history_buffer_front_index h' <= z_history_buffer_size h
        /\ (nof_wraparounds h = 0 ->
            z_history_buffer_front_index h' <= z_history_buffer_front_index h
            /\ nof_wraparounds h' = 0)).
Proof.
  intros E h h' nof_chars result Hh Hrun.
  unfold remove_chars_from_history in Hrun.
  unfold mbind, outcome_bind in Hrun.
  destruct (remove_chars_walk E _ h _ _ 0 nof_chars) as [[[p w]|]| | |]
    eqn:Hwalk; try discriminate.
  - injection Hrun as <- <-. right. split; [reflexivity|]. cbn.
    split; [reflexivity|]. split.
    + eapply remove_chars_walk_within; [exact Hh| |exact Hwalk]. apply Hh.
    + intros Hwraps. rewrite Hwraps in Hwalk.
      apply remove_chars_walk_unwrapped in Hwalk as (? & ? & _);
        [auto|exact Hwraps].
  - injection Hrun as <- <-. left. auto.
Qed.

Lemma find_older_paragraph_walk_unwrapped :
  forall (E : environment) (h : OUTPUTHISTORY) (fuel : nat) (index : Z),
    nof_wraparounds h = 0 ->
    0 <= index ->
    (Z.to_nat index < fuel)%nat ->
    (forall i : Z, 0 <= i <= index -> exists c : Z, load h i = Returns c) ->
    exists r : option Z,
      find_older_paragraph_walk fuel h index 0 = Returns r
      /\ match r with
         | Some p =>
             0 <= p <= index
             /\ load h p = Returns Z_UCS_NEWLINE
             /\ forall i : Z,
                  p < i <= index -> load h i <> Returns Z_UCS_NEWLINE
         | None =>
             forall i : Z,
               0 <= i <= index -> load h i <> Returns Z_UCS_NEWLINE
         end.
Proof.
  intros E h fuel. induction fuel as [|fuel IH];
    intros index Hwraps Hindex Hfuel Hcells; [lia|].
  cbn [find_older_paragraph_walk].
  destruct (Hcells index ltac:(lia)) as (c & Hc). rewrite Hc.
  cbn [mbind outcome_bind].
  destruct (Z.eqb_spec c Z_UCS_NEWLINE) as [->|Hother]; cbn [negb].
  - exists (Some index). split; [reflexivity|].
    split; [lia|]. split; [exact Hc|]. intros i Hi. lia.
  - rewrite (decrement_buffer_pointer_unwrapped h index Hwraps).
    destruct (Z.ltb_spec (index - 1) 0).
    + exists None. split; [reflexivity|]. intros i Hi.
      replace i with index by lia. rewrite Hc. congruence.
    + destruct (IH (index - 1)) as (r & Hrun & Hr);
        [exact Hwraps|lia|lia|intros i Hi; apply Hcells; lia|].
      exists r. split; [exact Hrun|].
      destruct r as [p|].
      * destruct Hr as (Hp & Hnewline & Hnone).
        split; [lia|]. split; [exact Hnewline|]. intros i Hi.
        destruct (Z.eq_dec i index) as [->|Hne];
          [rewrite Hc; congruence|apply Hnone; lia].
      * intros i Hi.
        destruct (Z.eq_dec i index) as [->|Hne];
          [rewrite Hc; congruence|apply Hr; lia].
Qed.

(** X15.  On a store that has not wrapped, [find_older_paragraph]
    returns from every index whose cells down to the start can be read:
    with the nearest newline at or before the index, or with [NULL] when
    there is none down to the start of the buffer.  On a store without
    buffer it returns [NULL]. *)
Theorem find_older_paragraph_finds_nearest_newline :
  forall (E : environment) (h : OUTPUTHISTORY) (index : Z),
    nof_wraparounds h = 0 ->
    0 <= index ->
    (Z.to_nat index < loop_budget E)%nat ->
    (forall i : Z, 0 <= i <= index -> exists c : Z, load h i = Returns c) ->
    exists r : option Z,
      find_older_paragraph E h index = Returns r
      /\ (z_history_buffer_size h = 0 -> r = None)
      /\ (z_history_buffer_size h <> 0 ->
          match r with
          | Some p =>
              0 <= p <= index
              /\ load h p = Returns Z_UCS_NEWLINE
              /\ forall i : Z,
                   p < i <= index -> load h i <> Returns Z_UCS_NEWLINE
          | None =>
              forall i : Z,
                0 <= i <= index -> load h i <> Returns Z_UCS_NEWLINE
          end).
Proof.
  intros E h index Hwraps Hindex Hfuel Hcells.
  unfold find_older_paragraph. cbv zeta. rewrite Hwraps.
  destruct (Z.eqb_spec (z_history_buffer_size h) 0) as [Hsize|Hsize].
  - exists None. split; [reflexivity|]. split; [reflexivity|]. contradiction.
  - destruct (find_older_paragraph_walk_unwrapped E h (loop_budget E) index)
      as (r & Hrun & Hr); try assumption.
    exists r. split; [exact Hrun|]. split; [contradiction|]. intros _.
    exact Hr.
Qed.

(** * A buffer that cannot be had *)

Lemma store_data_without_memory :
  forall (E : environment) (h : OUTPUTHISTORY) (data : list Z) (n : Z),
    (forall k : Z, realloc_succeeds E k = false) ->
    z_history_buffer_size h = 0 ->
    nof_wraparounds h = 0 ->
    z_history_buffer_end h = 0 ->
    z_history_buffer_front_index h = 0 ->
    z_history_buffer_increment_size h <> 0 ->
    0 < n < z_history_maximum_buffer_size h ->
    store_data E h data n = Returns h.
Proof.
  intros E h data n Hrealloc Hsize Hwraps Hend Hfront Hincrement Hn.
  unfold store_data.
  destruct (Z.leb_spec (z_history_maximum_buffer_size h) n); [lia|].
  unfold get_buffer_space_available. rewrite Hsize. cbn [Z.eqb].
  destruct (Z.ltb_spec 0 n); [|lia].
  destruct (Z.eqb_spec (z_history_buffer_increment_size h) 0);
    [contradiction|].
  cbv zeta.
  assert (Hkept : forall d : Z, try_to_enlarge_buffer E h d = Returns h).
  { intros d. unfold try_to_enlarge_buffer. cbv zeta.
    now rewrite Hrealloc. }
  rewrite Hkept.
  match goal with
  | |- context [if ?c then Returns h else Returns h] =>
      replace (if c then Returns h else Returns h) with (Returns h)
        by (destruct c; reflexivity)
  end.
  cbn [mbind outcome_bind]. rewrite Hsize, Hwraps, Hend, Hfront.
  destruct (Z.ltb_spec 0 n); [|lia].
  cbn. reflexivity.
Qed.

(** X16.  When [realloc] gives no memory, text for a store that has no
    buffer yet is dropped: for text shorter than the maximum size the
    call returns, and the store is as [create_outputhistory] made it. *)
Theorem text_is_dropped_without_memory :
  forall (E : environment)
         (window maximum increment fg bg font style : Z) (units : list Z),
    (forall n : Z, realloc_succeeds E n = false) ->
    Z_HISTORY_METADATA_STATE_BLOCK_SIZE E <> 0 ->
    increment <> 0 ->
    Forall (fun c => c <> 0) units ->
    Z.of_nat (length units) < maximum ->
    store_z_ucs_output_in_history E
      (create_outputhistory window maximum increment fg bg font style)
      (z_ucs_string units)
    = Returns
        (create_outputhistory window maximum increment fg bg font style).
Proof.
  intros E window maximum increment fg bg font style units Hrealloc Hblock
         Hincrement Hunits Hlen.
  unfold z_ucs_string, store_z_ucs_output_in_history.
  rewrite (z_ucs_len_of_text units Hunits). cbn [mbind outcome_bind].
  destruct (Z.eqb_spec (Z.of_nat (length units)) 0) as [Hzero|Hpositive];
    [reflexivity|].
  unfold store_data_in_history.
  rewrite store_data_without_memory;
    [|exact Hrealloc|reflexivity..|exact Hincrement|cbn; lia].
  cbn [mbind outcome_bind].
  unfold write_metadata_state_block_if_necessary.
  destruct (Z.eqb_spec (Z_HISTORY_METADATA_STATE_BLOCK_SIZE E) 0);
    [contradiction|].
  reflexivity.
Qed.

(** * The ring when the store has wrapped *)

Lemma store_data_wrapped_back :
  forall (E : environment) (fuel : nat) (h h' : OUTPUTHISTORY)
         (data : list Z) (data_offset len : Z),
    store_data_wrapped E fuel h data data_offset len = Returns h' ->
    0 < len
    \/ z_history_buffer_back_index h = z_history_buffer_front_index h ->
    z_history_buffer_back_index h' = z_history_buffer_front_index h'
    /\ nof_wraparounds h' = nof_wraparounds h.
Proof.
  intros E fuel. induction fuel as [|fuel IH];
    intros h h' data data_offset len Hrun Hstart;
    cbn [store_data_wrapped] in Hrun.
  - destruct (Z.ltb_spec 0 len); [discriminate|].
    injection Hrun as <-. split; [lia|reflexivity].
  - destruct (Z.ltb_spec 0 len);
      [|injection Hrun as <-; split; [lia|reflexivity]].
    unfold mbind, outcome_bind in Hrun. cbv zeta in Hrun.
    destruct (process_buffer_back E h _) as [h1| | |] eqn:H1;
      try discriminate.
    apply process_buffer_back_same_geometry in H1.
    destruct (z_ucs_ncpy _ h1 _ data data_offset) as [h2| | |] eqn:H2;
      try discriminate.
    apply z_ucs_ncpy_same_geometry in H2.
    apply IH in Hrun; [|right; reflexivity].
    destruct Hrun as (Hback & Hwraps). split; [exact Hback|].
    rewrite Hwraps.
    destruct H1 as ((_ & _ & _ & _ & _ & Hw1 & _) & _).
    destruct H2 as ((_ & _ & _ & _ & _ & Hw2 & _) & _).
    destruct (_ =? _ + 1); cbn; congruence.
Qed.

Lemma store_data_ring :
  forall (E : environment) (h h' : OUTPUTHISTORY) (data : list Z) (len : Z),
    well_formed h ->
    0 < len < z_history_maximum_buffer_size h ->
    (nof_wraparounds h <> 0 -> 0 < z_history_buffer_size h) ->
    store_data E h data len = Returns h' ->
    full_when_wrapped h'.
Proof.
  intros E h h' data len Hh Hlen Hallocated Hrun Hwrapped.
  unfold store_data in Hrun.
  pose proof (well_formed_nonnegative h Hh) as Hsize0.
  destruct (Z.leb_spec (z_history_maximum_buffer_size h) len); [lia|].
  unfold mbind at 1, outcome_bind in Hrun.
  match type of Hrun with
  | match ?grow with _ => _ end = _ =>
      destruct grow as [h1| | |] eqn:H1; try discriminate
  end.
  assert (Hg1 : grown h h1
                /\ z_history_buffer_front_index h1
                   = z_history_buffer_front_index h
                /\ nof_wraparounds h1 = nof_wraparounds h).
  { destruct (_ <? len);
      [|simplify_eq; split; [now apply grown_refl|auto]].
    destruct (_ =? 0); [discriminate|].
    match type of H1 with
    | (if _ <? ?d then _ else _) = _ =>
        destruct (Z.ltb_spec (z_history_buffer_size h) d);
        [|simplify_eq; split; [now apply grown_refl|auto]];
        destruct (try_to_enlarge_buffer_well_formed E h h1 d Hh)
          as (Ha & Hb & Hc & Hd & He)
    end.
    - split; [assumption|].
      match goal with
      | |- context [if ?a <? ?b then _ else _] =>
          destruct (Z.ltb_spec a b)
      end; lia.
    - exact H1.
    - split; [split; [exact Ha|split; [exact Hb|exact Hc]]|].
      split; [exact Hd|exact He]. }
  clear H1. destruct Hg1 as (Hg1 & Hf1 & Hwr1).
  pose proof Hg1 as (Hw1 & Hs1 & _).
  pose proof (well_formed_nonnegative h1 Hw1) as Hsize1.
  destruct (if z_history_buffer_size h1 <? len
            then (len - z_history_buffer_size h1, z_history_buffer_size h1)
            else (0, len)) as [data_offset len'] eqn:Hlen'.
  assert (Hlen0 : 0 <= len' <= z_history_buffer_size h1
                  /\ (0 < z_history_buffer_size h1 -> 0 < len')).
  { destruct (Z.ltb_spec (z_history_buffer_size h1) len);
      simplify_eq; lia. }
  destruct (Z.eqb_spec (nof_wraparounds h1) 0) as [Hunwrapped|Hw].
  2: { rewrite Hwr1 in Hw. specialize (Hallocated Hw).
       pose proof (store_data_wrapped_grown _ _ _ _ _ _ _ Hw1 Hrun)
         as (_ & Hs' & _).
       apply store_data_wrapped_back in Hrun; [|left; apply Hlen0; lia].
       split; [apply Hrun|lia]. }
  rewrite (room_to_the_end h1 Hw1) in Hrun.
  unfold mbind, outcome_bind in Hrun. cbv zeta in Hrun.
  set (room := if z_history_buffer_size h1 =? 0 then 1
               else z_history_buffer_size h1
                    - z_history_buffer_front_index h1) in *.
  set (wrote := if len' <? room then len' else room) in *.
  match type of Hrun with
  | match ?write with _ => _ end = _ =>
      destruct write as [h2| | |] eqn:H2; try discriminate
  end.
  assert (Hg2 : nof_wraparounds h2 = 0
                /\ well_formed h2
                /\ z_history_buffer_size h2 = z_history_buffer_size h1).
  { destruct (Z.ltb_spec 0 wrote); [|injection H2 as <-; auto].
    destruct (z_ucs_ncpy _ h1 _ data data_offset) as [h3| | |] eqn:H3;
      try discriminate.
    apply z_ucs_ncpy_same_geometry in H3.
    pose proof (grown_same_geometry h1 h3 Hw1 H3) as (Hw3 & _).
    destruct H3 as ((Hs3 & _ & _ & Hf3 & _ & Hwr3 & _) & _).
    injection H2 as <-. cbn. split; [congruence|]. split; [|exact Hs3].
    apply well_formed_front; [exact Hw3|].
    destruct Hw1 as (_ & _ & _ & Hfront1).
    unfold wrote, room in *.
    destruct (Z.eqb_spec (z_history_buffer_size h1) 0);
      destruct (Z.ltb_spec len' 1);
      destruct (Z.ltb_spec len'
                  (z_history_buffer_size h1
                   - z_history_buffer_front_index h1)); lia. }
  destruct Hg2 as (Hwr2 & Hw2 & Hs2).
  destruct (Z.eqb_spec wrote len') as [Hall|Hrest].
  { injection Hrun as <-. contradiction. }
  assert (Hpositive : 0 < len').
  { destruct Hlen0 as ((Hlen0 & _) & _).
    assert (len' <> 0); [|lia].
    intros ->. apply Hrest. unfold wrote, room.
    destruct Hw1 as (_ & _ & _ & Hfront1).
    destruct (Z.eqb_spec (z_history_buffer_size h1) 0).
    - reflexivity.
    - destruct (Z.ltb_spec 0 (z_history_buffer_size h1
                              - z_history_buffer_front_index h1)); lia. }
  assert (Hw2' : well_formed
                   (set_z_history_buffer_front_index 0
                      (set_nof_wraparounds
                         (if to_unsigned_int (nof_wraparounds h2 + 1) =? 0
                          then 1
                          else to_unsigned_int (nof_wraparounds h2 + 1))
                         h2))).
  { destruct Hw2 as (? & ? & ? & ?).
    unfold well_formed, buffer_shape in *. cbn.
    repeat split; solve [lia | assumption]. }
  pose proof (store_data_wrapped_grown _ _ _ _ _ _ _ Hw2' Hrun)
    as (_ & Hs' & _).
  cbn in Hs'.
  apply store_data_wrapped_back in Hrun; [|left; exact Hpositive].
  split; [apply Hrun|lia].
Qed.

Lemma store_metadata_in_history_ring :
  forall (E : environment) (h h' : OUTPUTHISTORY) (metadata_type : Z)
         (ap : list Z) (result : Z),
    well_formed h ->
    4 < z_history_maximum_buffer_size h ->
    full_when_wrapped h ->
    store_metadata_in_history E h metadata_type ap = Returns (result, h') ->
    full_when_wrapped h'.
Proof.
  intros E h h' metadata_type ap result Hh Hmax Hfull Hrun.
  unfold store_metadata_in_history in Hrun.
  unfold mbind, outcome_bind, va_arg, i18n_translate_and_exit in Hrun.
  cbv zeta in Hrun.
  repeat case_match; simplify_eq;
    try exact Hfull;
    match goal with
    | H : store_data _ ?h0 _ _ = Returns _ |- _ =>
        apply store_data_ring in H;
        [ exact H
        | destruct Hh as (? & ? & ? & ?);
          unfold well_formed, buffer_shape in *; cbn;
          repeat split; solve [lia | assumption]
        | cbn; lia
        | cbn; intros Hw; apply Hfull; exact Hw ]
    end.
Qed.

Lemma write_metadata_state_block_if_necessary_ring :
  forall (E : environment) (h h' : OUTPUTHISTORY),
    well_formed h ->
    4 < z_history_maximum_buffer_size h ->
    full_when_wrapped h ->
    write_metadata_state_block_if_necessary E h = Returns h' ->
    full_when_wrapped h'.
Proof.
  intros E h h' Hh Hmax Hfull Hrun.
  unfold write_metadata_state_block_if_necessary in Hrun.
  destruct (_ =? 0); [discriminate|].
  unfold mbind at 1, outcome_bind at 1 in Hrun.
  match type of Hrun with
  | match ?records with _ => _ end = _ =>
      destruct records as [h1| | |] eqn:H1; try discriminate
  end.
  assert (Hfull1 : full_when_wrapped h1).
  { destruct (negb _); [|injection H1 as <-; exact Hfull].
    unfold mbind, outcome_bind in H1.
    destruct (store_metadata_in_history E h _ _) as [[r1 g1]| | |] eqn:Hfont;
      try discriminate.
    pose proof (store_metadata_in_history_grown _ _ _ _ _ _ Hh Hfont)
      as (Hw1 & _ & Hm1).
    apply store_metadata_in_history_ring in Hfont; try assumption.
    destruct (store_metadata_in_history E g1 _ _) as [[r2 g2]| | |]
      eqn:Hstyle; try discriminate.
    pose proof (store_metadata_in_history_grown _ _ _ _ _ _ Hw1 Hstyle)
      as (Hw2 & _ & Hm2).
    apply store_metadata_in_history_ring in Hstyle;
      [|exact Hw1|lia|exact Hfont].
    destruct (store_metadata_in_history E g2 _ _) as [[r3 g3]| | |]
      eqn:Hcolour; try discriminate.
    apply store_metadata_in_history_ring in Hcolour;
      [|exact Hw2|lia|exact Hstyle].
    injection H1 as <-. exact Hcolour. }
  injection Hrun as <-. exact Hfull1.
Qed.

(** X17.  Once the store has wrapped the ring is full.  After a write of
    data, with or without the state block, or of text, of fewer units
    than a maximum size of more than four units, a well-formed store
    that has wrapped has its back index on its front index, so the
    oldest unit of the buffer is the one that the next write replaces;
    no space is available and the space used is the size of the
    buffer. *)
Theorem ring_is_full_after_wrapped_write :
  forall (E : environment) (h : OUTPUTHISTORY),
    well_formed h ->
    4 < z_history_maximum_buffer_size h ->
    (nof_wraparounds h <> 0 -> 0 < z_history_buffer_size h) ->
    (forall (data : list Z) (len : Z) (evaluate_state_block : bool)
            (h' : OUTPUTHISTORY),
        0 < len < z_history_maximum_buffer_size h ->
        store_data_in_history E h (Some data) len evaluate_state_block
        = Returns h' ->
        nof_wraparounds h' <> 0 ->
        z_history_buffer_back_index h' = z_history_buffer_front_index h'
        /\ get_buffer_space_available h' = 0
        /\ get_buffer_space_used h' = z_history_buffer_size h')
    /\ (forall (units : list Z) (h' : OUTPUTHISTORY),
          Forall (fun c => c <> 0) units ->
          0 < Z.of_nat (length units) < z_history_maximum_buffer_size h ->
          store_z_ucs_output_in_history E h (z_ucs_string units)
          = Returns h' ->
          nof_wraparounds h' <> 0 ->
          z_history_buffer_back_index h' = z_history_buffer_front_index h'
          /\ get_buffer_space_available h' = 0
          /\ get_buffer_space_used h' = z_history_buffer_size h').
Proof.
  intros E h Hh Hmax Hallocated.
  assert (Hdata :
            forall (data : list Z) (len : Z) (evaluate_state_block : bool)
                   (h' : OUTPUTHISTORY),
              0 < len < z_history_maximum_buffer_size h ->
              store_data_in_history E h (Some data) len evaluate_state_block
              = Returns h' ->
              nof_wraparounds h' <> 0 ->
              z_history_buffer_back_index h' = z_history_buffer_front_index h'
              /\ get_buffer_space_available h' = 0
              /\ get_buffer_space_used h' = z_history_buffer_size h').
  { intros data len evaluate_state_block h' Hlen Hrun Hwrapped.
    pose proof (store_data_in_history_grown _ _ _ _ _ _ Hh Hrun)
      as (Hh' & Hle & _).
    assert (Hfull : full_when_wrapped h').
    { unfold store_data_in_history in Hrun.
      unfold mbind, outcome_bind in Hrun.
      destruct (store_data E h data len) as [h0| | |] eqn:Hstore;
        try discriminate.
      pose proof (store_data_grown _ _ _ _ _ Hh Hstore) as (Hh0 & _ & Hm0).
      apply store_data_ring in Hstore; try assumption.
      destruct evaluate_state_block; [|injection Hrun as <-; exact Hstore].
      eapply write_metadata_state_block_if_necessary_ring;
        [exact Hh0|lia|exact Hstore|exact Hrun]. }
    destruct (Hfull Hwrapped) as (Hback & Hsize).
    split; [exact Hback|].
    destruct Hh' as (_ & Hsize' & Hmax' & _).
    unfold get_buffer_space_available, get_buffer_space_used.
    destruct (Z.eqb_spec (z_history_buffer_size h') 0); [lia|].
    destruct (Z.eqb_spec (nof_wraparounds h') 0); [contradiction|].
    rewrite Hback. rewrite Z.sub_diag, Z.sub_0_r. unfold to_size_t.
    split; [reflexivity|]. apply Z.mod_small. lia. }
  split; [exact Hdata|].
  intros units h' Hunits Hlen Hrun Hwrapped.
  unfold z_ucs_string, store_z_ucs_output_in_history in Hrun.
  rewrite (z_ucs_len_of_text units Hunits) in Hrun.
  cbn [mbind outcome_bind] in Hrun.
  destruct (Z.eqb_spec (Z.of_nat (length units)) 0); [lia|].
  eapply Hdata; eassumption.
Qed.

(** * Processing the back of the buffer *)

Lemma process_buffer_back_newline_not_exits :
  forall (E : environment) (fuel : nat) (h : OUTPUTHISTORY)
         (current_index : Z),
    process_buffer_back_newline E fuel h current_index <> Exits.
Proof.
  intros E fuel. induction fuel as [|fuel IH]; intros; simpl.
  - discriminate.
  - no_exits; apply IH.
Qed.

Lemma process_buffer_back_chars_exits :
  forall (E : environment) (fuel : nat) (h : OUTPUTHISTORY)
         (current_index nof_zucs_chars : Z),
    process_buffer_back_chars E fuel h current_index nof_zucs_chars = Exits ->
    exists p t : Z,
      load h p = Returns HISTORY_METADATA_ESCAPE
      /\ load h (next_index h p) = Returns t
      /\ t <> HISTORY_METADATA_ESCAPE
      /\ known_metadata_type E t = false.
Proof.
  intros E fuel. induction fuel as [|fuel IH];
    intros h current_index nof_zucs_chars Hrun;
    cbn [process_buffer_back_chars] in Hrun; [discriminate|].
  unfold mbind, outcome_bind, i18n_translate_and_exit in Hrun.
  cbv zeta in Hrun.
  repeat case_match; simplify_eq;
    try (exfalso; eapply load_not_exits; eassumption);
    try (apply IH in Hrun as (p & t & Hp & Ht & Hne & Hunknown);
         exists p, t; unfold load, next_index in *; cbn in *;
         repeat split; assumption).
  all: match goal with
       | Hc : load _ ?p = Returns ?c,
         Ht : load _ (next_index _ ?p) = Returns ?t |- _ =>
           exists p, t
       end.
  all: repeat match goal with
              | H : (_ =? _) = true |- _ => apply Z.eqb_eq in H
              | H : (_ =? _) = false |- _ => apply Z.eqb_neq in H
              end.
  all: unfold load, next_index, known_metadata_type in *; cbn in *;
       subst; repeat split; try assumption;
       repeat match goal with
              | H : ?a <> ?b |- context [?a =? ?b] =>
                  destruct (Z.eqb_spec a b); [contradiction|]
              end; reflexivity.
Qed.

Lemma process_buffer_back_chars_front_state :
  forall (E : environment) (fuel : nat) (h h' : OUTPUTHISTORY)
         (current_index nof_zucs_chars current_index' : Z),
    process_buffer_back_chars E fuel h current_index nof_zucs_chars
    = Returns (h', current_index') ->
    front_state h' = front_state h.
Proof.
  intros E fuel. induction fuel as [|fuel IH];
    intros h h' current_index nof_zucs_chars current_index' Hrun;
    cbn [process_buffer_back_chars] in Hrun; [discriminate|].
  unfold mbind, outcome_bind, i18n_translate_and_exit in Hrun.
  cbv zeta in Hrun.
  repeat case_match; simplify_eq;
    try (apply IH in Hrun; exact Hrun); reflexivity.
Qed.

Lemma process_buffer_back_newline_front_state :
  forall (E : environment) (fuel : nat) (h h' : OUTPUTHISTORY)
         (current_index current_index' : Z),
    process_buffer_back_newline E fuel h current_index
    = Returns (h', current_index') ->
    front_state h' = front_state h.
Proof.
  intros E fuel. induction fuel as [|fuel IH];
    intros h h' current_index current_index' Hrun;
    cbn [process_buffer_back_newline] in Hrun; [discriminate|].
  unfold mbind, outcome_bind in Hrun. cbv zeta in Hrun.
  repeat case_match; simplify_eq;
    try (apply IH in Hrun; exact Hrun); reflexivity.
Qed.

Lemma process_buffer_back_chars_removes_nothing :
  forall (E : environment) (fuel : nat) (h h' : OUTPUTHISTORY)
         (current_index nof_zucs_chars current_index' : Z),
    paragraph_removal_function E = false ->
    process_buffer_back_chars E fuel h current_index nof_zucs_chars
    = Returns (h', current_index') ->
    paragraphs_removed h' = paragraphs_removed h.
Proof.
  intros E fuel. induction fuel as [|fuel IH];
    intros h h' current_index nof_zucs_chars current_index' Hflag Hrun;
    cbn [process_buffer_back_chars] in Hrun; [discriminate|].
  rewrite Hflag in Hrun. cbn [andb] in Hrun.
  unfold mbind, outcome_bind, i18n_translate_and_exit in Hrun.
  cbv zeta in Hrun.
  repeat case_match; simplify_eq;
    try (apply IH in Hrun; [exact Hrun|exact Hflag]); reflexivity.
Qed.

(** X18.  [process_buffer_back] reads the buffer and writes no cell of
    it: when it returns, the block, the geometry of the store, the state
    at the front and the index of the last state block are as before,
    and without a paragraph removal function no paragraph is reported as
    removed.  It ends the program only where the buffer holds an escape
    followed by a unit that is neither an escape nor one of the four
    types. *)
Theorem process_buffer_back_reads_only :
  forall (E : environment) (h : OUTPUTHISTORY) (nof_zucs_chars : Z),
    (forall h' : OUTPUTHISTORY,
        process_buffer_back E h nof_zucs_chars = Returns h' ->
        z_history_buffer_start h' = z_history_buffer_start h
        /\ same_frame h h'
        /\ front_state h' = front_state h
        /\ (paragraph_removal_function E = false ->
            paragraphs_removed h' = paragraphs_removed h))
    /\ (process_buffer_back E h nof_zucs_chars = Exits ->
        exists p t : Z,
          load h p = Returns HISTORY_METADATA_ESCAPE
          /\ load h (next_index h p) = Returns t
          /\ t <> HISTORY_METADATA_ESCAPE
          /\ known_metadata_type E t = false).
Proof.
  intros E h nof_zucs_chars. split.
  - intros h' Hrun.
    split; [eapply process_buffer_back_keeps_block; exact Hrun|].
    split; [eapply process_buffer_back_same_frame; exact Hrun|].
    unfold process_buffer_back in Hrun.
    unfold mbind at 1, outcome_bind in Hrun.
    destruct (process_buffer_back_chars E _ h _ _) as [[h1 index1]| | |]
      eqn:H1; try discriminate.
    pose proof (process_buffer_back_chars_front_state _ _ _ _ _ _ _ H1)
      as Hfront1.
    destruct (paragraph_removal_function E) eqn:Hflag; cbn [andb] in Hrun.
    + split; [|discriminate].
      destruct (bool_decide _); [|injection Hrun as <-; exact Hfront1].
      unfold mbind, outcome_bind in Hrun.
      destruct (process_buffer_back_newline E _ _ index1)
        as [[h2 index2]| | |] eqn:H2; try discriminate.
      apply process_buffer_back_newline_front_state in H2.
      injection Hrun as <-.
      change (front_state h2 = front_state h).
      rewrite H2. exact Hfront1.
    + injection Hrun as <-. split; [exact Hfront1|]. intros _.
      eapply process_buffer_back_chars_removes_nothing; [|exact H1].
      exact Hflag.
  - intros Hexit. unfold process_buffer_back in Hexit.
    apply bind_exits in Hexit as [Hexit|([h1 index1] & _ & Hexit)].
    + eapply process_buffer_back_chars_exits; exact Hexit.
    + exfalso. destruct (_ && _); [|discriminate].
      apply bind_exits in Hexit as [Hexit|([h2 index2] & _ & Hexit)];
        [|discriminate].
      now apply process_buffer_back_newline_not_exits in Hexit.
Qed.

(** ** The further properties at work *)

Ltac computed :=
  vm_compute; repeat split; first [reflexivity | discriminate].

Lemma hello_written_well_formed : well_formed hello_written.
Proof. split; [right; computed | computed]. Qed.

Lemma hello_written_linear : linear_store hello_written.
Proof. unfold linear_store. computed. Qed.

Lemma hello_written_rewound :
  output_rewind_paragraph fizmo_environment hello_written iterator_A
    (references 0 0 0)
  = Returns (rewound_A.1.1, rewound_A.1.2, rewound_A.2).
Proof. vm_compute. reflexivity. Qed.

Lemma hello_written_repeated :
  output_repeat_paragraphs fizmo_environment hello_written rewound_A.1.2 1
    false false
  = Returns (repeated_A.1, repeated_A.2).
Proof. vm_compute. reflexivity. Qed.

(** The store of scenario 5 and its successor. *)
Lemma writes_keep_store_well_formed_witness :
  well_formed hello_written /\ grown hello_written hello_x_written.
Proof.
  split; [exact hello_written_well_formed|].
  destruct (writes_keep_store_well_formed fizmo_environment hello_written
              hello_written_well_formed) as (_ & _ & Htext & _).
  apply (Htext (z_ucs_string (text "x"))). vm_compute. reflexivity.
Defined.

Lemma stores_from_create_are_well_formed_witness :
  0 <= 64 < 2 ^ 64
  /\ rtc (writes fizmo_environment) (create_outputhistory 0 64 16 9 2 1 0)
       hello_x_written
  /\ well_formed hello_x_written
  /\ z_history_buffer_size hello_x_written <= 64.
Proof.
  assert (Hmax : 0 <= 64 < 2 ^ 64) by computed.
  assert (Hsteps : rtc (writes fizmo_environment)
                     (create_outputhistory 0 64 16 9 2 1 0) hello_x_written).
  { apply (rtc_l _ _ hello_written).
    - apply (writes_text _ _ _ hello_newline). vm_compute. reflexivity.
    - apply rtc_once.
      apply (writes_text _ _ _ (z_ucs_string (text "x"))).
      vm_compute. reflexivity. }
  split; [exact Hmax|]. split; [exact Hsteps|].
  destruct (stores_from_create_are_well_formed fizmo_environment 0 64 16 9 2
              1 0 hello_x_written Hmax Hsteps) as (Hh & _ & _ & Hsize).
  split; [exact Hh|exact Hsize].
Defined.

Lemma stored_text_is_read_back_witness :
  linear_store hello_written
  /\ Forall (fun c => c <> 0) (text "x")
  /\ 0 < Z.of_nat (length (text "x"))
     < z_history_maximum_buffer_size hello_written
  /\ z_history_buffer_front_index hello_written
     + Z.of_nat (length (text "x"))
     <= z_history_buffer_size hello_written
  /\ exists h' : OUTPUTHISTORY,
       store_z_ucs_output_in_history fizmo_environment hello_written
         (z_ucs_string (text "x")) = Returns h'
       /\ units_between h' (z_history_buffer_front_index hello_written)
            (z_history_buffer_front_index h') = text "x".
Proof.
  assert (Hunits : Forall (fun c => c <> 0) (text "x"))
    by (repeat constructor; discriminate).
  assert (Hlen : 0 < Z.of_nat (length (text "x"))
                 < z_history_maximum_buffer_size hello_written)
    by computed.
  assert (Hfits : z_history_buffer_front_index hello_written
                  + Z.of_nat (length (text "x"))
                  <= z_history_buffer_size hello_written) by computed.
  assert (Hblock : front_in_last_state_block fizmo_environment
                     (set_z_history_buffer_front_index
                        (z_history_buffer_front_index hello_written
                         + Z.of_nat (length (text "x"))) hello_written))
    by (split; [vm_compute; discriminate|vm_compute; reflexivity]).
  split; [exact hello_written_linear|]. split; [exact Hunits|].
  split; [exact Hlen|]. split; [exact Hfits|].
  destruct (stored_text_is_read_back fizmo_environment hello_written
              (text "x") hello_written_linear Hunits Hlen Hfits Hblock)
    as (h' & Hrun & _ & Hread & _).
  exists h'. split; [exact Hrun|exact Hread].
Defined.

(** A colour of 16 for the foreground ends the program. *)
Lemma metadata_exits_only_for_colours_witness :
  linear_store hello_written
  /\ 4 < z_history_maximum_buffer_size hello_written
  /\ z_history_buffer_front_index hello_written + 4
     <= z_history_buffer_size hello_written
  /\ store_metadata_in_history fizmo_environment hello_written
       (HISTORY_METADATA_TYPE_COLOUR fizmo_environment) [16; 5] = Exits.
Proof.
  assert (Hmax : 4 < z_history_maximum_buffer_size hello_written)
    by computed.
  assert (Hfits : z_history_buffer_front_index hello_written + 4
                  <= z_history_buffer_size hello_written) by computed.
  assert (Hp1 : - 2 ^ 15 <= 16 < 2 ^ 15) by computed.
  assert (Hp2 : - 2 ^ 15 <= 5 < 2 ^ 15) by computed.
  split; [exact hello_written_linear|]. split; [exact Hmax|].
  split; [exact Hfits|].
  destruct (metadata_exits_only_for_colours fizmo_environment hello_written
              (HISTORY_METADATA_TYPE_COLOUR fizmo_environment) 16 5
              hello_written_linear Hmax Hfits Hp1 Hp2) as ((_ & Hexit) & _).
  apply Hexit. split; [reflexivity|]. left. reflexivity.
Defined.

(** The colours 4 and 5 are stored as the units 17 and 18. *)
Lemma metadata_record_is_read_back_witness :
  linear_store hello_written
  /\ known_metadata_type fizmo_environment
       (HISTORY_METADATA_TYPE_COLOUR fizmo_environment) = true
  /\ exists h' : OUTPUTHISTORY,
       store_metadata_in_history fizmo_environment hello_written
         (HISTORY_METADATA_TYPE_COLOUR fizmo_environment) [4; 5]
       = Returns (0, h')
       /\ units_between h' (z_history_buffer_front_index hello_written)
            (z_history_buffer_front_index h') = [0; 3; 17; 18].
Proof.
  assert (Hknown : known_metadata_type fizmo_environment
                     (HISTORY_METADATA_TYPE_COLOUR fizmo_environment) = true)
    by reflexivity.
  assert (Hmax : record_width fizmo_environment
                   (HISTORY_METADATA_TYPE_COLOUR fizmo_environment)
                 < z_history_maximum_buffer_size hello_written) by computed.
  assert (Hfits : z_history_buffer_front_index hello_written
                  + record_width fizmo_environment
                      (HISTORY_METADATA_TYPE_COLOUR fizmo_environment)
                  <= z_history_buffer_size hello_written) by computed.
  assert (Hp1 : - 2 ^ 15 <= 4 < 2 ^ 15) by computed.
  assert (Hp2 : - 2 ^ 15 <= 5 < 2 ^ 15) by computed.
  assert (Hcolour : HISTORY_METADATA_TYPE_COLOUR fizmo_environment
                    = HISTORY_METADATA_TYPE_COLOUR fizmo_environment ->
                    -2 <= 4 <= 15 /\ -2 <= 5 <= 15)
    by (intros _; computed).
  split; [exact hello_written_linear|]. split; [exact Hknown|].
  destruct (metadata_record_is_read_back fizmo_environment hello_written
              (HISTORY_METADATA_TYPE_COLOUR fizmo_environment) 4 5
              hello_written_linear Hknown Hmax Hfits Hp1 Hp2 Hcolour)
    as (h' & Hrun & _ & Hread & _).
  exists h'. split; [exact Hrun|exact Hread].
Defined.

(** Iterator A still passes validation after its first rewind. *)
Lemma iterator_stays_valid_witness :
  init_history_output fizmo_environment zeroed_output hello_written 0
  = Some iterator_A
  /\ rtc (moves fizmo_environment hello_written) iterator_A rewound_A.1.2
  /\ validate_outputhistory hello_written rewound_A.1.2 = Returns tt.
Proof.
  assert (Hinit : init_history_output fizmo_environment zeroed_output
                    hello_written 0 = Some iterator_A) by reflexivity.
  assert (Hsteps : rtc (moves fizmo_environment hello_written) iterator_A
                     rewound_A.1.2).
  { apply rtc_once. apply moves_reads.
    exact (reads_rewind _ _ _ _ _ _ _ hello_written_rewound). }
  split; [exact Hinit|]. split; [exact Hsteps|].
  destruct (iterator_stays_valid fizmo_environment zeroed_output
              hello_written 0 iterator_A rewound_A.1.2 Hinit Hsteps)
    as (_ & Hvalid & _).
  exact Hvalid.
Defined.

(** Iterator A remembered, rewound and restored: it is back on its
    index, with [dont_skip_newline] as the rewind set it. *)
Lemma restore_returns_to_remembered_position_witness :
  remember_history_output_position hello_written iterator_A
  = Returns remembered_A
  /\ rtc (reads fizmo_environment hello_written) remembered_A
       remembered_A_rewound.1.2
  /\ restore_history_output_position hello_written remembered_A_rewound.1.2
     = Returns restored_A
  /\ position restored_A = position iterator_A
  /\ dont_skip_newline iterator_A = false
  /\ dont_skip_newline restored_A = true.
Proof.
  assert (Hremember : remember_history_output_position hello_written
                        iterator_A = Returns remembered_A)
    by (vm_compute; reflexivity).
  assert (Hrewind : output_rewind_paragraph fizmo_environment hello_written
                      remembered_A (references 0 0 0)
                    = Returns (remembered_A_rewound.1.1,
                               remembered_A_rewound.1.2,
                               remembered_A_rewound.2))
    by (vm_compute; reflexivity).
  assert (Hsteps : rtc (reads fizmo_environment hello_written) remembered_A
                     remembered_A_rewound.1.2)
    by (apply rtc_once; exact (reads_rewind _ _ _ _ _ _ _ Hrewind)).
  assert (Hrestore : restore_history_output_position hello_written
                       remembered_A_rewound.1.2 = Returns restored_A)
    by (vm_compute; reflexivity).
  split; [exact Hremember|]. split; [exact Hsteps|].
  split; [exact Hrestore|].
  destruct (restore_returns_to_remembered_position fizmo_environment
              hello_written iterator_A remembered_A remembered_A_rewound.1.2
              restored_A Hremember Hsteps Hrestore)
    as (Hposition & _ & Hskip & _).
  split; [exact Hposition|]. split; [reflexivity|].
  rewrite Hskip. reflexivity.
Defined.

(** The iterator from the back of the buffer has found its end. *)
Lemma rewind_result_and_end_of_buffer_witness :
  output_rewind_paragraph fizmo_environment hello_written iterator_C
    (references 0 0 0)
  = Returns (1, iterator_C, references 0 0 0)
  /\ found_end_of_buffer iterator_C = true
  /\ output_rewind_paragraph fizmo_environment hello_written iterator_C
       (references 5 5 5)
     = Returns (1, iterator_C, references 5 5 5).
Proof.
  assert (Hrun : output_rewind_paragraph fizmo_environment hello_written
                   iterator_C (references 0 0 0)
                 = Returns (1, iterator_C, references 0 0 0))
    by (vm_compute; reflexivity).
  split; [exact Hrun|].
  destruct (rewind_result_and_end_of_buffer fizmo_environment hello_written
              iterator_C iterator_C (references 0 0 0) (references 0 0 0) 1
              Hrun) as (_ & _ & Hend).
  destruct (Hend eq_refl) as (Hfound & Hagain).
  split; [exact Hfound|apply Hagain].
Defined.

Lemma evaluate_metadata_twice_witness :
  evaluate_metadata_for_paragraph fizmo_environment hello_written iterator_A
  = Returns evaluated_A
  /\ evaluate_metadata_for_paragraph fizmo_environment hello_written
       evaluated_A
     = Returns evaluated_A.
Proof.
  assert (Hrun : evaluate_metadata_for_paragraph fizmo_environment
                   hello_written iterator_A = Returns evaluated_A)
    by (vm_compute; reflexivity).
  split; [exact Hrun|].
  destruct (evaluate_metadata_twice fizmo_environment hello_written
              iterator_A evaluated_A Hrun) as (_ & _ & Hagain).
  exact Hagain.
Defined.

Lemma cache_is_never_filled_witness :
  init_history_output fizmo_environment zeroed_output hello_written 0
  = Some iterator_A
  /\ rtc (reads fizmo_environment hello_written) iterator_A rewound_A.1.2
  /\ cache rewound_A.1.2
     = (-1, -1, -1, Z_COLOUR_UNDEFINED, Z_COLOUR_UNDEFINED).
Proof.
  assert (Hinit : init_history_output fizmo_environment zeroed_output
                    hello_written 0 = Some iterator_A) by reflexivity.
  assert (Hsteps : rtc (reads fizmo_environment hello_written) iterator_A
                     rewound_A.1.2)
    by (apply rtc_once; exact (reads_rewind _ _ _ _ _ _ _
                                 hello_written_rewound)).
  split; [exact Hinit|]. split; [exact Hsteps|].
  exact (cache_is_never_filled fizmo_environment zeroed_output hello_written
           0 iterator_A rewound_A.1.2 Hinit Hsteps).
Defined.

Lemma repetition_sets_state_before_text_witness :
  output_repeat_paragraphs fizmo_environment hello_written rewound_A.1.2 1
    false false
  = Returns (repeated_A.1, repeated_A.2)
  /\ exists calls : list target_call,
       target repeated_A.2
       = target rewound_A.1.2
         ++ [set_font (font_at_index rewound_A.1.2);
             set_text_style (style_at_index rewound_A.1.2);
             set_colour (foreground_at_index rewound_A.1.2)
               (background_at_index rewound_A.1.2) (-1)]
         ++ calls
       /\ Forall (fun c => is_text c = true) calls.
Proof.
  split; [exact hello_written_repeated|].
  destruct (repetition_sets_state_before_text fizmo_environment
              hello_written rewound_A.1.2 repeated_A.2 1 repeated_A.1 false
              false hello_written_repeated)
    as (evaluated & calls & Hfirst & Htarget & Htext).
  injection Hfirst as <-.
  exists calls. split; [exact Htarget|apply Htext; reflexivity].
Defined.

Lemma repetition_without_advance_stays_witness :
  output_repeat_paragraphs fizmo_environment hello_written rewound_A.1.2 1
    false false
  = Returns (repeated_A.1, repeated_A.2)
  /\ place repeated_A.2 = place rewound_A.1.2.
Proof.
  split; [exact hello_written_repeated|].
  destruct (repetition_without_advance_stays fizmo_environment hello_written
              rewound_A.1.2 repeated_A.2 1 repeated_A.1 false
              hello_written_repeated) as (Hplace & _).
  exact Hplace.
Defined.

(** The attributes 7 and 8 written to the cells 2 and 3. *)
Lemma altered_attributes_are_read_back_witness :
  validate_outputhistory hello_written
    (set_last_paragraph_attribute_index (Some 2) iterator_A) = Returns tt
  /\ 1 < z_history_buffer_size hello_written
  /\ exists (h' : OUTPUTHISTORY) (c1 c2 : Z),
       alter_last_paragraph_attributes hello_written
         (set_last_paragraph_attribute_index (Some 2) iterator_A) 7 8
       = Returns (0, h')
       /\ load h' 2 = Returns c1
       /\ load h' 3 = Returns c2
       /\ to_int (c1 - HISTORY_METADATA_DATA_OFFSET) = 7
       /\ to_int (c2 - HISTORY_METADATA_DATA_OFFSET) = 8.
Proof.
  assert (Hvalid : validate_outputhistory hello_written
                     (set_last_paragraph_attribute_index (Some 2) iterator_A)
                   = Returns tt) by reflexivity.
  assert (Hsize : 1 < z_history_buffer_size hello_written) by computed.
  assert (Hblock : Z.of_nat (length (z_history_buffer_start hello_written))
                   = z_history_buffer_size hello_written + 1)
    by reflexivity.
  assert (Hend : z_history_buffer_end hello_written
                 = z_history_buffer_size hello_written - 1) by reflexivity.
  assert (Ha1 : - 2 ^ 31 <= 7 < 2 ^ 31) by computed.
  assert (Ha2 : - 2 ^ 31 <= 8 < 2 ^ 31) by computed.
  assert (Hindex : 0 <= 2 <= z_history_buffer_end hello_written)
    by computed.
  split; [exact Hvalid|]. split; [exact Hsize|].
  destruct (altered_attributes_are_read_back hello_written
              (set_last_paragraph_attribute_index (Some 2) iterator_A) 7 8
              Hvalid Hsize Hblock Hend Ha1 Ha2 Hindex)
    as (h' & c1 & c2 & Hrun & H1 & H2 & Hd1 & Hd2 & _).
  exists h', c1, c2.
  split; [exact Hrun|]. split; [exact H1|]. split; [exact H2|].
  split; [exact Hd1|exact Hd2].
Defined.

(** Three units off the text of scenario 1. *)
Lemma remove_chars_moves_only_the_front_witness :
  well_formed hello_written
  /\ remove_chars_from_history fizmo_environment hello_written 3
     = Returns
         (0, set_nof_wraparounds 0
               (set_z_history_buffer_front_index 3 hello_written))
  /\ 0 <= 3 <= z_history_buffer_size hello_written.
Proof.
  assert (Hrun : remove_chars_from_history fizmo_environment hello_written 3
                 = Returns
                     (0, set_nof_wraparounds 0
                           (set_z_history_buffer_front_index 3
                              hello_written)))
    by (vm_compute; reflexivity).
  split; [exact hello_written_well_formed|]. split; [exact Hrun|].
  destruct (remove_chars_moves_only_the_front fizmo_environment
              hello_written _ 3 0 hello_written_well_formed Hrun)
    as [(Hresult & _)|(_ & _ & Hfront & _)].
  - discriminate Hresult.
  - exact Hfront.
Defined.

(** From the "x" behind "Hello\n" the nearest newline is found. *)
Lemma find_older_paragraph_finds_nearest_newline_witness :
  nof_wraparounds hello_x_written = 0
  /\ (forall i : Z,
        0 <= i <= 6 -> exists c : Z, load hello_x_written i = Returns c)
  /\ exists r : option Z,
       find_older_paragraph fizmo_environment hello_x_written 6 = Returns r.
Proof.
  assert (Hwraps : nof_wraparounds hello_x_written = 0) by reflexivity.
  assert (Hindex : 0 <= 6) by computed.
  assert (Hfuel : (Z.to_nat 6 < loop_budget fizmo_environment)%nat)
    by (vm_compute; lia).
  assert (Hcells : forall i : Z,
             0 <= i <= 6 ->
             exists c : Z, load hello_x_written i = Returns c).
  { intros i Hi.
    assert (Hcases : i = 0 \/ i = 1 \/ i = 2 \/ i = 3 \/ i = 4 \/ i = 5
                     \/ i = 6) by lia.
    destruct Hcases as [->|[->|[->|[->|[->|[->| ->]]]]]];
      eexists; vm_compute; reflexivity. }
  split; [exact Hwraps|]. split; [exact Hcells|].
  destruct (find_older_paragraph_finds_nearest_newline fizmo_environment
              hello_x_written 6 Hwraps Hindex Hfuel Hcells)
    as (r & Hrun & _).
  exists r. exact Hrun.
Defined.

Lemma text_is_dropped_without_memory_witness :
  (forall n : Z, realloc_succeeds no_memory_environment n = false)
  /\ Forall (fun c => c <> 0) (text "Hello")
  /\ store_z_ucs_output_in_history no_memory_environment
       (create_outputhistory 0 64 16 9 2 1 0) (z_ucs_string (text "Hello"))
     = Returns (create_outputhistory 0 64 16 9 2 1 0).
Proof.
  assert (Hrealloc : forall n : Z,
             realloc_succeeds no_memory_environment n = false)
    by reflexivity.
  assert (Hblock : Z_HISTORY_METADATA_STATE_BLOCK_SIZE no_memory_environment
                   <> 0) by discriminate.
  assert (Hincrement : 16 <> 0) by discriminate.
  assert (Hunits : Forall (fun c => c <> 0) (text "Hello"))
    by (repeat constructor; discriminate).
  assert (Hlen : Z.of_nat (length (text "Hello")) < 64) by computed.
  split; [exact Hrealloc|]. split; [exact Hunits|].
  exact (text_is_dropped_without_memory no_memory_environment 0 64 16 9 2 1
           0 (text "Hello") Hrealloc Hblock Hincrement Hunits Hlen).
Defined.

(** Two more units of text on the wrapped store, and the state block
    behind them. *)
Lemma ring_is_full_after_wrapped_write_witness :
  well_formed wrapped_store
  /\ 4 < z_history_maximum_buffer_size wrapped_store
  /\ store_z_ucs_output_in_history small_block_environment wrapped_store
       (z_ucs_string (text "ab")) = Returns wrapped_store_ab
  /\ last_metadata_block_index wrapped_store_ab
     <> last_metadata_block_index wrapped_store
  /\ z_history_buffer_back_index wrapped_store_ab
     = z_history_buffer_front_index wrapped_store_ab
  /\ get_buffer_space_available wrapped_store_ab = 0.
Proof.
  assert (Hh : well_formed wrapped_store)
    by (split; [right; computed | computed]).
  assert (Hmax : 4 < z_history_maximum_buffer_size wrapped_store)
    by computed.
  assert (Hallocated : nof_wraparounds wrapped_store <> 0 ->
                       0 < z_history_buffer_size wrapped_store)
    by (intros _; computed).
  assert (Hunits : Forall (fun c => c <> 0) (text "ab"))
    by (repeat constructor; discriminate).
  assert (Hlen : 0 < Z.of_nat (length (text "ab"))
                 < z_history_maximum_buffer_size wrapped_store)
    by computed.
  assert (Hrun : store_z_ucs_output_in_history small_block_environment
                   wrapped_store (z_ucs_string (text "ab"))
                 = Returns wrapped_store_ab)
    by (vm_compute; reflexivity).
  assert (Hwrapped : nof_wraparounds wrapped_store_ab <> 0)
    by discriminate.
  split; [exact Hh|]. split; [exact Hmax|]. split; [exact Hrun|].
  split; [discriminate|].
  destruct (ring_is_full_after_wrapped_write small_block_environment
              wrapped_store Hh Hmax Hallocated) as (_ & Htext).
  destruct (Htext (text "ab") wrapped_store_ab Hunits Hlen Hrun Hwrapped)
    as (Hback & Havailable & _).
  split; [exact Hback|exact Havailable].
Defined.

(** Iterator A is on the newline, the last unit written; once the six
    units are taken off again there is no iterator from the front. *)
Lemma fresh_iterator_witness :
  0 <= z_history_buffer_front_index hello_written
  /\ 0 <= z_history_buffer_front_index hello_emptied
  /\ remove_chars_from_history fizmo_environment hello_written 6
     = Returns (0, hello_emptied)
  /\ init_history_output fizmo_environment zeroed_output hello_emptied 0
     = None
  /\ current_paragraph_index iterator_A
     = z_history_buffer_front_index hello_written - 1.
Proof.
  assert (Hfront : 0 <= z_history_buffer_front_index hello_written)
    by computed.
  assert (Hempty : 0 <= z_history_buffer_front_index hello_emptied)
    by computed.
  split; [exact Hfront|]. split; [exact Hempty|].
  split; [vm_compute; reflexivity|]. split.
  - destruct (fresh_iterator fizmo_environment zeroed_output hello_emptied
                0 Hempty) as ((_ & Hnone) & _).
    apply Hnone. right. split; [reflexivity|]. split; reflexivity.
  - destruct (fresh_iterator fizmo_environment zeroed_output hello_written
                0 Hfront) as (_ & Hsome).
    specialize (Hsome iterator_A eq_refl).
    apply Hsome.
Defined.

(** With state blocks of four units the front of scenario 1, at 6, has
    left the block of the last state block. *)
Lemma state_block_holds_the_back_state_witness :
  linear_store hello_written
  /\ distinct_types small_block_environment
  /\ exists h' : OUTPUTHISTORY,
       write_metadata_state_block_if_necessary small_block_environment
         hello_written = Returns h'
       /\ units_between h' 6 16 = [0; 1; 14; 0; 2; 13; 0; 3; 22; 15].
Proof.
  assert (Hdistinct : distinct_types small_block_environment)
    by (unfold distinct_types; rewrite !NoDup_cons, !not_elem_of_cons;
        repeat split; first [discriminate | apply not_elem_of_nil
                            | apply NoDup_nil_2]).
  assert (Hblock : Z_HISTORY_METADATA_STATE_BLOCK_SIZE
                     small_block_environment <> 0) by discriminate.
  assert (Hcrossed :
            z_history_buffer_front_index hello_written
            - Z.rem (z_history_buffer_front_index hello_written)
                (Z_HISTORY_METADATA_STATE_BLOCK_SIZE small_block_environment)
            <> last_metadata_block_index hello_written) by discriminate.
  assert (Hmax : 10 < z_history_maximum_buffer_size hello_written)
    by computed.
  assert (Hfits : z_history_buffer_front_index hello_written + 10
                  <= z_history_buffer_size hello_written) by computed.
  assert (Hfont : - 2 ^ 15 <= history_buffer_back_index_font hello_written
                  < 2 ^ 15) by computed.
  assert (Hstyle : - 2 ^ 15 <= history_buffer_back_index_style hello_written
                   < 2 ^ 15) by computed.
  assert (Hfg : -2 <= history_buffer_back_index_foreground hello_written
                <= 15) by computed.
  assert (Hbg : -2 <= history_buffer_back_index_background hello_written
                <= 15) by computed.
  split; [exact hello_written_linear|]. split; [exact Hdistinct|].
  destruct (state_block_holds_the_back_state small_block_environment
              hello_written hello_written_linear Hdistinct Hblock Hcrossed
              Hmax Hfits Hfont Hstyle Hfg Hbg)
    as (h' & Hrun & Hfront & Hunits & _).
  exists h'. split; [exact Hrun|].
  rewrite Hfront in Hunits. exact Hunits.
Defined.

(** ** The result of a repetition *)








(** ** Validation of an iterator whose store is where it was (C9) *)







